(** * liboauth, [src/oauth_http.c]: the HTTP transports

    A shallow embedding of [oauth_exec_shell], [oauth_exec_post] and
    [oauth_exec_get] (the code compiled when [HAVE_CURL] is not defined),
    of the cURL transport ([WriteMemoryCallback], [oauth_curl_post],
    [oauth_curl_get], [oauth_curl_post_file]) and of the entry points
    [oauth_http_get], [oauth_http_post] and [oauth_post_file], over a
    small model of the C store; the properties of the specification that
    concern the command-line transport, and further properties of all of
    them.

    - C strings and buffers live in a block store ([heap]); a pointer is
      a block and an offset.  Reads and writes outside a live block, or
      through [NULL], are faults: the C program has no defined behaviour
      there.
    - Everything the functions do to the outside world ([getenv], the
      diagnostic on [stderr], [popen], [fread], [pclose]) is recorded in
      a trace.
    - What the code cannot know is a field of [host]: the environment,
      what a command prints, the bytes found in fresh memory, and the
      macros [BUFSIZ] (<stdio.h>) and [VERSION] (config.h).
    - [size_t] is 64 bits wide and its arithmetic wraps around.
    - Allocation succeeds: [xmalloc] and [xrealloc] (xmalloc.h) do not
      return when memory runs out, and [strdup] is taken to do the same.
      A block keeps its name when [xrealloc] resizes it.
    - A stream is what is left of the child's output and the end-of-file
      indicator; read errors are left out.

    - libcurl and the file system are a field of [libcurl] in the same
      way: whether [curl_easy_init] gives a handle, the pieces of the
      reply and the code of a transfer, what [stat] and [fopen] say of a
      path.  A handle and an open [FILE] are each one block of the
      store, so that what is never released can be seen in it. *)

From Stdlib Require Import ZArith Ascii String List Lia.
From stdpp Require Import base gmap list strings.

Open Scope Z_scope.

Abbreviation chars := (list ascii).

(** [str "..."] is the text of a C string literal. *)
Definition str (s : string) : chars := list_ascii_of_string s.

Definition NUL : ascii := Ascii.zero.
Definition PERCENT : ascii := "%"%char.

(** ** Pointers, store, trace *)

Abbreviation block := nat.

Inductive ptr :=
| NULL
| Ptr (b : block) (ofs : nat).

(** A [const char *] argument: a pointer into the store, or text owned by
    the caller (or a string literal), which the code can only read. *)
Inductive cstr :=
| At (p : ptr)
| Lit (s : chars).

(** What a call does to the world.  [EvFread] keeps the size of the
    object the read stores into, the count asked for and the count
    read. *)
Inductive event :=
| EvGetenv (name : chars)
| EvStderr (msg : chars)
| EvPopen (cmd : chars)
| EvFread (capacity requested received : nat)
| EvPclose.

Inductive fault :=
| NullDeref        (* access through a null pointer *)
| InvalidPointer   (* access to a block that is not live *)
| OutOfBounds      (* access past the end of a block *)
| InvalidFree      (* free of a pointer that malloc did not return *)
| NullStream       (* pclose(NULL) *)
| MissingArgument  (* a conversion without an argument *)
| BadConversion    (* a conversion other than %s and %%: not interpreted *)
| OutOfFuel.

Record state := State {
  heap : gmap block chars;
  next : block;
  trace : list event
}.

Record FILE := Stream { pending : chars; eof : bool }.

(** [environ name] is what [getenv] returns.  [spawn cmd] is all that
    the command writes to its standard output, or [None] when [popen]
    cannot start it.  [uninit b i] is the byte at offset [i] of block [b]
    when the allocator hands it out. *)
Record host := Host {
  BUFSIZ : nat;
  VERSION : chars;
  environ : chars -> ptr;
  spawn : chars -> option chars;
  uninit : block -> nat -> ascii
}.

(** ** The monad: state and faults *)

Inductive outcome (A : Type) :=
| Done (a : A)
| Fault (f : fault).
Arguments Done {A} a.
Arguments Fault {A} f.

Definition M (A : Type) : Type := state -> outcome A * state.

Definition ret {A} (a : A) : M A := fun s => (Done a, s).

Definition bind {A B} (m : M A) (k : A -> M B) : M B :=
  fun s => match m s with
           | (Done a, s') => k a s'
           | (Fault f, s') => (Fault f, s')
           end.

Definition fail {A} (f : fault) : M A := fun s => (Fault f, s).

Notation "x <- m ;; k" := (bind m (fun x => k))
  (at level 62, m at next level, right associativity).
Notation "m ;;; k" := (bind m (fun _ => k))
  (at level 62, right associativity).

Definition log (e : event) : M unit :=
  fun s => (Done tt, State (heap s) (next s) (trace s ++ [e])).

Definition block_of (b : block) : M chars :=
  fun s => match heap s !! b with
           | Some l => (Done l, s)
           | None => (Fault InvalidPointer, s)
           end.

Definition set_block (b : block) (l : chars) : M unit :=
  fun s => (Done tt, State (<[b := l]> (heap s)) (next s) (trace s)).

Definition drop_block (b : block) : M unit :=
  fun s => (Done tt, State (delete b (heap s)) (next s) (trace s)).

(** ** Strings *)

Definition is_nul (c : ascii) : bool := Ascii.eqb c NUL.

(** The characters before the first NUL; [None] when there is none. *)
Fixpoint until_nul (l : chars) : option chars :=
  match l with
  | [] => None
  | c :: r => if is_nul c then Some []
              else match until_nul r with
                   | Some t => Some (c :: t)
                   | None => None
                   end
  end.

(** The text of a literal, which ends at its terminator. *)
Fixpoint before_nul (l : chars) : chars :=
  match l with
  | [] => []
  | c :: r => if is_nul c then [] else c :: before_nul r
  end.

Definition cstring_of (h : gmap block chars) (c : cstr) : option chars :=
  match c with
  | Lit s => Some (before_nul s)
  | At NULL => None
  | At (Ptr b o) => match h !! b with
                    | Some l => until_nul (drop o l)
                    | None => None
                    end
  end.

Fixpoint is_prefix (n h : chars) : bool :=
  match n, h with
  | [], _ => true
  | _ :: _, [] => false
  | a :: n', b :: h' => Ascii.eqb a b && is_prefix n' h'
  end.

(** Offset of the first occurrence of [needle] in [hay]. *)
Fixpoint find (needle hay : chars) : option nat :=
  if is_prefix needle hay then Some 0%nat
  else match hay with
       | [] => None
       | _ :: t => match find needle t with
                   | Some i => Some (S i)
                   | None => None
                   end
       end.

Definition size_t (x : Z) : Z := x mod 2 ^ 64.

Definition ptr_add (p : ptr) (i : nat) : ptr :=
  match p with
  | NULL => NULL
  | Ptr b o => Ptr b (o + i)
  end.

(** [p > q] for two pointers into one object. *)
Definition ptr_gt (p q : ptr) : bool :=
  match p, q with
  | Ptr _ o1, Ptr _ o2 => (o2 <? o1)%nat
  | _, _ => false
  end.

Definition is_null (p : ptr) : bool :=
  match p with NULL => true | _ => false end.

Definition cstr_is_null (c : cstr) : bool :=
  match c with At NULL => true | _ => false end.

Section Host.

Variable w : host.

(** ** The C library *)

Definition read_cstr (c : cstr) : M chars :=
  match c with
  | Lit s => ret (before_nul s)
  | At NULL => fail NullDeref
  | At (Ptr b o) =>
      l <- block_of b ;;
      match until_nul (drop o l) with
      | Some t => ret t
      | None => fail OutOfBounds
      end
  end.

Definition write_chars (p : ptr) (cs : chars) : M unit :=
  match p with
  | NULL => fail NullDeref
  | Ptr b o =>
      l <- block_of b ;;
      if decide (o + length cs <= length l)%nat
      then set_block b (take o l ++ cs ++ drop (o + length cs) l)
      else fail OutOfBounds
  end.

(** Bytes [from .. from + n) of block [b] as the allocator hands it out. *)
Definition fresh_bytes (b : block) (from n : nat) : chars :=
  map (uninit w b) (seq from n).

Definition malloc (n : nat) : M ptr :=
  fun s => (Done (Ptr (next s) 0),
            State (<[next s := fresh_bytes (next s) 0 n]> (heap s))
                  (S (next s)) (trace s)).

Definition free (p : ptr) : M unit :=
  match p with
  | NULL => ret tt
  | Ptr b O => block_of b ;;; drop_block b
  | Ptr _ (S _) => fail InvalidFree
  end.

(** xmalloc.h: [malloc] and [realloc] that do not return on failure.
    Neither writes to the memory it adds. *)
Definition xmalloc (n : Z) : M ptr := malloc (Z.to_nat n).

Definition xrealloc (p : ptr) (n : Z) : M ptr :=
  match p with
  | NULL => malloc (Z.to_nat n)
  | Ptr b O =>
      l <- block_of b ;;
      set_block b (take (Z.to_nat n) l
                   ++ fresh_bytes b (length l) (Z.to_nat n - length l)) ;;;
      ret p
  | Ptr _ (S _) => fail InvalidFree
  end.

Definition strlen (c : cstr) : M Z :=
  t <- read_cstr c ;; ret (Z.of_nat (length t)).

Definition strdup (c : cstr) : M ptr :=
  t <- read_cstr c ;;
  q <- malloc (length t + 1) ;;
  write_chars q (t ++ [NUL]) ;;;
  ret q.

Definition strstr (hay : ptr) (needle : chars) : M ptr :=
  t <- read_cstr (At hay) ;;
  match find needle t with
  | Some i => ret (ptr_add hay i)
  | None => ret NULL
  end.

Definition strcat (dst : ptr) (src : cstr) : M ptr :=
  d <- read_cstr (At dst) ;;
  t <- read_cstr src ;;
  write_chars (ptr_add dst (length d)) (t ++ [NUL]) ;;;
  ret dst.

(** The output of [printf] for a format and string arguments. *)
Fixpoint format (fmt : chars) (args : list cstr) : M chars :=
  match fmt with
  | [] => ret []
  | c :: rest =>
      if Ascii.eqb c PERCENT then
        match rest with
        | c' :: rest' =>
            if Ascii.eqb c' "s" then
              match args with
              | a :: args' =>
                  t <- read_cstr a ;;
                  o <- format rest' args' ;;
                  ret (t ++ o)
              | [] => fail MissingArgument
              end
            else if Ascii.eqb c' PERCENT then
              o <- format rest' args ;; ret (PERCENT :: o)
            else fail BadConversion
        | [] => fail BadConversion
        end
      else o <- format rest args ;; ret (c :: o)
  end.

(** The number of [%s] in a format: the arguments [printf] takes for
    it. *)
Fixpoint conversions (fmt : chars) : nat :=
  match fmt with
  | [] => O
  | c :: rest =>
      if Ascii.eqb c PERCENT then
        match rest with
        | c' :: rest' =>
            if Ascii.eqb c' "s" then S (conversions rest')
            else conversions rest'
        | [] => O
        end
      else conversions rest
  end.

Definition snprintf (dst : ptr) (n : nat) (fmt : ptr) (args : list cstr) : M Z :=
  f <- read_cstr (At fmt) ;;
  o <- format f args ;;
  match n with
  | O => ret (Z.of_nat (length o))
  | S m => write_chars dst (take m o ++ [NUL]) ;;; ret (Z.of_nat (length o))
  end.

Definition getenv (name : chars) : M ptr :=
  log (EvGetenv name) ;;; ret (environ w name).

Definition fprintf_stderr (fmt : chars) (args : list cstr) : M unit :=
  o <- format fmt args ;; log (EvStderr o).

Definition popen (cmd : ptr) : M (option FILE) :=
  c <- read_cstr (At cmd) ;;
  log (EvPopen c) ;;;
  ret (match spawn w c with
       | Some out => Some (Stream out false)
       | None => None
       end).

Definition feof (f : FILE) : bool := eof f.

Definition capacity (p : ptr) : M nat :=
  match p with
  | NULL => fail NullDeref
  | Ptr b o => l <- block_of b ;; ret (length l - o)%nat
  end.

(** [fread(p, 1, n, f)] on a pipe: [n] bytes, or what is left before the
    end of the stream, which sets the end-of-file indicator. *)
Definition fread (p : ptr) (n : nat) (f : FILE) : M (Z * FILE) :=
  let got := take n (pending f) in
  cap <- capacity p ;;
  log (EvFread cap n (length got)) ;;;
  write_chars p got ;;;
  ret (Z.of_nat (length got),
       Stream (drop n (pending f)) (eof f || (length (pending f) <? n)%nat)).

Definition pclose (f : option FILE) : M unit :=
  match f with
  | None => fail NullStream
  | Some _ => log EvPclose
  end.

(** An array of [n] chars with automatic storage, live during [body]. *)
Definition with_local {A} (n : nat) (body : ptr -> M A) : M A :=
  buf <- malloc n ;;
  r <- body buf ;;
  free buf ;;;
  ret r.

(** ** [oauth_http.c] *)

Definition LF : ascii := "010"%char.

Definition OAUTH_USER_AGENT : chars := str "liboauth-agent/" ++ VERSION w.

Definition _OAUTH_ENV_HTTPCMD : chars := str "OAUTH_HTTP_CMD".
Definition _OAUTH_DEF_HTTPCMD : chars :=
  str "curl -sA '" ++ OAUTH_USER_AGENT ++ str "' -d '%p' '%u' ".

Definition _OAUTH_ENV_HTTPGET : chars := str "OAUTH_HTTP_GET_CMD".
Definition _OAUTH_DEF_HTTPGET : chars :=
  str "curl -sA '" ++ OAUTH_USER_AGENT ++ str "' '%u' ".

Definition invalid_http_command : chars :=
  LF :: str "liboauth: invalid HTTP command. set the '%s' environement variable."
  ++ [LF; LF].

(** The locals of [oauth_exec_shell]. *)
Record locals := Locals {
  in_ : option FILE;
  len : Z;
  alloc : Z;
  data : ptr;
  rcv : Z
}.

(** [in && rcv > 0 && !feof(in)] *)
Definition loop_test (l : locals) : bool :=
  match in_ l with
  | Some f => (0 <? rcv l) && negb (feof f)
  | None => false
  end.

(** [alloc += 1024; data = xrealloc(...); rcv = fread(data, ...);
    len += rcv].  The loop test keeps the body from a null [in]. *)
Definition loop_body (l : locals) : M locals :=
  match in_ l with
  | None => ret l
  | Some f =>
      let alloc' := size_t (alloc l + 1024) in
      data' <- xrealloc (data l) (size_t (alloc' * 1)) ;;
      rf <- fread data' 1024 f ;;
      ret (Locals (Some (snd rf)) (size_t (len l + fst rf)) alloc' data' (fst rf))
  end.

Fixpoint while (fuel : nat) (l : locals) : M locals :=
  if loop_test l then
    match fuel with
    | O => fail OutOfFuel
    | S n => l' <- loop_body l ;; while n l'
    end
  else ret l.

(** Every turn of the loop but the last takes 1024 bytes off the stream. *)
Definition fuel_for (f : option FILE) : nat :=
  match f with
  | Some f => S (length (pending f))
  | None => O
  end.

Definition oauth_exec_shell (cmd : ptr) : M ptr :=
  f <- popen cmd ;;
  l <- while (fuel_for f) (Locals f 0 0 NULL 1) ;;
  pclose (in_ l) ;;;
  write_chars (ptr_add (data l) (Z.to_nat (len l))) [NUL] ;;;
  ret (data l).

Definition oauth_exec_post (u p : cstr) : M ptr :=
  with_local (BUFSIZ w) (fun cmd =>
    e <- getenv _OAUTH_ENV_HTTPCMD ;;
    cmdtpl <- (if is_null e then strdup (Lit _OAUTH_DEF_HTTPCMD)
               else strdup (At e)) ;;
    t1 <- strstr cmdtpl (str "%p") ;;
    t2 <- strstr cmdtpl (str "%u") ;;
    if is_null t1 || is_null t2 then
      fprintf_stderr invalid_http_command [Lit _OAUTH_ENV_HTTPCMD] ;;;
      ret NULL
    else
      let t1 := ptr_add t1 1 in
      write_chars t1 [ "s"%char ] ;;;
      let t2 := ptr_add t2 1 in
      write_chars t2 [ "s"%char ] ;;;
      snprintf cmd (BUFSIZ w) cmdtpl
        [ if ptr_gt t1 t2 then u else p; if ptr_gt t1 t2 then p else u ] ;;;
      free cmdtpl ;;;
      oauth_exec_shell cmd).

Definition oauth_exec_get (u q : cstr) : M ptr :=
  with_local (BUFSIZ w) (fun cmd =>
    if cstr_is_null u then ret NULL
    else
      e <- getenv _OAUTH_ENV_HTTPGET ;;
      cmdtpl <- (if is_null e then strdup (Lit _OAUTH_DEF_HTTPGET)
                 else strdup (At e)) ;;
      t1 <- strstr cmdtpl (str "%u") ;;
      if is_null t1 then
        fprintf_stderr invalid_http_command [Lit _OAUTH_ENV_HTTPGET] ;;;
        ret NULL
      else
        let t1 := ptr_add t1 1 in
        write_chars t1 [ "s"%char ] ;;;
        t1 <- (if cstr_is_null q then ret t1
               else
                 n1 <- strlen u ;;
                 n2 <- strlen q ;;
                 t1 <- xmalloc (size_t (1 * size_t (size_t (n1 + n2) + 2))) ;;
                 strcat t1 u ;;;
                 strcat t1 (Lit (str "?")) ;;;
                 strcat t1 q ;;;
                 ret t1) ;;
        snprintf cmd (BUFSIZ w) cmdtpl [ if cstr_is_null q then u else At t1 ] ;;;
        free cmdtpl ;;;
        (if cstr_is_null q then ret tt else free t1) ;;;
        oauth_exec_shell cmd).

(** ** Vocabulary of the statements *)

(** Blocks are handed out in order: nothing lives at or above [next]. *)
Definition wf (s : state) : Prop :=
  forall b, (next s <= b)%nat -> heap s !! b = None.

(** Where a request takes its template from: the override when the
    variable is set, the built-in default otherwise. *)
Definition template_source (name def : chars) : cstr :=
  match environ w name with
  | NULL => Lit def
  | p => At p
  end.

(** A [const char *] that does not point at or above block [n]. *)
Definition below (n : block) (c : cstr) : Prop :=
  match c with
  | At (Ptr b _) => (b < n)%nat
  | _ => True
  end.

(** The order of the two placeholders in a POST template, the template
    with text [pre], [mid] and [suf] around them, and the command the
    specification asks for: each value in the place of its placeholder. *)
Inductive order := URL_first | Body_first.

Definition post_template (o : order) (pre mid suf : chars) : chars :=
  match o with
  | URL_first => pre ++ str "%u" ++ mid ++ str "%p" ++ suf
  | Body_first => pre ++ str "%p" ++ mid ++ str "%u" ++ suf
  end.

Definition post_command (o : order) (pre mid suf url body : chars) : chars :=
  match o with
  | URL_first => pre ++ url ++ mid ++ body ++ suf
  | Body_first => pre ++ body ++ mid ++ url ++ suf
  end.

(** The URL a GET request asks for, in the words of the specification. *)
Definition effective_url (url : chars) (query : option chars) : chars :=
  match query with
  | Some q => url ++ str "?" ++ q
  | None => url
  end.

(** The diagnostic for a template without its placeholders. *)
Definition diagnostic (name : chars) : chars :=
  LF :: str "liboauth: invalid HTTP command. set the '" ++ name
  ++ str "' environement variable." ++ [LF; LF].

(** The commands a trace shows to have been run. *)
Fixpoint commands (t : list event) : list chars :=
  match t with
  | [] => []
  | EvPopen c :: r => c :: commands r
  | _ :: r => commands r
  end.

(** A read that asks for no more than the buffer holds. *)
Definition fits (e : event) : bool :=
  match e with
  | EvFread cap req got => (req <=? cap)%nat && (got <=? req)%nat
  | _ => true
  end.

(** The two stores agree on every block below [n]. *)
Definition agree (n : block) (h h' : gmap block chars) : Prop :=
  forall b, (b < n)%nat -> h' !! b = h !! b.

Definition own (n : block) (p : ptr) : Prop :=
  match p with
  | NULL => True
  | Ptr b _ => (n <= b)%nat
  end.

Definition frame (n : block) (s s' : state) : Prop :=
  (next s <= next s')%nat /\ agree n (heap s) (heap s')
  /\ trace s `prefix_of` trace s'.

(** [m] leaves the blocks below [n] alone, only adds to the trace, and
    returns a value in [Q]. *)
Definition preserves {A} (n : block) (m : M A) (Q : A -> Prop) : Prop :=
  forall s, (n <= next s)%nat ->
    frame n s (snd (m s)) /\ forall a, fst (m s) = Done a -> Q a.

(** Each read finds the capacity grown by what it asks for since the
    read before it, and receives no more than it asks for. *)
Fixpoint grown (prev : nat) (reads : list event) : bool :=
  match reads with
  | [] => true
  | EvFread cap req got :: r =>
      (cap =? prev + req)%nat && (got <=? req)%nat && grown cap r
  | _ :: _ => false
  end.

(** The array [cmd], block [b], after [snprintf] has stored command [c]
    in it: what fits of [c], the terminator, and behind it what the array
    held when its scope was entered. *)
Definition cmd_holds (b : block) (c : chars) : chars :=
  take (BUFSIZ w - 1) c
  ++ NUL :: drop (length (take (BUFSIZ w - 1) c) + 1)
              (fresh_bytes b 0 (BUFSIZ w)).

End Host.

(** ** Sample hosts and requests *)

Module Sample.

Definition unset : chars -> ptr := fun _ => NULL.

(** Every variable is set to the string in block 0. *)
Definition all_block0 : chars -> ptr := fun _ => Ptr O O.

(** One variable is set; its value is the string in block 0. *)
Definition set_to_block0 (name : chars) : chars -> ptr :=
  fun n => if decide (n = name) then Ptr O O else NULL.

(** What fresh memory holds: a recycled chunk, or zeroes. *)
Definition recycled : block -> nat -> ascii := fun _ _ => "#"%char.
Definition zeroed : block -> nat -> ascii := fun _ _ => NUL.

(** A shell that knows [echo]; anything else prints nothing. *)
Definition shell (cmd : chars) : option chars :=
  match cmd with
  | "e"%char :: "c"%char :: "h"%char :: "o"%char :: " "%char :: r =>
      Some (r ++ [LF])
  | _ => Some []
  end.

Definition no_fork : chars -> option chars := fun _ => None.

(** A child that prints [out], whatever the command. *)
Definition prints (out : chars) : chars -> option chars := fun _ => Some out.

(** 1024 times [a], then [b]. *)
Definition prints_1025 : chars -> option chars :=
  prints (repeat "a"%char 1024 ++ ["b"%char]).

(** glibc: [BUFSIZ] is 8192.  The version is that of some release. *)
Definition glibc (env : chars -> ptr) (sh : chars -> option chars)
    (mem : block -> nat -> ascii) : host :=
  Host (Z.to_nat 8192) (str "0.5.1") env sh mem.

(** Nothing allocated yet. *)
Definition empty : state := State ∅ O [].

(** Block 0 holds one string: the value of a variable, or a command. *)
Definition with_string (v : chars) : state :=
  State (<[O := v ++ [NUL]]> ∅) 1%nat [].

Definition long_url : chars :=
  str "http://h/" ++ repeat "a"%char (Z.to_nat 8200).

(** The text around the placeholders of the default POST template. *)
Definition def_pre : chars := str "curl -sA 'liboauth-agent/0.5.1' -d '".
Definition def_mid : chars := str "' '".
Definition def_suf : chars := str "' ".

(** The text around the placeholder of the default GET template. *)
Definition get_pre : chars := str "curl -sA 'liboauth-agent/0.5.1' '".

End Sample.

(** ** The cURL transport ([HAVE_CURL]) *)

(** [struct MemoryStruct]: the reply received so far. *)
Module MemoryStruct.
Record t := Make { data : ptr; size : Z }.
End MemoryStruct.

(** What the code has set on an easy handle with [curl_easy_setopt].
    libcurl copies the strings of [CURLOPT_URL] and [CURLOPT_USERAGENT]
    when they are set, and keeps the pointer of [CURLOPT_POSTFIELDS]. *)
Record options := Options {
  CURLOPT_URL : option chars;
  CURLOPT_POSTFIELDS : cstr;
  CURLOPT_USERAGENT : option chars;
  CURLOPT_POST : bool;
  CURLOPT_POSTFIELDSIZE : option Z;
  CURLOPT_HTTPHEADER : ptr;
  CURLOPT_READDATA : ptr
}.

(** A transfer as libcurl sees it when [curl_easy_perform] is called. *)
Record request := Request {
  req_url : option chars;
  req_postfields : option chars;
  req_useragent : option chars;
  req_post : bool;
  req_postfieldsize : option Z;
  req_headers : option chars;
  req_readdata : ptr
}.

(** libcurl and the file system: whether [curl_easy_init] returns a
    handle; for a request, the pieces of the reply handed to the write
    callback, in order, and the code [curl_easy_perform] returns; the
    size [stat] reports for a path, if any; whether [fopen] opens it. *)
Record libcurl := Libcurl {
  init_works : bool;
  transfer : request -> list chars * Z;
  st_size : chars -> option Z;
  fopen_works : chars -> bool
}.

Section Curl.

Variable w : host.
Variable net : libcurl.

Definition memcpy (dst : ptr) (src : chars) (n : Z) : M unit :=
  if decide (Z.to_nat n <= length src)%nat
  then write_chars dst (take (Z.to_nat n) src)
  else fail OutOfBounds.

(** [ptr] is given by the bytes it points to; [*data] comes in and goes
    out with the call. *)
Definition WriteMemoryCallback (ptr_ : chars) (size nmemb : Z)
    (mem : MemoryStruct.t) : M (Z * MemoryStruct.t) :=
  let realsize := size_t (size * nmemb) in
  d <- xrealloc w (MemoryStruct.data mem)
         (size_t (size_t (MemoryStruct.size mem + realsize) + 1)) ;;
  if is_null d then ret (realsize, MemoryStruct.Make d (MemoryStruct.size mem))
  else
    memcpy (ptr_add d (Z.to_nat (MemoryStruct.size mem))) ptr_ realsize ;;;
    let size' := size_t (MemoryStruct.size mem + realsize) in
    write_chars (ptr_add d (Z.to_nat size')) [NUL] ;;;
    ret (realsize, MemoryStruct.Make d size').

(** An easy handle is an object of libcurl's; one block stands for it. *)
Definition curl_easy_init : M ptr :=
  if init_works net then malloc w 1 else ret NULL.

Definition curl_easy_cleanup (curl : ptr) : M unit := free curl.

Definition no_options : options :=
  Options None (At NULL) None false None NULL NULL.

(** A string option that libcurl copies; a null pointer unsets it. *)
Definition copied (c : cstr) : M (option chars) :=
  if cstr_is_null c then ret None
  else t <- read_cstr c ;; ret (Some t).

Definition setopt_URL (o : options) (c : cstr) : M options :=
  v <- copied c ;;
  ret (Options v (CURLOPT_POSTFIELDS o) (CURLOPT_USERAGENT o) (CURLOPT_POST o)
         (CURLOPT_POSTFIELDSIZE o) (CURLOPT_HTTPHEADER o) (CURLOPT_READDATA o)).

Definition setopt_USERAGENT (o : options) (c : cstr) : M options :=
  v <- copied c ;;
  ret (Options (CURLOPT_URL o) (CURLOPT_POSTFIELDS o) v (CURLOPT_POST o)
         (CURLOPT_POSTFIELDSIZE o) (CURLOPT_HTTPHEADER o) (CURLOPT_READDATA o)).

Definition setopt_POSTFIELDS (o : options) (c : cstr) : options :=
  Options (CURLOPT_URL o) c (CURLOPT_USERAGENT o) (CURLOPT_POST o)
    (CURLOPT_POSTFIELDSIZE o) (CURLOPT_HTTPHEADER o) (CURLOPT_READDATA o).

Definition setopt_POST (o : options) (v : bool) : options :=
  Options (CURLOPT_URL o) (CURLOPT_POSTFIELDS o) (CURLOPT_USERAGENT o) v
    (CURLOPT_POSTFIELDSIZE o) (CURLOPT_HTTPHEADER o) (CURLOPT_READDATA o).

Definition setopt_POSTFIELDSIZE (o : options) (v : Z) : options :=
  Options (CURLOPT_URL o) (CURLOPT_POSTFIELDS o) (CURLOPT_USERAGENT o)
    (CURLOPT_POST o) (Some v) (CURLOPT_HTTPHEADER o) (CURLOPT_READDATA o).

Definition setopt_HTTPHEADER (o : options) (l : ptr) : options :=
  Options (CURLOPT_URL o) (CURLOPT_POSTFIELDS o) (CURLOPT_USERAGENT o)
    (CURLOPT_POST o) (CURLOPT_POSTFIELDSIZE o) l (CURLOPT_READDATA o).

Definition setopt_READDATA (o : options) (f : ptr) : options :=
  Options (CURLOPT_URL o) (CURLOPT_POSTFIELDS o) (CURLOPT_USERAGENT o)
    (CURLOPT_POST o) (CURLOPT_POSTFIELDSIZE o) (CURLOPT_HTTPHEADER o) f.

(** libcurl calls the write callback with [size] 1 for each piece, and
    gives up ([CURLE_WRITE_ERROR], 23) when the callback does not return
    the count it was given. *)
Fixpoint deliver (pieces : list chars) (mem : MemoryStruct.t)
    : M (bool * MemoryStruct.t) :=
  match pieces with
  | [] => ret (true, mem)
  | piece :: rest =>
      r <- WriteMemoryCallback piece 1 (Z.of_nat (length piece)) mem ;;
      if fst r =? Z.of_nat (length piece) then deliver rest (snd r)
      else ret (false, snd r)
  end.

(** An optional string that libcurl reads through a kept pointer. *)
Definition pointed (c : cstr) : M (option chars) :=
  if cstr_is_null c then ret None
  else t <- read_cstr c ;; ret (Some t).

Definition curl_easy_perform (curl : ptr) (o : options)
    (mem : MemoryStruct.t) : M (Z * MemoryStruct.t) :=
  capacity curl ;;;
  post <- pointed (CURLOPT_POSTFIELDS o) ;;
  headers <- pointed (At (CURLOPT_HTTPHEADER o)) ;;
  let reply := transfer net
                 (Request (CURLOPT_URL o) post (CURLOPT_USERAGENT o)
                    (CURLOPT_POST o) (CURLOPT_POSTFIELDSIZE o) headers
                    (CURLOPT_READDATA o)) in
  r <- deliver (fst reply) mem ;;
  ret (if fst r then snd reply else 23, snd r).

(** A list of one header: a block that holds a copy of the string. *)
Definition curl_slist_append (list : ptr) (c : cstr) : M ptr := strdup w c.

(** [stat(fn, &statbuf)]: the size, or [None] for -1. *)
Definition stat (fn : cstr) : M (option Z) :=
  path <- read_cstr fn ;; ret (st_size net path).

(** A [FILE] that [fopen] returns is an object of the C library's; one
    block stands for it. *)
Definition fopen (fn : cstr) : M ptr :=
  path <- read_cstr fn ;;
  if fopen_works net path then malloc w 1 else ret NULL.

Definition fclose (f : ptr) : M unit := free f.

Definition image_jpeg : chars := str "Content-Type: image/jpeg;".

Definition oauth_curl_post (u p : cstr) : M ptr :=
  let chunk := MemoryStruct.Make NULL 0 in
  curl <- curl_easy_init ;;
  if is_null curl then ret NULL
  else
    o <- setopt_URL no_options u ;;
    let o := setopt_POSTFIELDS o p in
    o <- setopt_USERAGENT o (Lit (OAUTH_USER_AGENT w)) ;;
    r <- curl_easy_perform curl o chunk ;;
    if negb (fst r =? 0) then ret NULL
    else
      curl_easy_cleanup curl ;;;
      ret (MemoryStruct.data (snd r)).

Definition oauth_curl_get (u q : cstr) : M ptr :=
  t1 <- (if cstr_is_null q then ret NULL
         else
           n1 <- strlen u ;;
           n2 <- strlen q ;;
           t1 <- xmalloc w (size_t (1 * size_t (size_t (n1 + n2) + 2))) ;;
           strcat t1 u ;;;
           strcat t1 (Lit (str "?")) ;;;
           strcat t1 q ;;;
           ret t1) ;;
  let chunk := MemoryStruct.Make NULL 0 in
  curl <- curl_easy_init ;;
  if is_null curl then ret NULL
  else
    o <- setopt_URL no_options (if cstr_is_null q then u else At t1) ;;
    o <- setopt_USERAGENT o (Lit (OAUTH_USER_AGENT w)) ;;
    r <- curl_easy_perform curl o chunk ;;
    (if cstr_is_null q then ret tt else free t1) ;;;
    if negb (fst r =? 0) then ret NULL
    else
      curl_easy_cleanup curl ;;;
      ret (MemoryStruct.data (snd r)).

Definition oauth_curl_post_file (u fn : cstr) (len : Z) (customheader : cstr)
    : M ptr :=
  let chunk := MemoryStruct.Make NULL 0 in
  slist <- (if cstr_is_null customheader
            then curl_slist_append NULL (Lit image_jpeg)
            else curl_slist_append NULL customheader) ;;
  len <- (if len =? 0 then
            sz <- stat fn ;;
            ret (match sz with
                 | Some n => Some (size_t n)
                 | None => None
                 end)
          else ret (Some len)) ;;
  match len with
  | None => ret NULL
  | Some len =>
      f <- fopen fn ;;
      if is_null f then ret NULL
      else
        curl <- curl_easy_init ;;
        if is_null curl then ret NULL
        else
          o <- setopt_URL no_options u ;;
          let o := setopt_POST o true in
          let o := setopt_POSTFIELDSIZE o len in
          let o := setopt_HTTPHEADER o slist in
          let o := setopt_READDATA o f in
          o <- setopt_USERAGENT o (Lit (OAUTH_USER_AGENT w)) ;;
          r <- curl_easy_perform curl o chunk ;;
          if negb (fst r =? 0) then ret NULL
          else
            fclose f ;;;
            curl_easy_cleanup curl ;;;
            ret (MemoryStruct.data (snd r))
  end.

(** ** The entry points *)

(** [HAVE_CURL] is a macro of the build. *)
Variable HAVE_CURL : bool.

Definition post_file_requires_curl : chars :=
  LF :: str "liboauth: oauth_post_file requires curl. curl is not available."
  ++ [LF; LF].

Definition oauth_http_get (u q : cstr) : M ptr :=
  if HAVE_CURL then oauth_curl_get u q else oauth_exec_get w u q.

Definition oauth_http_post (u p : cstr) : M ptr :=
  if HAVE_CURL then oauth_curl_post u p else oauth_exec_post w u p.

Definition oauth_post_file (u fn : cstr) (len : Z) (contenttype : cstr)
    : M ptr :=
  if HAVE_CURL then oauth_curl_post_file u fn len contenttype
  else fprintf_stderr post_file_requires_curl [] ;;; ret NULL.

End Curl.

(** ** Vocabulary for the cURL transport *)

(** [chunk] holds the bytes [received]: nothing before the first call of
    the write callback, and after a call a block of the bytes and a
    terminator. *)
Definition holds (h : gmap block chars) (mem : MemoryStruct.t)
    (received : chars) : Prop :=
  MemoryStruct.size mem = Z.of_nat (length received)
  /\ match MemoryStruct.data mem with
     | NULL => received = []
     | Ptr b o => o = O /\ h !! b = Some (received ++ [NUL])
     end.

(** The block of [chunk.data] after a call of the callback, and the next
    block of the allocator then. *)
Definition chunk_block (s : state) (mem : MemoryStruct.t) : block :=
  match MemoryStruct.data mem with
  | Ptr b _ => b
  | NULL => next s
  end.

Definition chunk_next (s : state) (mem : MemoryStruct.t) : block :=
  match MemoryStruct.data mem with
  | Ptr _ _ => next s
  | NULL => S (next s)
  end.

(** [chunk] and the store after the pieces of a reply have gone through
    the callback, [chunk] holding [received] before. *)
Definition delivered (pieces : list chars) (mem : MemoryStruct.t)
    (received : chars) (s : state) : MemoryStruct.t * state :=
  match pieces with
  | [] => (mem, s)
  | _ :: _ =>
      (MemoryStruct.Make (Ptr (chunk_block s mem) 0)
         (Z.of_nat (length received) + Z.of_nat (length (concat pieces))),
       State (<[chunk_block s mem := received ++ concat pieces ++ [NUL]]>
                (heap s))
             (chunk_next s mem) (trace s))
  end.

Module SampleNet.

(** A server that sends [pieces] whatever it is asked; libcurl reports
    [code].  No file can be opened. *)
Definition replies (pieces : list chars) (code : Z) : libcurl :=
  Libcurl true (fun _ => (pieces, code)) (fun _ => None) (fun _ => false).

(** [curl_easy_init] fails. *)
Definition no_handle : libcurl :=
  Libcurl false (fun _ => ([], 0)) (fun _ => None) (fun _ => false).

(** As [replies], with every file of size [sz] ([None]: [stat] fails),
    and [fopen] succeeding or not. *)
Definition with_file (pieces : list chars) (code : Z) (sz : option Z)
    (opens : bool) : libcurl :=
  Libcurl true (fun _ => (pieces, code)) (fun _ => sz) (fun _ => opens).

(** Files of 3 bytes can be opened, but [curl_easy_init] fails. *)
Definition file_but_no_handle : libcurl :=
  Libcurl false (fun _ => ([], 0)) (fun _ => Some 3) (fun _ => true).

(** [CURLE_COULDNT_CONNECT] *)
Definition couldnt_connect : Z := 7.

End SampleNet.

(** * Properties *)

(** ** Strings *)

Lemma is_nul_true c : is_nul c = true <-> c = NUL.
Proof. apply Ascii.eqb_eq. Qed.

Lemma is_nul_false c : is_nul c = false <-> c <> NUL.
Proof. apply Ascii.eqb_neq. Qed.

Lemma until_nul_app (t r : chars) :
  NUL ∉ t -> until_nul (t ++ NUL :: r) = Some t.
Proof.
  induction t as [|c t IH]; intros Hn; simpl.
  - reflexivity.
  - apply not_elem_of_cons in Hn as [Hc Ht].
    assert (is_nul c = false) as -> by (apply is_nul_false; congruence).
    rewrite IH by assumption. reflexivity.
Qed.

Lemma until_nul_Some (l t : chars) :
  until_nul l = Some t -> (NUL ∉ t) /\ exists r, l = t ++ NUL :: r.
Proof.
  revert t. induction l as [|c l IH]; intros t; simpl; [discriminate|].
  destruct (is_nul c) eqn:E.
  - intros [= <-]. apply is_nul_true in E as ->.
    split; [apply not_elem_of_nil | exists l; reflexivity].
  - destruct (until_nul l) as [t'|]; [|discriminate].
    intros [= <-]. destruct (IH t' eq_refl) as [Hn [r ->]].
    apply is_nul_false in E. split.
    + apply not_elem_of_cons. split; congruence.
    + exists r. reflexivity.
Qed.

Lemma before_nul_id (t : chars) : NUL ∉ t -> before_nul t = t.
Proof.
  induction t as [|c t IH]; intros Hn; simpl; [reflexivity|].
  apply not_elem_of_cons in Hn as [Hc Ht].
  assert (is_nul c = false) as -> by (apply is_nul_false; congruence).
  rewrite IH by assumption. reflexivity.
Qed.

Lemma before_nul_nonul (t : chars) : NUL ∉ before_nul t.
Proof.
  induction t as [|c t IH]; simpl; [apply not_elem_of_nil|].
  destruct (is_nul c) eqn:E; [apply not_elem_of_nil|].
  apply is_nul_false in E. apply not_elem_of_cons. split; congruence.
Qed.

Lemma cstring_of_nonul h c t : cstring_of h c = Some t -> NUL ∉ t.
Proof.
  destruct c as [[|b o]|l]; simpl.
  - discriminate.
  - destruct (h !! b); [|discriminate]. intros H.
    apply until_nul_Some in H. tauto.
  - intros [= <-]. apply before_nul_nonul.
Qed.

Lemma is_prefix_app (n r : chars) : is_prefix n (n ++ r) = true.
Proof.
  induction n as [|a n IH]; simpl; [reflexivity|].
  rewrite Ascii.eqb_refl. exact IH.
Qed.

Lemma is_prefix_true (n h : chars) :
  is_prefix n h = true -> exists r, h = n ++ r.
Proof.
  revert h. induction n as [|a n IH]; intros h; simpl.
  - exists h. reflexivity.
  - destruct h as [|b h]; [discriminate|].
    intros H. apply andb_prop in H as [Hab Hp].
    apply Ascii.eqb_eq in Hab as ->.
    destruct (IH h Hp) as [r ->]. exists r. reflexivity.
Qed.

(** [find] returns the offset of an occurrence ... *)
Lemma find_Some (n h : chars) (i : nat) :
  find n h = Some i -> exists r, h = take i h ++ n ++ r.
Proof.
  revert i. induction h as [|c h IH]; intros i; simpl.
  - destruct (is_prefix n []) eqn:E; [|discriminate].
    intros [= <-]. apply is_prefix_true in E as [r E]. exists r. exact E.
  - destruct (is_prefix n (c :: h)) eqn:E.
    + intros [= <-]. apply is_prefix_true in E as [r E]. exists r. exact E.
    + destruct (find n h) as [j|]; [|discriminate].
      intros [= <-]. destruct (IH j eq_refl) as [r Hr].
      exists r. simpl. f_equal. exact Hr.
Qed.

(** ... and [None] only when there is no occurrence at all. *)
Lemma find_None (n h : chars) :
  find n h = None <-> forall pre suf, h <> pre ++ n ++ suf.
Proof.
  split.
  - induction h as [|c h IH]; simpl.
    + destruct (is_prefix n []) eqn:E; [discriminate|].
      intros _ pre suf Heq. destruct pre; simpl in Heq.
      * rewrite Heq, is_prefix_app in E. discriminate.
      * discriminate.
    + destruct (is_prefix n (c :: h)) eqn:E; [discriminate|].
      destruct (find n h) eqn:F; [discriminate|].
      intros _ pre suf Heq. destruct pre as [|a pre]; simpl in Heq.
      * rewrite Heq, is_prefix_app in E. discriminate.
      * injection Heq as _ Heq. exact (IH eq_refl pre suf Heq).
  - intros Hno. destruct (find n h) as [i|] eqn:F; [|reflexivity].
    apply find_Some in F as [r Hr]. exfalso. exact (Hno _ _ Hr).
Qed.

Lemma find_skip (c : ascii) (n pre h : chars) :
  c ∉ pre ->
  find (c :: n) (pre ++ h) =
  match find (c :: n) h with
  | Some i => Some (length pre + i)%nat
  | None => None
  end.
Proof.
  induction pre as [|a pre IH]; intros Hc.
  - simpl. destruct (find (c :: n) h); reflexivity.
  - apply not_elem_of_cons in Hc as [Hca Hpre].
    cbn [app find is_prefix].
    assert ((c =? a)%char = false) as -> by (apply Ascii.eqb_neq; congruence).
    cbn [andb]. rewrite (IH Hpre).
    destruct (find (c :: n) h); reflexivity.
Qed.

Lemma find_here (n r : chars) : find n (n ++ r) = Some 0%nat.
Proof.
  destruct (n ++ r) eqn:E; simpl; rewrite <- E, is_prefix_app; reflexivity.
Qed.

(** ** Running the C library on a known store *)

Lemma bind_done {A B} (m : M A) (k : A -> M B) s a s1 :
  m s = (Done a, s1) -> bind m k s = k a s1.
Proof. unfold bind. intros ->. reflexivity. Qed.

Lemma bind_assoc {A B C} (m : M A) (k : A -> M B) (k' : B -> M C) s :
  bind (bind m k) k' s = bind m (fun a => bind (k a) k') s.
Proof. unfold bind. destruct (m s) as [[a|f] s1]; reflexivity. Qed.

Lemma read_cstr_run c s t :
  cstring_of (heap s) c = Some t -> read_cstr c s = (Done t, s).
Proof.
  destruct c as [[|b o]|l]; simpl.
  - discriminate.
  - unfold bind, block_of. destruct (heap s !! b); [|discriminate].
    intros ->. reflexivity.
  - intros [= <-]. reflexivity.
Qed.

Lemma write_chars_run b o cs l s :
  heap s !! b = Some l -> (o + length cs <= length l)%nat ->
  write_chars (Ptr b o) cs s =
  (Done tt, State (<[b := take o l ++ cs ++ drop (o + length cs) l]> (heap s))
                  (next s) (trace s)).
Proof.
  intros Hb Hle. unfold write_chars, bind, block_of. rewrite Hb.
  destruct (decide (o + length cs <= length l)%nat); [reflexivity|lia].
Qed.

(** Overwriting [old] in the middle of a block. *)
Lemma write_chars_mid b x old y cs s :
  heap s !! b = Some (x ++ old ++ y) -> length cs = length old ->
  write_chars (Ptr b (length x)) cs s =
  (Done tt, State (<[b := x ++ cs ++ y]> (heap s)) (next s) (trace s)).
Proof.
  intros Hb Hlen. rewrite (write_chars_run _ _ _ _ _ Hb).
  - rewrite take_app_length, Hlen.
    rewrite drop_app_add, drop_app_length. reflexivity.
  - rewrite !length_app. lia.
Qed.

Lemma length_fresh_bytes w b from n : length (fresh_bytes w b from n) = n.
Proof. unfold fresh_bytes. rewrite length_map, length_seq. reflexivity. Qed.

Lemma strdup_run w c t s :
  cstring_of (heap s) c = Some t ->
  strdup w c s =
  (Done (Ptr (next s) 0),
   State (<[next s := t ++ [NUL]]> (heap s)) (S (next s)) (trace s)).
Proof.
  intros Hc. unfold strdup.
  rewrite (bind_done _ _ _ _ _ (read_cstr_run _ _ _ Hc)).
  unfold bind at 1, malloc at 1.
  set (s1 := State _ _ _).
  assert (heap s1 !! next s = Some (fresh_bytes w (next s) 0 (length t + 1)))
    as Hn by apply lookup_insert_eq.
  rewrite (bind_done _ _ _ _ _ (write_chars_run _ 0 (t ++ [NUL]) _ _ Hn
             ltac:(rewrite length_fresh_bytes, length_app; simpl; lia))).
  unfold ret, s1. simpl. rewrite insert_insert_eq.
  rewrite drop_ge by (rewrite length_fresh_bytes, length_app; simpl; lia).
  rewrite app_nil_r. reflexivity.
Qed.

Lemma strstr_run p n t s :
  cstring_of (heap s) (At p) = Some t ->
  strstr p n s =
  (Done (match find n t with Some i => ptr_add p i | None => NULL end), s).
Proof.
  intros Hc. unfold strstr.
  rewrite (bind_done _ _ _ _ _ (read_cstr_run _ _ _ Hc)).
  destruct (find n t); reflexivity.
Qed.

Lemma strlen_run c t s :
  cstring_of (heap s) c = Some t ->
  strlen c s = (Done (Z.of_nat (length t)), s).
Proof.
  intros Hc. unfold strlen.
  rewrite (bind_done _ _ _ _ _ (read_cstr_run _ _ _ Hc)). reflexivity.
Qed.

Lemma free_run b l s :
  heap s !! b = Some l ->
  free (Ptr b 0) s = (Done tt, State (delete b (heap s)) (next s) (trace s)).
Proof.
  intros Hb. unfold free, bind, block_of. rewrite Hb. reflexivity.
Qed.

Lemma read_cstr_state c s : snd (read_cstr c s) = s.
Proof.
  destruct c as [[|b o]|l]; simpl; try reflexivity.
  unfold bind, block_of. destruct (heap s !! b) as [l|]; [|reflexivity].
  destruct (until_nul (drop o l)); reflexivity.
Qed.

Lemma bind_state {A B} (m : M A) (k : A -> M B) s :
  snd (m s) = s -> (forall a, snd (k a s) = s) -> snd (bind m k s) = s.
Proof.
  unfold bind. destruct (m s) as [[a|f] s1]; simpl; intros ->; auto.
Qed.

(** [format] only reads the store. *)
Lemma format_state_le (n : nat) :
  forall fmt, (length fmt <= n)%nat ->
  forall args s, snd (format fmt args s) = s.
Proof.
  induction n as [|n IH]; intros fmt Hlen args s.
  - destruct fmt; [reflexivity | simpl in Hlen; lia].
  - destruct fmt as [|c rest]; [reflexivity|]. simpl in Hlen.
    cbn [format]. destruct (Ascii.eqb c PERCENT).
    + destruct rest as [|c' rest']; [reflexivity|]. simpl in Hlen.
      destruct (Ascii.eqb c' "s").
      * destruct args as [|a args']; [reflexivity|].
        apply bind_state; [apply read_cstr_state|]. intros t.
        apply bind_state; [apply IH; lia | reflexivity].
      * destruct (Ascii.eqb c' PERCENT); [|reflexivity].
        apply bind_state; [apply IH; lia | reflexivity].
    + apply bind_state; [apply IH; lia | reflexivity].
Qed.

Lemma format_state fmt args s : snd (format fmt args s) = s.
Proof. exact (format_state_le (length fmt) fmt (Nat.le_refl _) args s). Qed.

Lemma format_plain (l rest : chars) (args : list cstr) s :
  PERCENT ∉ l ->
  format (l ++ rest) args s =
  match format rest args s with
  | (Done o, s') => (Done (l ++ o), s')
  | (Fault f, s') => (Fault f, s')
  end.
Proof.
  induction l as [|c l IH]; intros Hl.
  - simpl. destruct (format rest args s) as [[o|f] s']; reflexivity.
  - apply not_elem_of_cons in Hl as [Hc Hl].
    cbn [app format].
    assert (Ascii.eqb c PERCENT = false) as ->
      by (apply Ascii.eqb_neq; congruence).
    unfold bind. rewrite (IH Hl).
    destruct (format rest args s) as [[o|f] s']; reflexivity.
Qed.

Lemma format_s (rest : chars) (a : cstr) (args : list cstr) (t : chars) s :
  cstring_of (heap s) a = Some t ->
  format (PERCENT :: "s"%char :: rest) (a :: args) s =
  match format rest args s with
  | (Done o, s') => (Done (t ++ o), s')
  | (Fault f, s') => (Fault f, s')
  end.
Proof.
  intros Ha. cbn [format]. rewrite !Ascii.eqb_refl.
  rewrite (bind_done _ _ _ _ _ (read_cstr_run _ _ _ Ha)).
  unfold bind. destruct (format rest args s) as [[o|f] s']; reflexivity.
Qed.

(** ** What the calls leave alone *)

Lemma frame_refl n s : frame n s s.
Proof. split; [lia | split; [intros b _; reflexivity | reflexivity]]. Qed.

Lemma frame_trans n s s1 s2 : frame n s s1 -> frame n s1 s2 -> frame n s s2.
Proof.
  intros (Hn1 & Ha1 & Ht1) (Hn2 & Ha2 & Ht2). split; [lia | split].
  - intros b Hb. rewrite (Ha2 b Hb). exact (Ha1 b Hb).
  - etrans; eassumption.
Qed.

(** A step that only touches blocks at or above [n]. *)
Lemma frame_heap n s h k :
  (next s <= k)%nat -> agree n (heap s) h -> frame n s (State h k (trace s)).
Proof. intros Hk Ha. split; [exact Hk | split; [exact Ha | reflexivity]]. Qed.

Lemma preserves_ret {A} n (a : A) (Q : A -> Prop) :
  Q a -> preserves n (ret a) Q.
Proof.
  intros Hq s _. split; [apply frame_refl|]. simpl. intros ? [= <-]. exact Hq.
Qed.

Lemma preserves_fail {A} n f (Q : A -> Prop) : preserves n (fail f) Q.
Proof. intros s _. split; [apply frame_refl | discriminate]. Qed.

Lemma preserves_bind {A B} n (m : M A) (k : A -> M B) P Q :
  preserves n m P -> (forall a, P a -> preserves n (k a) Q) ->
  preserves n (bind m k) Q.
Proof.
  intros Hm Hk s Hn. destruct (Hm s Hn) as [Hf Hp]. unfold bind.
  destruct (m s) as [[a|f] s1]; simpl in *.
  - destruct (Hk a (Hp a eq_refl) s1) as [Hf2 Hq].
    + destruct Hf as (? & _). lia.
    + split; [eapply frame_trans; eassumption | exact Hq].
  - split; [exact Hf | discriminate].
Qed.

Lemma preserves_log n e : preserves n (log e) (fun _ => True).
Proof.
  intros s _. split; [|trivial].
  split; [simpl; lia | split; [intros b _; reflexivity|]].
  simpl. apply prefix_app_r. reflexivity.
Qed.

Lemma preserves_block_of n b : preserves n (block_of b) (fun _ => True).
Proof.
  intros s _. unfold block_of.
  destruct (heap s !! b); (split; [apply frame_refl | trivial]).
Qed.

Lemma preserves_set_block n b l :
  (n <= b)%nat -> preserves n (set_block b l) (fun _ => True).
Proof.
  intros Hb s _. split; [|trivial]. apply frame_heap; [lia|].
  intros b' Hb'. apply lookup_insert_ne. lia.
Qed.

Lemma preserves_drop_block n b :
  (n <= b)%nat -> preserves n (drop_block b) (fun _ => True).
Proof.
  intros Hb s _. split; [|trivial]. apply frame_heap; [lia|].
  intros b' Hb'. apply lookup_delete_ne. lia.
Qed.

Lemma preserves_read_cstr n c : preserves n (read_cstr c) (fun _ => True).
Proof.
  intros s _. split; [|trivial]. rewrite read_cstr_state. apply frame_refl.
Qed.

Lemma own_ptr_add n p i : own n p -> own n (ptr_add p i).
Proof. destruct p; simpl; trivial. Qed.

Create HintDb pres.

#[local] Hint Resolve preserves_fail preserves_log preserves_block_of
  preserves_set_block preserves_drop_block preserves_read_cstr
  own_ptr_add : pres.
#[local] Hint Extern 1 (preserves _ (ret _) _) =>
  apply preserves_ret; first [exact I | eassumption | eauto with pres] : pres.

(** One step of a frame proof: the first call by a lemma of the
    database, a branch by cases. *)
Ltac pres :=
  repeat match goal with
  | |- preserves _ (bind _ _) _ =>
      eapply preserves_bind; [solve [eauto with pres] | intros ? ?]
  | |- preserves _ (bind (if ?b then _ else _) _) _ =>
      eapply preserves_bind;
      [first [ destruct b; solve [eauto with pres]
             | destruct b; revgoals; solve [eauto with pres] ]
      | intros ? ?]
  | |- preserves _ (if ?b then _ else _) _ => destruct b
  | |- preserves _ (match ?x with _ => _ end) _ => destruct x
  | |- preserves _ _ _ => solve [eauto with pres]
  end.

Lemma preserves_write_chars n p cs :
  own n p -> preserves n (write_chars p cs) (fun _ => True).
Proof. intros Hp. unfold write_chars. pres. Qed.

Lemma preserves_malloc w n k : preserves n (malloc w k) (own n).
Proof.
  intros s Hn. split.
  - apply frame_heap; [lia|].
    intros b Hb. apply lookup_insert_ne. lia.
  - simpl. intros a [= <-]. exact Hn.
Qed.

Lemma preserves_free n p : own n p -> preserves n (free p) (fun _ => True).
Proof. intros Hp. unfold free. pres. Qed.

#[local] Hint Resolve preserves_write_chars preserves_malloc
  preserves_free : pres.

Lemma preserves_xrealloc w n p k :
  own n p -> preserves n (xrealloc w p k) (own n).
Proof. intros Hp. unfold xrealloc. pres. Qed.

Lemma preserves_strlen n c : preserves n (strlen c) (fun _ => True).
Proof. unfold strlen. pres. Qed.

Lemma preserves_strdup w n c : preserves n (strdup w c) (own n).
Proof. unfold strdup. pres. Qed.

Lemma preserves_strstr n p needle :
  own n p -> preserves n (strstr p needle) (own n).
Proof. intros Hp. unfold strstr. pres. Qed.

Lemma preserves_strcat n dst src :
  own n dst -> preserves n (strcat dst src) (own n).
Proof. intros Hp. unfold strcat. pres. Qed.

Lemma preserves_format n fmt args : preserves n (format fmt args) (fun _ => True).
Proof.
  intros s _. split; [|trivial]. rewrite format_state. apply frame_refl.
Qed.

#[local] Hint Resolve preserves_xrealloc preserves_strlen preserves_strdup
  preserves_strstr preserves_strcat preserves_format : pres.

Lemma preserves_snprintf n dst k fmt args :
  own n dst -> preserves n (snprintf dst k fmt args) (fun _ => True).
Proof. intros Hp. unfold snprintf. pres. Qed.

Lemma preserves_getenv w n name : preserves n (getenv w name) (fun _ => True).
Proof. unfold getenv. pres. Qed.

Lemma preserves_fprintf_stderr n fmt args :
  preserves n (fprintf_stderr fmt args) (fun _ => True).
Proof. unfold fprintf_stderr. pres. Qed.

Lemma preserves_popen w n cmd : preserves n (popen w cmd) (fun _ => True).
Proof. unfold popen. pres. Qed.

Lemma preserves_capacity n p : preserves n (capacity p) (fun _ => True).
Proof. unfold capacity. pres. Qed.

#[local] Hint Resolve preserves_capacity : pres.

Lemma preserves_fread n p k f :
  own n p -> preserves n (fread p k f) (fun _ => True).
Proof. intros Hp. unfold fread. pres. Qed.

Lemma preserves_pclose n f : preserves n (pclose f) (fun _ => True).
Proof. unfold pclose. pres. Qed.

#[local] Hint Resolve preserves_snprintf preserves_getenv
  preserves_fprintf_stderr preserves_popen preserves_fread
  preserves_pclose : pres.

Lemma preserves_with_local {A} w n k (body : ptr -> M A) Q :
  (forall buf, own n buf -> preserves n (body buf) Q) ->
  preserves n (with_local w k body) Q.
Proof.
  intros Hb. unfold with_local.
  eapply preserves_bind; [apply preserves_malloc|]. intros buf Hbuf.
  eapply preserves_bind; [apply Hb; exact Hbuf|]. intros r Hr.
  pres.
Qed.

Lemma preserves_loop_body w n l :
  own n (data l) -> preserves n (loop_body w l) (fun l' => own n (data l')).
Proof. intros Hd. unfold loop_body. pres. Qed.

Lemma preserves_while w n fuel :
  forall l, own n (data l) ->
  preserves n (while w fuel l) (fun l' => own n (data l')).
Proof.
  induction fuel as [|fuel IH]; intros l Hd; simpl;
    destruct (loop_test l); try (apply preserves_ret; exact Hd).
  - apply preserves_fail.
  - eapply preserves_bind; [apply preserves_loop_body; exact Hd|].
    intros l' Hl'. apply IH. exact Hl'.
Qed.

#[local] Hint Resolve preserves_while : pres.

(** [oauth_exec_shell] from the loop on. *)
Lemma preserves_capture w n f :
  preserves n
    (l <- while w (fuel_for f) (Locals f 0 0 NULL 1) ;;
     pclose (in_ l) ;;;
     write_chars (ptr_add (data l) (Z.to_nat (len l))) [NUL] ;;;
     ret (data l))
    (fun _ => True).
Proof.
  eapply preserves_bind; [apply preserves_while; exact I|]. intros l Hl.
  pres.
Qed.

Lemma preserves_oauth_exec_shell w n cmd :
  preserves n (oauth_exec_shell w cmd) (fun _ => True).
Proof.
  unfold oauth_exec_shell.
  eapply preserves_bind; [apply preserves_popen|]. intros f _.
  apply preserves_capture.
Qed.

#[local] Hint Resolve preserves_oauth_exec_shell : pres.

(** [oauth_exec_post] from the call of [strdup] on. *)
Lemma preserves_post_rest w n u p cmd e :
  own n cmd ->
  preserves n
    (cmdtpl <- (if is_null e then strdup w (Lit (_OAUTH_DEF_HTTPCMD w))
                else strdup w (At e)) ;;
     t1 <- strstr cmdtpl (str "%p") ;;
     t2 <- strstr cmdtpl (str "%u") ;;
     if is_null t1 || is_null t2 then
       fprintf_stderr invalid_http_command [Lit _OAUTH_ENV_HTTPCMD] ;;;
       ret NULL
     else
       write_chars (ptr_add t1 1) [ "s"%char ] ;;;
       write_chars (ptr_add t2 1) [ "s"%char ] ;;;
       snprintf cmd (BUFSIZ w) cmdtpl
         [ if ptr_gt (ptr_add t1 1) (ptr_add t2 1) then u else p;
           if ptr_gt (ptr_add t1 1) (ptr_add t2 1) then p else u ] ;;;
       free cmdtpl ;;;
       oauth_exec_shell w cmd)
    (fun _ => True).
Proof. intros Hcmd. pres. Qed.

Lemma preserves_oauth_exec_post w n u p :
  preserves n (oauth_exec_post w u p) (fun _ => True).
Proof.
  unfold oauth_exec_post. apply preserves_with_local. intros cmd Hcmd.
  eapply preserves_bind; [apply preserves_getenv|]. intros e _.
  apply preserves_post_rest. exact Hcmd.
Qed.

Lemma preserves_oauth_exec_get w n u q :
  preserves n (oauth_exec_get w u q) (fun _ => True).
Proof.
  unfold oauth_exec_get. apply preserves_with_local. intros cmd Hcmd.
  pres.
  eapply preserves_bind.
  { instantiate (1 := own n). destruct (cstr_is_null q); pres. }
  intros t1' Ht1'. pres.
Qed.

(** ** [oauth_exec_shell] *)

(** Arithmetic below the modulus of [size_t]. *)
Ltac size_lia :=
  change (2 ^ 64) with 18446744073709551616 in *;
  repeat match goal with H : _ = Some _ |- _ => clear H end;
  lia.

Lemma size_t_small (x : Z) : 0 <= x < 2 ^ 64 -> size_t x = x.
Proof. intros H. unfold size_t. apply Z.mod_small. exact H. Qed.

Lemma popen_run w cmd c s :
  cstring_of (heap s) (At cmd) = Some c ->
  popen w cmd s =
  (Done (match spawn w c with
         | Some out => Some (Stream out false)
         | None => None
         end),
   State (heap s) (next s) (trace s ++ [EvPopen c])).
Proof.
  intros Hc. unfold popen.
  rewrite (bind_done _ _ _ _ _ (read_cstr_run _ _ _ Hc)). reflexivity.
Qed.

Lemma xrealloc_grow_run w b l (k : Z) s :
  heap s !! b = Some l -> (length l <= Z.to_nat k)%nat ->
  xrealloc w (Ptr b 0) k s =
  (Done (Ptr b 0),
   State (<[b := l ++ fresh_bytes w b (length l) (Z.to_nat k - length l)]>
            (heap s)) (next s) (trace s)).
Proof.
  intros Hb Hle. unfold xrealloc, bind, block_of. rewrite Hb.
  unfold set_block, ret. simpl. rewrite take_ge by exact Hle. reflexivity.
Qed.

Lemma fread_run b l n pend e s :
  heap s !! b = Some l -> (length (take n pend) <= length l)%nat ->
  fread (Ptr b 0) n (Stream pend e) s =
  (Done (Z.of_nat (length (take n pend)),
         Stream (drop n pend) (e || (length pend <? n)%nat)),
   State (<[b := take n pend ++ drop (length (take n pend)) l]> (heap s))
         (next s)
         (trace s ++ [EvFread (length l) n (length (take n pend))])).
Proof.
  intros Hb Hle. unfold fread, capacity.
  unfold bind at 1. unfold bind at 1. unfold block_of at 1. rewrite Hb.
  unfold ret at 1. unfold bind at 1. unfold log at 1.
  set (s1 := State _ _ _).
  assert (heap s1 !! b = Some l) as Hb1 by exact Hb.
  rewrite (bind_done _ _ _ _ _
             (write_chars_run b 0 (take n pend) l s1 Hb1 Hle)).
  unfold ret, s1. cbn [heap next trace pending eof].
  rewrite Nat.sub_0_r. reflexivity.
Qed.

(** One turn of the loop on a buffer of [length content] bytes. *)
Lemma loop_body_run w l s b content pend e :
  in_ l = Some (Stream pend e) -> data l = Ptr b 0 ->
  heap s !! b = Some content -> alloc l = Z.of_nat (length content) ->
  alloc l + 1024 < 2 ^ 64 -> 0 <= len l -> len l + 1024 < 2 ^ 64 ->
  loop_body w l s =
  (Done (Locals (Some (Stream (drop 1024 pend)
                              (e || (length pend <? 1024)%nat)))
                (len l + Z.of_nat (length (take 1024 pend)))
                (alloc l + 1024) (Ptr b 0)
                (Z.of_nat (length (take 1024 pend)))),
   State (<[b := take 1024 pend
                 ++ drop (length (take 1024 pend))
                      (content ++ fresh_bytes w b (length content) 1024)]>
            (heap s))
         (next s)
         (trace s ++ [EvFread (length content + 1024) 1024
                              (length (take 1024 pend))])).
Proof.
  intros Hin Hdata Hb Halloc Hwrap Hlen0 Hlen.
  assert (length (take 1024 pend) <= 1024)%nat as Hgot
    by (rewrite length_take; lia).
  unfold loop_body. rewrite Hin, Hdata. cbv zeta.
  rewrite (size_t_small (alloc l + 1024)) by size_lia.
  rewrite Z.mul_1_r, (size_t_small (alloc l + 1024)) by size_lia.
  assert (Z.to_nat (alloc l + 1024) = length content + 1024)%nat as Hk by size_lia.
  rewrite (bind_done _ _ _ _ _
             (xrealloc_grow_run w b content (alloc l + 1024) s Hb
                ltac:(size_lia))).
  rewrite Hk.
  replace (length content + 1024 - length content)%nat with 1024%nat by size_lia.
  set (content1 := content ++ fresh_bytes w b (length content) 1024).
  set (s1 := State _ _ _).
  assert (heap s1 !! b = Some content1) as Hb1 by apply lookup_insert_eq.
  assert (length content1 = length content + 1024)%nat as Hlen1
    by (unfold content1; rewrite length_app, length_fresh_bytes; reflexivity).
  rewrite (bind_done _ _ _ _ _
             (fread_run b content1 1024 pend e s1 Hb1 ltac:(size_lia))).
  unfold ret, s1. cbn [heap next trace fst snd].
  rewrite insert_insert_eq, Hlen1.
  rewrite (size_t_small (len l + _)) by size_lia.
  reflexivity.
Qed.

(** The first turn allocates the buffer. *)
Lemma loop_body_first w l s pend e :
  in_ l = Some (Stream pend e) -> data l = NULL -> alloc l = 0 ->
  0 <= len l -> len l + 1024 < 2 ^ 64 ->
  loop_body w l s =
  (Done (Locals (Some (Stream (drop 1024 pend)
                              (e || (length pend <? 1024)%nat)))
                (len l + Z.of_nat (length (take 1024 pend)))
                1024 (Ptr (next s) 0)
                (Z.of_nat (length (take 1024 pend)))),
   State (<[next s := take 1024 pend
                 ++ drop (length (take 1024 pend))
                      (fresh_bytes w (next s) 0 1024)]>
            (heap s))
         (S (next s))
         (trace s ++ [EvFread 1024 1024 (length (take 1024 pend))])).
Proof.
  intros Hin Hdata Halloc Hlen0 Hlen.
  assert (length (take 1024 pend) <= 1024)%nat as Hgot
    by (rewrite length_take; lia).
  unfold loop_body. rewrite Hin, Hdata, Halloc. cbv zeta.
  change (0 + 1024) with 1024.
  rewrite (size_t_small 1024) by size_lia.
  rewrite Z.mul_1_r, (size_t_small 1024) by size_lia.
  unfold xrealloc. unfold bind at 1. unfold malloc at 1.
  change (Z.to_nat 1024) with 1024%nat.
  set (content1 := fresh_bytes w (next s) 0 1024).
  set (s1 := State _ _ _).
  assert (heap s1 !! next s = Some content1) as Hb1 by apply lookup_insert_eq.
  assert (length content1 = 1024)%nat as Hlen1 by apply length_fresh_bytes.
  rewrite (bind_done _ _ _ _ _
             (fread_run (next s) content1 1024 pend e s1 Hb1 ltac:(size_lia))).
  unfold ret, s1. cbn [heap next trace fst snd].
  rewrite insert_insert_eq, Hlen1.
  rewrite (size_t_small (len l + _)) by size_lia.
  reflexivity.
Qed.

Lemma while_stop w fuel l s :
  loop_test l = false -> while w fuel l s = (Done l, s).
Proof. intros H. destruct fuel; simpl; rewrite H; reflexivity. Qed.

Lemma grown_cons prev req got reads :
  (got <= req)%nat -> grown (prev + req) reads = true ->
  grown prev (EvFread (prev + req) req got :: reads) = true.
Proof.
  intros Hgot Hr. cbn [grown]. rewrite Nat.eqb_refl, Hr.
  apply Nat.leb_le in Hgot. rewrite Hgot. reflexivity.
Qed.

(** The loop, from any turn after the first, to the end of the stream. *)
Lemma while_run w fuel :
  forall l s b content pend,
  in_ l = Some (Stream pend false) -> 0 < rcv l -> data l = Ptr b 0 ->
  heap s !! b = Some content -> alloc l = Z.of_nat (length content) ->
  (length pend < fuel)%nat ->
  alloc l + Z.of_nat (length pend) + 1024 < 2 ^ 64 ->
  0 <= len l -> len l <= alloc l ->
  exists l' content' reads,
    while w fuel l s =
      (Done l', State (<[b := content']> (heap s)) (next s) (trace s ++ reads))
    /\ data l' = Ptr b 0 /\ is_Some (in_ l')
    /\ len l' = len l + Z.of_nat (length pend)
    /\ (Z.to_nat (len l') < length content')%nat
    /\ grown (length content) reads = true.
Proof.
  induction fuel as [|fuel IH];
    intros l s b content pend Hin Hrcv Hdata Hb Halloc Hfuel Hwrap Hlen0 Hlen.
  { lia. }
  assert (length (take 1024 pend) <= 1024)%nat as Hgot
    by (rewrite length_take; lia).
  assert (loop_test l = true) as Htest.
  { unfold loop_test. rewrite Hin. simpl.
    apply Z.ltb_lt in Hrcv. rewrite Hrcv. reflexivity. }
  cbn [while]. rewrite Htest.
  rewrite (bind_done _ _ _ _ _
             (loop_body_run w l s b content pend false Hin Hdata Hb Halloc
                ltac:(size_lia) Hlen0 ltac:(size_lia))).
  set (content1 := take 1024 pend ++ _).
  assert (length content1 = length content + 1024)%nat as Hlen1.
  { unfold content1.
    rewrite length_app, length_drop, length_app, length_fresh_bytes. lia. }
  destruct (length pend <? 1024)%nat eqn:Hshort.
  - (* the last turn *)
    apply Nat.ltb_lt in Hshort.
    rewrite while_stop
      by (unfold loop_test; cbn [in_ feof eof orb negb];
          apply andb_false_r).
    rewrite length_take_ge by lia.
    eexists _, content1, [_]. split; [reflexivity|].
    cbn [data in_ len]. repeat split.
    + eexists; reflexivity.
    + size_lia.
    + rewrite <- (take_ge pend 1024) at 1 by lia.
      apply grown_cons; [exact Hgot | reflexivity].
  - (* a full read: the loop goes on *)
    apply Nat.ltb_ge in Hshort.
    set (l1 := Locals _ _ _ _ _). set (s1 := State _ _ _).
    assert (length (take 1024 pend) = 1024)%nat as Hfull
      by (rewrite length_take; lia).
    destruct (IH l1 s1 b content1 (drop 1024 pend)) as
      (l' & content' & reads & Hrun & Hd & Hi & Hl & Hc & Hg).
    + reflexivity.
    + unfold l1. cbn [rcv]. lia.
    + reflexivity.
    + apply lookup_insert_eq.
    + unfold l1. cbn [alloc]. lia.
    + rewrite length_drop. lia.
    + unfold l1. cbn [alloc]. rewrite length_drop. size_lia.
    + unfold l1. cbn [len]. lia.
    + unfold l1. cbn [len alloc]. lia.
    + exists l', content', (EvFread (length content + 1024) 1024
                               (length (take 1024 pend)) :: reads).
      split; [|repeat split].
      * rewrite Hrun. unfold s1. cbn [heap next trace].
        rewrite insert_insert_eq, <- app_assoc. reflexivity.
      * exact Hd.
      * exact Hi.
      * rewrite Hl. unfold l1. cbn [len]. rewrite length_drop. lia.
      * exact Hc.
      * apply grown_cons; [exact Hgot|]. rewrite <- Hlen1. exact Hg.
Qed.

(** After the loop: [pclose(in); data[len]=0; return data]. *)
Lemma finish_run (l : locals) f b content s :
  in_ l = Some f -> data l = Ptr b 0 ->
  heap s !! b = Some content -> (Z.to_nat (len l) < length content)%nat ->
  (pclose (in_ l) ;;;
   write_chars (ptr_add (data l) (Z.to_nat (len l))) [NUL] ;;;
   ret (data l)) s =
  (Done (Ptr b 0),
   State (<[b := take (Z.to_nat (len l)) content ++ [NUL]
                 ++ drop (Z.to_nat (len l) + 1) content]> (heap s))
         (next s) (trace s ++ [EvPclose])).
Proof.
  intros Hin Hdata Hb Hlen. rewrite Hin, Hdata. cbn [pclose ptr_add].
  unfold bind at 1. unfold log at 1.
  set (s1 := State _ _ _).
  assert (heap s1 !! b = Some content) as Hb1 by exact Hb.
  rewrite (bind_done _ _ _ _ _
             (write_chars_run b (0 + Z.to_nat (len l)) [NUL] content s1 Hb1
                ltac:(simpl; lia))).
  reflexivity.
Qed.

Lemma terminated_at (k : nat) (content : chars) :
  (k < length content)%nat ->
  (take k content ++ [NUL] ++ drop (k + 1) content) !! k = Some NUL.
Proof.
  intros Hk. rewrite lookup_app_r by (rewrite length_take; lia).
  rewrite length_take.
  replace (k - k `min` length content)%nat with 0%nat by lia. reflexivity.
Qed.

(** A command that can be spawned: the call returns a fresh buffer,
    every read finds room for what it asks for, and the buffer holds a
    terminator at the number of bytes read.  An output that one read
    takes whole is in the buffer as it was read. *)
Lemma exec_shell_run w cmd c out s :
  cstring_of (heap s) (At cmd) = Some c -> spawn w c = Some out ->
  Z.of_nat (length out) + 1024 < 2 ^ 64 ->
  exists content reads,
    oauth_exec_shell w cmd s =
      (Done (Ptr (next s) 0),
       State (<[next s := content]> (heap s)) (S (next s))
             (trace s ++ EvPopen c :: reads ++ [EvPclose]))
    /\ grown 0 reads = true
    /\ content !! length out = Some NUL
    /\ ((length out < 1024)%nat -> take (length out) content = out).
Proof.
  intros Hc Hsp Hbound.
  assert (length (take 1024 out) <= 1024)%nat as Hgot
    by (rewrite length_take; lia).
  pose (l0 := Locals (Some (Stream out false)) 0 0 NULL 1).
  pose (s0 := State (heap s) (next s) (trace s ++ [EvPopen c])).
  pose proof (loop_body_first w l0 s0 out false eq_refl eq_refl eq_refl
                ltac:(simpl; lia) ltac:(simpl; size_lia)) as Hfirst.
  cbn [len l0 s0 heap next trace orb] in Hfirst.
  set (content1 := take 1024 out ++ _) in Hfirst.
  set (l1 := Locals _ _ _ _ _) in Hfirst. set (s1 := State _ _ _) in Hfirst.
  assert (oauth_exec_shell w cmd s =
          (l <- while w (length out) l1 ;;
           pclose (in_ l) ;;;
           write_chars (ptr_add (data l) (Z.to_nat (len l))) [NUL] ;;;
           ret (data l)) s1) as ->.
  { unfold oauth_exec_shell.
    rewrite (bind_done _ _ _ _ _ (popen_run w cmd c s Hc)), Hsp.
    cbn [fuel_for pending while]. change (loop_test _) with true. cbv iota.
    rewrite bind_assoc, (bind_done _ _ _ _ _ Hfirst). reflexivity. }
  assert (length content1 = 1024)%nat as Hlen1.
  { unfold content1. rewrite length_app, length_drop, length_fresh_bytes. lia. }
  assert (heap s1 !! next s = Some content1) as Hb1 by apply lookup_insert_eq.
  destruct (length out <? 1024)%nat eqn:Hshort.
  - apply Nat.ltb_lt in Hshort.
    assert (Z.to_nat (len l1) = length out) as Hk
      by (unfold l1; cbn [len]; rewrite length_take; lia).
    eexists _, [_]. split; [|split; [|split]].
    + rewrite (bind_done _ _ _ _ _ (while_stop w _ l1 s1
        ltac:(unfold l1, loop_test; cbn [in_ feof eof orb negb];
              apply andb_false_r))).
      rewrite (finish_run l1 _ (next s) content1 s1 eq_refl eq_refl Hb1
                 ltac:(lia)).
      unfold s1. cbn [heap next trace].
      rewrite insert_insert_eq, <- !app_assoc. reflexivity.
    + rewrite <- (Nat.add_0_l 1024) at 1.
      apply grown_cons; [exact Hgot | reflexivity].
    + rewrite Hk. apply terminated_at. lia.
    + intros _. rewrite Hk.
      rewrite take_app_le by (rewrite length_take; lia).
      rewrite take_take, Nat.min_id. unfold content1.
      rewrite take_app_le by (rewrite length_take; lia).
      rewrite take_take, take_ge by lia. reflexivity.
  - apply Nat.ltb_ge in Hshort.
    destruct (while_run w (length out) l1 s1 (next s) content1 (drop 1024 out))
      as (l' & content' & reads & Hrun & Hd & [f' Hi] & Hl & Hlt & Hg).
    + reflexivity.
    + unfold l1. cbn [rcv]. rewrite length_take. lia.
    + reflexivity.
    + exact Hb1.
    + unfold l1. cbn [alloc]. lia.
    + rewrite length_drop. lia.
    + unfold l1. cbn [alloc]. rewrite length_drop. size_lia.
    + unfold l1. cbn [len]. lia.
    + unfold l1. cbn [len alloc]. lia.
    + assert (Z.to_nat (len l') = length out) as Hk.
      { rewrite Hl. unfold l1. cbn [len].
        rewrite length_drop, length_take. lia. }
      eexists _, (_ :: reads). split; [|split; [|split]].
      * rewrite (bind_done _ _ _ _ _ Hrun).
        rewrite (finish_run l' f' (next s) content'
                   (State (<[next s := content']> (heap s1)) (next s1)
                          (trace s1 ++ reads)) Hi Hd
                   ltac:(apply lookup_insert_eq) Hlt).
        unfold s1. cbn [heap next trace].
        rewrite !insert_insert_eq, <- !app_assoc. reflexivity.
      * rewrite <- (Nat.add_0_l 1024) at 1.
        apply grown_cons; [exact Hgot|]. rewrite <- Hlen1. exact Hg.
      * rewrite Hk. apply terminated_at. lia.
      * lia.
Qed.

(** ** Reading through a changed store *)

Lemma wf_below s c t :
  wf s -> cstring_of (heap s) c = Some t -> below (next s) c.
Proof.
  intros Hwf. destruct c as [[|b o]|l]; cbn [cstring_of below]; trivial.
  intros Hc. destruct (decide (b < next s)%nat) as [|Hge]; [assumption|].
  rewrite (Hwf b) in Hc by lia. discriminate.
Qed.

Lemma cstring_of_agree n h h' c :
  agree n h h' -> below n c -> cstring_of h' c = cstring_of h c.
Proof.
  intros Ha. destruct c as [[|b o]|l]; cbn [cstring_of below]; trivial.
  intros Hb. rewrite (Ha b Hb). reflexivity.
Qed.

Lemma cstring_at_block (h : gmap block chars) b t r :
  h !! b = Some (t ++ NUL :: r) -> NUL ∉ t ->
  cstring_of h (At (Ptr b 0)) = Some t.
Proof.
  intros Hb Ht. cbn [cstring_of]. rewrite Hb. apply until_nul_app. exact Ht.
Qed.

Ltac solve_agree :=
  intros ? ?; cbn [heap next];
  repeat first [ rewrite lookup_insert_ne by lia
               | rewrite lookup_delete_ne by lia ];
  reflexivity.

(** ** The steps shared by [oauth_exec_post] and [oauth_exec_get] *)

(** [getenv], then [strdup] of the override or of the default. *)
Lemma template_copy_run {A} w name def tpl (k : ptr -> M A) s :
  cstring_of (heap s) (template_source w name def) = Some tpl ->
  (e <- getenv w name ;;
   cmdtpl <- (if is_null e then strdup w (Lit def) else strdup w (At e)) ;;
   k cmdtpl) s =
  k (Ptr (next s) 0)
    (State (<[next s := tpl ++ [NUL]]> (heap s)) (S (next s))
           (trace s ++ [EvGetenv name])).
Proof.
  intros Htpl. unfold getenv. rewrite bind_assoc.
  unfold bind at 1. unfold log at 1. unfold bind at 1. unfold ret at 1.
  set (s1 := State _ _ _).
  assert ((if is_null (environ w name) then strdup w (Lit def)
           else strdup w (At (environ w name)))
          = strdup w (template_source w name def)) as ->.
  { unfold template_source. destruct (environ w name); reflexivity. }
  rewrite (bind_done _ _ _ _ _ (strdup_run w _ tpl s1 Htpl)).
  reflexivity.
Qed.

Lemma snprintf_run dst m fmt args f o junk s :
  cstring_of (heap s) (At fmt) = Some f ->
  format f args s = (Done o, s) ->
  heap s !! dst = Some junk -> (m < length junk)%nat ->
  snprintf (Ptr dst 0) (S m) fmt args s =
  (Done (Z.of_nat (length o)),
   State (<[dst := take m o ++ NUL
                   :: drop (length (take m o) + 1) junk]> (heap s))
         (next s) (trace s)).
Proof.
  intros Hf Ho Hdst Hm. unfold snprintf.
  rewrite (bind_done _ _ _ _ _ (read_cstr_run _ _ _ Hf)).
  rewrite (bind_done _ _ _ _ _ Ho).
  rewrite (bind_done _ _ _ _ _
             (write_chars_run dst 0 (take m o ++ [NUL]) junk s Hdst
                ltac:(rewrite length_app, length_take; simpl; lia))).
  unfold ret. cbn [take app]. rewrite <- app_assoc.
  rewrite length_app. reflexivity.
Qed.

(** What is left of a request once the command is in [cmd]: the first
    thing it does is [popen] of that command. *)
Lemma trace_after_popen {A} w cmd c (k : option FILE -> M A) s :
  cstring_of (heap s) (At cmd) = Some c ->
  (forall f, preserves 0 (k f) (fun _ => True)) ->
  exists rest,
    trace (snd ((f <- popen w cmd ;; k f) s)) = trace s ++ EvPopen c :: rest.
Proof.
  intros Hc Hk. rewrite (bind_done _ _ _ _ _ (popen_run w cmd c s Hc)).
  set (s1 := State _ _ _).
  destruct (Hk (match spawn w c with
                | Some out => Some (Stream out false)
                | None => None
                end) s1 ltac:(lia)) as [(_ & _ & [rest Hrest]) _].
  exists rest. rewrite Hrest. unfold s1. cbn [trace].
  rewrite <- app_assoc. reflexivity.
Qed.

Lemma free_trace p s : trace (snd (free p s)) = trace s.
Proof.
  destruct p as [|b [|o]]; try reflexivity.
  unfold free, bind, block_of. destruct (heap s !! b); reflexivity.
Qed.

(** The array [cmd] is block [next s]; leaving its scope adds nothing to
    the trace. *)
Lemma with_local_trace {A} w n (body : ptr -> M A) s :
  trace (snd (with_local w n body s)) =
  trace (snd (body (Ptr (next s) 0)
                (State (<[next s := fresh_bytes w (next s) 0 n]> (heap s))
                       (S (next s)) (trace s)))).
Proof.
  unfold with_local. unfold bind at 1. unfold malloc at 1.
  unfold bind at 1. destruct (body _ _) as [[r|f] s2]; [|reflexivity].
  unfold bind. cbn [snd].
  pose proof (free_trace (Ptr (next s) 0) s2) as Hf.
  destruct (free (Ptr (next s) 0) s2) as [[[]|f] s3]; exact Hf.
Qed.

Lemma post_template_nonul o pre mid suf :
  NUL ∉ post_template o pre mid suf ->
  (NUL ∉ pre) /\ (NUL ∉ mid) /\ (NUL ∉ suf).
Proof.
  destruct o; unfold post_template;
    rewrite !not_elem_of_app; tauto.
Qed.

Lemma find_marker_first (k : ascii) (pre rest : chars) :
  PERCENT ∉ pre ->
  find [PERCENT; k] (pre ++ PERCENT :: k :: rest) = Some (length pre).
Proof.
  intros Hpre. rewrite (find_skip PERCENT [k] pre _ Hpre).
  change (PERCENT :: k :: rest) with ([PERCENT; k] ++ rest).
  rewrite (find_here [PERCENT; k] rest). f_equal. lia.
Qed.

Lemma find_marker_second (k k' : ascii) (pre mid rest : chars) :
  k <> k' -> k' <> PERCENT -> PERCENT ∉ pre -> PERCENT ∉ mid ->
  find [PERCENT; k] (pre ++ PERCENT :: k' :: mid ++ PERCENT :: k :: rest) =
  Some (length pre + 2 + length mid)%nat.
Proof.
  intros Hk Hk' Hpre Hmid. rewrite (find_skip PERCENT [k] pre _ Hpre).
  cbn [find is_prefix]. rewrite Ascii.eqb_refl.
  assert (Ascii.eqb k k' = false) as -> by (apply Ascii.eqb_neq; exact Hk).
  assert (Ascii.eqb PERCENT k' = false) as ->
    by (apply Ascii.eqb_neq; congruence).
  cbn [andb].
  rewrite (find_marker_first k mid rest Hmid). f_equal. lia.
Qed.

Lemma format_plain_end (l : chars) (args : list cstr) s :
  PERCENT ∉ l -> format l args s = (Done l, s).
Proof.
  intros Hl. rewrite <- (app_nil_r l) at 1.
  rewrite (format_plain l [] args s Hl). cbn [format]. unfold ret.
  rewrite app_nil_r. reflexivity.
Qed.

Lemma format_one pre suf a v s :
  PERCENT ∉ pre -> PERCENT ∉ suf -> cstring_of (heap s) a = Some v ->
  format (pre ++ PERCENT :: "s"%char :: suf) [a] s = (Done (pre ++ v ++ suf), s).
Proof.
  intros Hpre Hsuf Ha.
  rewrite (format_plain pre _ _ s Hpre), (format_s suf a [] v s Ha).
  rewrite (format_plain_end suf [] s Hsuf). reflexivity.
Qed.

Lemma format_two pre mid suf a1 a2 v1 v2 s :
  PERCENT ∉ pre -> PERCENT ∉ mid -> PERCENT ∉ suf ->
  cstring_of (heap s) a1 = Some v1 -> cstring_of (heap s) a2 = Some v2 ->
  format (pre ++ PERCENT :: "s"%char :: mid ++ PERCENT :: "s"%char :: suf)
         [a1; a2] s
  = (Done (pre ++ v1 ++ mid ++ v2 ++ suf), s).
Proof.
  intros Hpre Hmid Hsuf H1 H2.
  rewrite (format_plain pre _ _ s Hpre), (format_s _ a1 [a2] v1 s H1).
  rewrite (format_one mid suf a2 v2 s Hmid Hsuf H2). reflexivity.
Qed.

(** [*(++t) = 's'] on a placeholder at offset [length pre] of block [c]. *)
Lemma mark_run c pre k rest s :
  heap s !! c = Some (pre ++ PERCENT :: k :: rest) ->
  write_chars (Ptr c (0 + length pre + 1)) ["s"%char] s =
  (Done tt,
   State (<[c := pre ++ PERCENT :: "s"%char :: rest]> (heap s))
         (next s) (trace s)).
Proof.
  intros Hc.
  replace (0 + length pre + 1)%nat with (length (pre ++ [PERCENT]))
    by (rewrite length_app; simpl; lia).
  rewrite (write_chars_mid c (pre ++ [PERCENT]) [k] rest ["s"%char] s).
  - rewrite <- app_assoc. reflexivity.
  - rewrite Hc, <- app_assoc. reflexivity.
  - reflexivity.
Qed.

(** Both placeholders of a POST template, in either order of the writes. *)
Lemma mark_both_run c pre k1 mid k2 rest (left_first : bool) s :
  heap s !! c = Some (pre ++ PERCENT :: k1 :: mid ++ PERCENT :: k2 :: rest) ->
  let i1 := length pre in
  let i2 := (length pre + 2 + length mid)%nat in
  (write_chars (Ptr c (0 + (if left_first then i1 else i2) + 1)) ["s"%char] ;;;
   write_chars (Ptr c (0 + (if left_first then i2 else i1) + 1)) ["s"%char]) s
  = (Done tt,
     State (<[c := pre ++ PERCENT :: "s"%char
                     :: mid ++ PERCENT :: "s"%char :: rest]> (heap s))
           (next s) (trace s)).
Proof.
  intros Hc i1 i2.
  assert (forall x y, (pre ++ PERCENT :: x :: mid) ++ PERCENT :: y :: rest
                      = pre ++ PERCENT :: x :: mid ++ PERCENT :: y :: rest)
    as Hassoc by (intros; rewrite <- app_assoc; reflexivity).
  assert (i2 = length (pre ++ PERCENT :: k1 :: mid)) as Hi2
    by (unfold i2; rewrite length_app; simpl; lia).
  unfold i1. destruct left_first.
  - rewrite (bind_done _ _ _ _ _ (mark_run c pre k1 _ s Hc)).
    set (s1 := State _ _ _).
    assert (heap s1 !! c =
            Some ((pre ++ PERCENT :: "s"%char :: mid) ++ PERCENT :: k2 :: rest))
      as Hc1 by (rewrite Hassoc; apply lookup_insert_eq).
    replace i2 with (length (pre ++ PERCENT :: "s"%char :: mid))
      by (rewrite Hi2, !length_app; reflexivity).
    rewrite (mark_run c _ k2 rest s1 Hc1).
    unfold s1. cbn [heap next trace].
    rewrite insert_insert_eq, Hassoc. reflexivity.
  - rewrite <- Hassoc in Hc. rewrite Hi2.
    rewrite (bind_done _ _ _ _ _ (mark_run c _ k2 rest s Hc)).
    set (s1 := State _ _ _).
    assert (heap s1 !! c =
            Some (pre ++ PERCENT :: k1 :: mid ++ PERCENT :: "s"%char :: rest))
      as Hc1 by (rewrite <- Hassoc; apply lookup_insert_eq).
    rewrite (mark_run c pre k1 _ s1 Hc1).
    unfold s1. cbn [heap next trace].
    rewrite insert_insert_eq. reflexivity.
Qed.

(** [snprintf] into [cmd], then [free(cmdtpl)]. *)
Lemma snprintf_free_run {A} (k : M A) d m c args f out junk s :
  heap s !! c = Some (f ++ [NUL]) -> NUL ∉ f ->
  format f args s = (Done out, s) ->
  heap s !! d = Some junk -> (m < length junk)%nat -> c <> d ->
  (snprintf (Ptr d 0) (S m) (Ptr c 0) args ;;; free (Ptr c 0) ;;; k) s =
  k (State (delete c (<[d := take m out ++ NUL
                               :: drop (length (take m out) + 1) junk]>
                        (heap s)))
           (next s) (trace s)).
Proof.
  intros Hc Hf Hfmt Hd Hm Hcd.
  rewrite (bind_done _ _ _ _ _
             (snprintf_run d m (Ptr c 0) args f out junk s
                (cstring_at_block _ c f [] Hc Hf) Hfmt Hd Hm)).
  set (s1 := State _ _ _).
  assert (heap s1 !! c = Some (f ++ [NUL])) as Hc1
    by (unfold s1; cbn [heap]; rewrite lookup_insert_ne by congruence;
        exact Hc).
  rewrite (bind_done _ _ _ _ _ (free_run c _ s1 Hc1)). reflexivity.
Qed.

(** The command [oauth_exec_shell] is given is the command it runs. *)
Lemma shell_trace w cmd c s :
  cstring_of (heap s) (At cmd) = Some c ->
  exists rest,
    trace (snd (oauth_exec_shell w cmd s)) = trace s ++ EvPopen c :: rest.
Proof.
  intros Hc. unfold oauth_exec_shell.
  apply trace_after_popen; [exact Hc|]. intros f. apply preserves_capture.
Qed.

Lemma mark_both_then {A} (k : M A) c pre k1 mid k2 rest (left_first : bool) s :
  heap s !! c = Some (pre ++ PERCENT :: k1 :: mid ++ PERCENT :: k2 :: rest) ->
  (write_chars
     (Ptr c (0 + (if left_first then length pre
                  else length pre + 2 + length mid) + 1)%nat) ["s"%char] ;;;
   write_chars
     (Ptr c (0 + (if left_first then length pre + 2 + length mid
                  else length pre) + 1)%nat) ["s"%char] ;;;
   k) s
  = k (State (<[c := pre ++ PERCENT :: "s"%char
                       :: mid ++ PERCENT :: "s"%char :: rest]> (heap s))
             (next s) (trace s)).
Proof.
  intros Hc.
  etransitivity;
    [symmetry; apply (bind_assoc (write_chars _ _) (fun _ => write_chars _ _)
                        (fun _ => k) s)|].
  exact (bind_done _ (fun _ => k) s tt _
           (mark_both_run c pre k1 mid k2 rest left_first s Hc)).
Qed.

Lemma not_elem_of_take {A} (x : A) (n : nat) (l : list A) :
  x ∉ l -> x ∉ take n l.
Proof. intros Hl Ht. apply Hl. exact (subseteq_take n l x Ht). Qed.

Lemma post_command_nonul o pre mid suf url body :
  NUL ∉ pre -> NUL ∉ mid -> NUL ∉ suf -> NUL ∉ url -> NUL ∉ body ->
  NUL ∉ post_command o pre mid suf url body.
Proof.
  intros. destruct o; unfold post_command; rewrite !not_elem_of_app; tauto.
Qed.

(** A POST request whose template holds the two placeholders and no
    other conversion: the command is the filled template, cut to what
    fits [cmd]. *)
Lemma post_formats w o pre mid suf u p url body s :
  wf s -> (0 < BUFSIZ w)%nat ->
  cstring_of (heap s)
    (template_source w _OAUTH_ENV_HTTPCMD (_OAUTH_DEF_HTTPCMD w))
  = Some (post_template o pre mid suf) ->
  PERCENT ∉ pre -> PERCENT ∉ mid -> PERCENT ∉ suf ->
  cstring_of (heap s) u = Some url -> cstring_of (heap s) p = Some body ->
  exists rest,
    trace (snd (oauth_exec_post w u p s)) =
    trace s ++ EvGetenv _OAUTH_ENV_HTTPCMD
      :: EvPopen (take (BUFSIZ w - 1) (post_command o pre mid suf url body))
      :: rest.
Proof.
  intros Hwf HB Htpl Hpre Hmid Hsuf Hu Hp.
  pose proof (cstring_of_nonul _ _ _ Htpl) as Hnul.
  pose proof (post_template_nonul _ _ _ _ Hnul) as (Hn1 & Hn2 & Hn3).
  pose proof (cstring_of_nonul _ _ _ Hu) as Hnu.
  pose proof (cstring_of_nonul _ _ _ Hp) as Hnp.
  pose proof (wf_below _ _ _ Hwf Htpl) as Bt.
  pose proof (wf_below _ _ _ Hwf Hu) as Bu.
  pose proof (wf_below _ _ _ Hwf Hp) as Bp.
  unfold oauth_exec_post. rewrite with_local_trace.
  destruct (BUFSIZ w) as [|m] eqn:Hm; [lia|]. clear HB.
  replace (S m - 1)%nat with m by lia.
  set (J := fresh_bytes w (next s) 0 (S m)).
  set (s1 := State _ _ _).
  rewrite (template_copy_run w _ _ (post_template o pre mid suf) _ s1).
  2:{ rewrite (cstring_of_agree (next s) (heap s)); [exact Htpl| |exact Bt].
      unfold s1. solve_agree. }
  set (s2 := State _ _ _).
  assert (cstring_of (heap s2) (At (Ptr (S (next s)) 0))
          = Some (post_template o pre mid suf)) as Hc2.
  { eapply cstring_at_block; [apply lookup_insert_eq | exact Hnul]. }
  rewrite (bind_done _ _ _ _ _ (strstr_run _ (str "%p") _ s2 Hc2)).
  rewrite (bind_done _ _ _ _ _ (strstr_run _ (str "%u") _ s2 Hc2)).
  change (str "%p") with [PERCENT; "p"%char].
  change (str "%u") with [PERCENT; "u"%char].
  set (f := pre ++ PERCENT :: "s"%char :: mid ++ PERCENT :: "s"%char :: suf).
  assert (NUL ∉ f) as Hf.
  { unfold f. rewrite !not_elem_of_app, !not_elem_of_cons, !not_elem_of_app,
      !not_elem_of_cons. repeat split; try assumption; discriminate. }
  assert (forall x y r,
            pre ++ PERCENT :: x :: mid ++ PERCENT :: y :: suf ++ r
            = (pre ++ PERCENT :: x :: mid ++ PERCENT :: y :: suf) ++ r)
    as Hassoc.
  { intros. rewrite <- app_assoc. cbn [app]. rewrite <- app_assoc.
    reflexivity. }
  assert (forall a1 a2 v1 v2 out (s3 : state),
            heap s3 = <[S (next s) := f ++ [NUL]]> (heap s2) ->
            trace s3 = trace s2 ->
            below (next s) a1 -> below (next s) a2 ->
            cstring_of (heap s) a1 = Some v1 ->
            cstring_of (heap s) a2 = Some v2 ->
            out = pre ++ v1 ++ mid ++ v2 ++ suf -> NUL ∉ out ->
            exists rest,
              trace (snd ((snprintf (Ptr (next s) 0) (S m) (Ptr (next s1) 0)
                             [a1; a2] ;;;
                           free (Ptr (next s1) 0) ;;;
                           oauth_exec_shell w (Ptr (next s) 0)) s3)) =
              trace s ++ EvGetenv _OAUTH_ENV_HTTPCMD
                :: EvPopen (take m out) :: rest) as Htail.
  { intros a1 a2 v1 v2 out s3 Hh3 Ht3 B1 B2 H1 H2 -> Hout.
    assert (agree (next s) (heap s) (heap s3)) as Hag
      by (rewrite Hh3; unfold s2, s1; solve_agree).
    rewrite (snprintf_free_run _ (next s) m (S (next s)) [a1; a2] f
               (pre ++ v1 ++ mid ++ v2 ++ suf) J s3).
    - set (s5 := State _ _ _).
      destruct (shell_trace w (Ptr (next s) 0)
                  (take m (pre ++ v1 ++ mid ++ v2 ++ suf)) s5) as [rest Hr].
      + eapply cstring_at_block.
        * unfold s5. cbn [heap]. rewrite lookup_delete_ne by lia.
          apply lookup_insert_eq.
        * apply not_elem_of_take. exact Hout.
      + exists rest. rewrite Hr. unfold s5. cbn [trace].
        rewrite Ht3. unfold s2, s1. cbn [trace].
        rewrite <- app_assoc. reflexivity.
    - rewrite Hh3. apply lookup_insert_eq.
    - exact Hf.
    - apply format_two; try assumption;
        rewrite (cstring_of_agree (next s) (heap s)); assumption.
    - rewrite Hh3. unfold s2, s1. cbn [heap next].
      rewrite !lookup_insert_ne by lia. apply lookup_insert_eq.
    - unfold J. rewrite length_fresh_bytes. lia.
    - lia. }
  destruct o; unfold post_template in *; cbn [str list_ascii_of_string app];
    change "%"%char with PERCENT.
  - (* URL first *)
    rewrite (find_marker_second "p" "u" pre mid suf
               ltac:(discriminate) ltac:(discriminate) Hpre Hmid).
    rewrite (find_marker_first "u" pre _ Hpre).
    cbn [ptr_add is_null orb].
    assert (ptr_gt (Ptr (S (next s)) (0 + (length pre + 2 + length mid) + 1))
                   (Ptr (S (next s)) (0 + length pre + 1)) = true) as ->
      by (apply Nat.ltb_lt; lia).
    rewrite (mark_both_then _ (S (next s)) pre "u" mid "p" (suf ++ [NUL])
               false s2).
    + apply (Htail u p url body _ _); try assumption; try reflexivity.
      * unfold s2, s1. cbn [heap next].
        rewrite !insert_insert_eq, Hassoc. reflexivity.
      * apply (post_command_nonul URL_first); assumption.
    + unfold s2, s1. cbn [heap next str list_ascii_of_string app].
      change "%"%char with PERCENT. rewrite Hassoc.
      apply lookup_insert_eq.
  - (* body first *)
    rewrite (find_marker_first "p" pre _ Hpre).
    rewrite (find_marker_second "u" "p" pre mid suf
               ltac:(discriminate) ltac:(discriminate) Hpre Hmid).
    cbn [ptr_add is_null orb].
    assert (ptr_gt (Ptr (S (next s)) (0 + length pre + 1))
                   (Ptr (S (next s)) (0 + (length pre + 2 + length mid) + 1))
            = false) as ->
      by (apply Nat.ltb_ge; lia).
    rewrite (mark_both_then _ (S (next s)) pre "p" mid "u" (suf ++ [NUL])
               true s2).
    + apply (Htail p u body url _ _); try assumption; try reflexivity.
      * unfold s2, s1. cbn [heap next].
        rewrite !insert_insert_eq, Hassoc. reflexivity.
      * apply (post_command_nonul Body_first); assumption.
    + unfold s2, s1. cbn [heap next str list_ascii_of_string app].
      change "%"%char with PERCENT. rewrite Hassoc.
      apply lookup_insert_eq.
Qed.

(** ** [oauth_exec_get] *)

Lemma readable_not_null h c t :
  cstring_of h c = Some t -> cstr_is_null c = false.
Proof. destruct c as [[|b o]|l]; [discriminate | reflexivity..]. Qed.

(** [strcat] onto a block that holds a string [d] and has room. *)
Lemma strcat_run b d r src t s :
  heap s !! b = Some (d ++ NUL :: r) -> NUL ∉ d ->
  cstring_of (heap s) src = Some t -> (length t <= length r)%nat ->
  strcat (Ptr b 0) src s =
  (Done (Ptr b 0),
   State (<[b := (d ++ t) ++ NUL :: drop (length t) r]> (heap s))
         (next s) (trace s)).
Proof.
  intros Hb Hd Hsrc Hroom. unfold strcat.
  rewrite (bind_done _ _ _ _ _
             (read_cstr_run _ _ _ (cstring_at_block _ b d r Hb Hd))).
  rewrite (bind_done _ _ _ _ _ (read_cstr_run _ _ _ Hsrc)).
  cbn [ptr_add]. rewrite Nat.add_0_l.
  assert (d ++ NUL :: r = d ++ (NUL :: take (length t) r) ++ drop (length t) r)
    as Hsplit by (cbn [app]; rewrite take_drop; reflexivity).
  rewrite Hsplit in Hb.
  rewrite (bind_done _ _ _ _ _
             (write_chars_mid b d _ _ (t ++ [NUL]) s Hb
                ltac:(rewrite length_app; cbn [length];
                      rewrite length_take; lia))).
  unfold ret. rewrite <- !app_assoc. reflexivity.
Qed.

(** A GET request whose template holds [%u] and no other conversion:
    the command is the template with the effective URL in the place of
    the placeholder, cut to what fits [cmd].  With a query, this needs
    the block [xmalloc] returns to begin with a NUL: the code appends to
    it with [strcat] without having written to it. *)
Lemma get_formats w pre suf u q url query s :
  wf s -> (0 < BUFSIZ w)%nat ->
  cstring_of (heap s)
    (template_source w _OAUTH_ENV_HTTPGET (_OAUTH_DEF_HTTPGET w))
  = Some (pre ++ str "%u" ++ suf) ->
  PERCENT ∉ pre -> PERCENT ∉ suf ->
  cstring_of (heap s) u = Some url ->
  match query with
  | None => q = At NULL
  | Some qs =>
      cstring_of (heap s) q = Some qs
      /\ uninit w (S (S (next s))) 0 = NUL
      /\ Z.of_nat (length url) + Z.of_nat (length qs) + 2 < 2 ^ 64
  end ->
  exists rest,
    trace (snd (oauth_exec_get w u q s)) =
    trace s ++ EvGetenv _OAUTH_ENV_HTTPGET
      :: EvPopen (take (BUFSIZ w - 1) (pre ++ effective_url url query ++ suf))
      :: rest.
Proof.
  intros Hwf HB Htpl Hpre Hsuf Hu Hq.
  pose proof (cstring_of_nonul _ _ _ Htpl) as Hnul.
  cbn [str list_ascii_of_string app] in Htpl, Hnul.
  change "%"%char with PERCENT in Htpl, Hnul.
  assert ((NUL ∉ pre) /\ (NUL ∉ suf)) as [Hn1 Hn2].
  { rewrite not_elem_of_app, !not_elem_of_cons in Hnul. tauto. }
  pose proof (cstring_of_nonul _ _ _ Hu) as Hnu.
  pose proof (wf_below _ _ _ Hwf Htpl) as Bt.
  pose proof (wf_below _ _ _ Hwf Hu) as Bu.
  unfold oauth_exec_get. rewrite with_local_trace.
  rewrite (readable_not_null _ _ _ Hu).
  destruct (BUFSIZ w) as [|m] eqn:Hm; [lia|]. clear HB.
  replace (S m - 1)%nat with m by lia.
  set (J := fresh_bytes w (next s) 0 (S m)).
  set (s1 := State _ _ _).
  rewrite (template_copy_run w _ _ (pre ++ PERCENT :: "u"%char :: suf) _ s1).
  2:{ rewrite (cstring_of_agree (next s) (heap s)); [exact Htpl| |exact Bt].
      unfold s1. solve_agree. }
  set (s2 := State _ _ _).
  assert (cstring_of (heap s2) (At (Ptr (S (next s)) 0))
          = Some (pre ++ PERCENT :: "u"%char :: suf)) as Hc2.
  { eapply cstring_at_block; [apply lookup_insert_eq | exact Hnul]. }
  rewrite (bind_done _ _ _ _ _ (strstr_run _ (str "%u") _ s2 Hc2)).
  change (str "%u") with [PERCENT; "u"%char].
  rewrite (find_marker_first "u" pre suf Hpre).
  cbn [ptr_add is_null].
  assert (heap s2 !! S (next s) = Some (pre ++ PERCENT :: "u"%char :: suf ++ [NUL]))
    as Hb2.
  { unfold s2, s1. cbn [heap next]. rewrite lookup_insert_eq.
    rewrite <- app_assoc. reflexivity. }
  rewrite (bind_done _ _ _ _ _ (mark_run (S (next s)) pre "u" _ s2 Hb2)).
  set (f := pre ++ PERCENT :: "s"%char :: suf).
  set (s3 := State _ _ _).
  assert (NUL ∉ f) as Hf.
  { unfold f. rewrite not_elem_of_app, !not_elem_of_cons.
    repeat split; try assumption; discriminate. }
  assert (heap s3 !! S (next s) = Some (f ++ [NUL])) as Hb3.
  { unfold s3, f. cbn [heap]. rewrite lookup_insert_eq.
    rewrite <- app_assoc. reflexivity. }
  assert (heap s3 !! next s = Some J) as Hd3.
  { unfold s3, s2, s1. cbn [heap next].
    rewrite !lookup_insert_ne by lia. apply lookup_insert_eq. }
  assert (agree (next s) (heap s) (heap s3)) as Hag3
    by (unfold s3, s2, s1; solve_agree).
  destruct query as [qs|].
  - (* with a query *)
    destruct Hq as (Hq & Hzero & Hwrap).
    pose proof (cstring_of_nonul _ _ _ Hq) as Hnq.
    pose proof (wf_below _ _ _ Hwf Hq) as Bq.
    rewrite (readable_not_null _ _ _ Hq).
    assert (cstring_of (heap s3) u = Some url) as Hu3
      by (rewrite (cstring_of_agree (next s) (heap s)); assumption).
    assert (cstring_of (heap s3) q = Some qs) as Hq3
      by (rewrite (cstring_of_agree (next s) (heap s)); assumption).
    rewrite bind_assoc, (bind_done _ _ _ _ _ (strlen_run u url s3 Hu3)).
    rewrite bind_assoc, (bind_done _ _ _ _ _ (strlen_run q qs s3 Hq3)).
    rewrite Z.mul_1_l.
    rewrite (size_t_small (Z.of_nat (length url) + Z.of_nat (length qs)))
      by size_lia.
    rewrite (size_t_small (Z.of_nat (length url) + Z.of_nat (length qs) + 2))
      by size_lia.
    rewrite size_t_small by size_lia.
    rewrite bind_assoc. unfold xmalloc. unfold bind at 1. unfold malloc at 1.
    replace (Z.to_nat (Z.of_nat (length url) + Z.of_nat (length qs) + 2))
      with (S (length url + length qs + 1)) by lia.
    unfold fresh_bytes at 1. cbn [seq map].
    change (next s3) with (S (S (next s))). rewrite Hzero.
    set (R := map _ _).
    assert (length R = length url + length qs + 1)%nat as HR
      by (unfold R; rewrite length_map, length_seq; reflexivity).
    set (s4 := State _ _ _).
    assert (agree (next s) (heap s) (heap s4)) as Hag4
      by (unfold s4, s3, s2, s1; solve_agree).
    assert (cstring_of (heap s4) u = Some url) as Hu4
      by (rewrite (cstring_of_agree (next s) (heap s)); assumption).
    rewrite bind_assoc.
    rewrite (bind_done _ _ _ _ _
               (strcat_run (S (S (next s))) [] R u url s4
                  ltac:(apply lookup_insert_eq) ltac:(apply not_elem_of_nil)
                  Hu4 ltac:(lia))).
    set (s5 := State _ _ _).
    rewrite bind_assoc.
    rewrite (bind_done _ _ _ _ _
               (strcat_run (S (S (next s))) ([] ++ url) _ (Lit (str "?"))
                  (str "?") s5
                  ltac:(apply lookup_insert_eq) ltac:(exact Hnu)
                  eq_refl ltac:(rewrite length_drop; simpl; lia))).
    set (s6 := State _ _ _).
    assert (agree (next s) (heap s) (heap s6)) as Hag6
      by (unfold s6, s5, s4, s3, s2, s1; solve_agree).
    assert (cstring_of (heap s6) q = Some qs) as Hq6
      by (rewrite (cstring_of_agree (next s) (heap s)); assumption).
    assert (NUL ∉ ([] ++ url) ++ str "?") as Hnuq.
    { rewrite !not_elem_of_app. repeat split;
        [apply not_elem_of_nil | exact Hnu |].
      cbn. rewrite not_elem_of_cons. split;
        [discriminate | apply not_elem_of_nil]. }
    rewrite bind_assoc.
    rewrite (bind_done _ _ _ _ _
               (strcat_run (S (S (next s))) (([] ++ url) ++ str "?") _ q qs s6
                  ltac:(apply lookup_insert_eq) Hnuq Hq6
                  ltac:(rewrite !length_drop; simpl; lia))).
    set (s7 := State _ _ _).
    unfold ret at 1. unfold bind at 1. cbv beta iota.
    assert (agree (next s) (heap s) (heap s7)) as Hag7
      by (unfold s7, s6, s5, s4, s3, s2, s1; solve_agree).
    assert (NUL ∉ url ++ str "?" ++ qs) as Hneff.
    { rewrite !not_elem_of_app. repeat split; try assumption.
      cbn. rewrite not_elem_of_cons. split;
        [discriminate | apply not_elem_of_nil]. }
    assert (cstring_of (heap s7) (At (Ptr (S (S (next s))) 0))
            = Some (url ++ str "?" ++ qs)) as Ht7.
    { eapply cstring_at_block; [|exact Hneff].
      unfold s7. cbn [heap]. rewrite lookup_insert_eq.
      cbn [app]. rewrite <- !app_assoc. reflexivity. }
    rewrite (snprintf_free_run _ (next s) m (S (next s))
               [At (Ptr (S (S (next s))) 0)] f
               (pre ++ (url ++ str "?" ++ qs) ++ suf) J s7).
    + set (s8 := State _ _ _).
      assert (is_Some (heap s8 !! S (S (next s)))) as [c8 Hc8].
      { unfold s8, s7. cbn [heap]. rewrite lookup_delete_ne by lia.
        rewrite lookup_insert_ne by lia. rewrite lookup_insert_eq. eauto. }
      rewrite (bind_done _ _ _ _ _ (free_run _ _ s8 Hc8)).
      set (s9 := State _ _ _).
      destruct (shell_trace w (Ptr (next s) 0)
                  (take m (pre ++ (url ++ str "?" ++ qs) ++ suf)) s9)
        as [rest Hr].
      * eapply cstring_at_block.
        -- unfold s9, s8. cbn [heap]. rewrite !lookup_delete_ne by lia.
           apply lookup_insert_eq.
        -- apply not_elem_of_take. rewrite !not_elem_of_app.
           rewrite !not_elem_of_app in Hneff. tauto.
      * exists rest. rewrite Hr. unfold s9, s8, s7, s6, s5, s4, s3, s2, s1.
        cbn [trace effective_url]. rewrite <- app_assoc. reflexivity.
    + unfold s7, s6, s5, s4. cbn [heap].
      rewrite !lookup_insert_ne by lia. exact Hb3.
    + exact Hf.
    + apply format_one; assumption.
    + unfold s7, s6, s5, s4. cbn [heap].
      rewrite !lookup_insert_ne by lia. exact Hd3.
    + unfold J. rewrite length_fresh_bytes. lia.
    + lia.
  - (* without *)
    subst q. cbn [cstr_is_null]. unfold ret at 1. unfold bind at 1.
    cbv beta iota.
    rewrite (snprintf_free_run _ (next s) m (S (next s)) [u] f
               (pre ++ url ++ suf) J s3 Hb3 Hf).
    + set (s5 := State _ _ _).
      unfold ret at 1. unfold bind at 1. cbv beta iota.
      destruct (shell_trace w (Ptr (next s) 0)
                  (take m (pre ++ url ++ suf)) s5) as [rest Hr].
      * eapply cstring_at_block.
        -- unfold s5. cbn [heap]. rewrite lookup_delete_ne by lia.
           apply lookup_insert_eq.
        -- apply not_elem_of_take. rewrite !not_elem_of_app. tauto.
      * exists rest. rewrite Hr. unfold s5, s3, s2, s1. cbn [trace effective_url].
        rewrite <- app_assoc. reflexivity.
    + apply format_one; try assumption.
      rewrite (cstring_of_agree (next s) (heap s)); assumption.
    + exact Hd3.
    + unfold J. rewrite length_fresh_bytes. lia.
    + lia.
Qed.

(** ** Requests that stop before [popen] *)

Lemma with_local_done {A} w n (body : ptr -> M A) s (r : A) s2 l :
  body (Ptr (next s) 0)
       (State (<[next s := fresh_bytes w (next s) 0 n]> (heap s))
              (S (next s)) (trace s)) = (Done r, s2) ->
  heap s2 !! next s = Some l ->
  with_local w n body s =
  (Done r, State (delete (next s) (heap s2)) (next s2) (trace s2)).
Proof.
  intros Hb Hl. unfold with_local. unfold bind at 1. unfold malloc at 1.
  rewrite (bind_done _ _ _ _ _ Hb).
  rewrite (bind_done _ _ _ _ _ (free_run _ _ s2 Hl)). reflexivity.
Qed.

Lemma diagnostic_post s :
  fprintf_stderr invalid_http_command [Lit _OAUTH_ENV_HTTPCMD] s =
  (Done tt, State (heap s) (next s)
                  (trace s ++ [EvStderr (diagnostic _OAUTH_ENV_HTTPCMD)])).
Proof. reflexivity. Qed.

Lemma diagnostic_get s :
  fprintf_stderr invalid_http_command [Lit _OAUTH_ENV_HTTPGET] s =
  (Done tt, State (heap s) (next s)
                  (trace s ++ [EvStderr (diagnostic _OAUTH_ENV_HTTPGET)])).
Proof. reflexivity. Qed.

(** POST: a template without [%p] or without [%u]. *)
Lemma post_rejects w u p tpl s :
  wf s ->
  cstring_of (heap s)
    (template_source w _OAUTH_ENV_HTTPCMD (_OAUTH_DEF_HTTPCMD w)) = Some tpl ->
  find (str "%u") tpl = None \/ find (str "%p") tpl = None ->
  exists s',
    oauth_exec_post w u p s = (Done NULL, s')
    /\ trace s' = trace s ++ [EvGetenv _OAUTH_ENV_HTTPCMD;
                              EvStderr (diagnostic _OAUTH_ENV_HTTPCMD)].
Proof.
  intros Hwf Htpl Hmiss.
  pose proof (cstring_of_nonul _ _ _ Htpl) as Hnul.
  pose proof (wf_below _ _ _ Hwf Htpl) as Bt.
  unfold oauth_exec_post.
  eexists. split.
  - eapply with_local_done.
    + set (s1 := State _ _ _).
      rewrite (template_copy_run w _ _ tpl _ s1).
      2:{ rewrite (cstring_of_agree (next s) (heap s)); [exact Htpl| |exact Bt].
          unfold s1. solve_agree. }
      set (s2 := State _ _ _).
      assert (cstring_of (heap s2) (At (Ptr (S (next s)) 0)) = Some tpl) as Hc2.
      { eapply cstring_at_block; [apply lookup_insert_eq | exact Hnul]. }
      rewrite (bind_done _ _ _ _ _ (strstr_run _ (str "%p") _ s2 Hc2)).
      rewrite (bind_done _ _ _ _ _ (strstr_run _ (str "%u") _ s2 Hc2)).
      assert (is_null match find (str "%p") tpl with
                      | Some i => ptr_add (Ptr (S (next s)) 0) i
                      | None => NULL
                      end
              || is_null match find (str "%u") tpl with
                         | Some i => ptr_add (Ptr (S (next s)) 0) i
                         | None => NULL
                         end = true) as ->.
      { destruct Hmiss as [-> | ->]; [apply orb_true_r | reflexivity]. }
      rewrite (bind_done _ _ _ _ _ (diagnostic_post s2)). reflexivity.
    + cbn [heap next]. rewrite lookup_insert_ne by lia.
      apply lookup_insert_eq.
  - cbn [trace]. rewrite <- app_assoc. reflexivity.
Qed.

(** GET: a template without [%u]. *)
Lemma get_rejects w u q tpl s :
  wf s ->
  cstring_of (heap s)
    (template_source w _OAUTH_ENV_HTTPGET (_OAUTH_DEF_HTTPGET w)) = Some tpl ->
  find (str "%u") tpl = None ->
  cstr_is_null u = false ->
  exists s',
    oauth_exec_get w u q s = (Done NULL, s')
    /\ trace s' = trace s ++ [EvGetenv _OAUTH_ENV_HTTPGET;
                              EvStderr (diagnostic _OAUTH_ENV_HTTPGET)].
Proof.
  intros Hwf Htpl Hmiss Hu.
  pose proof (cstring_of_nonul _ _ _ Htpl) as Hnul.
  pose proof (wf_below _ _ _ Hwf Htpl) as Bt.
  unfold oauth_exec_get. rewrite Hu.
  eexists. split.
  - eapply with_local_done.
    + set (s1 := State _ _ _).
      rewrite (template_copy_run w _ _ tpl _ s1).
      2:{ rewrite (cstring_of_agree (next s) (heap s)); [exact Htpl| |exact Bt].
          unfold s1. solve_agree. }
      set (s2 := State _ _ _).
      assert (cstring_of (heap s2) (At (Ptr (S (next s)) 0)) = Some tpl) as Hc2.
      { eapply cstring_at_block; [apply lookup_insert_eq | exact Hnul]. }
      rewrite (bind_done _ _ _ _ _ (strstr_run _ (str "%u") _ s2 Hc2)).
      rewrite Hmiss. cbn [is_null].
      rewrite (bind_done _ _ _ _ _ (diagnostic_get s2)). reflexivity.
    + cbn [heap next]. rewrite lookup_insert_ne by lia.
      apply lookup_insert_eq.
  - cbn [trace]. rewrite <- app_assoc. reflexivity.
Qed.

(** GET with a null URL: nothing but the array [cmd] coming and going. *)
Lemma get_null_url w q s :
  oauth_exec_get w (At NULL) q s =
  (Done NULL, State (delete (next s) (heap s)) (S (next s)) (trace s)).
Proof.
  unfold oauth_exec_get. cbn [cstr_is_null].
  erewrite with_local_done; [|reflexivity|apply lookup_insert_eq].
  cbn [heap next trace]. rewrite delete_insert_eq. reflexivity.
Qed.

(** The first thing a POST request does, whatever its URL. *)
Lemma post_reads_template w u p s :
  exists rest,
    trace (snd (oauth_exec_post w u p s)) =
    trace s ++ EvGetenv _OAUTH_ENV_HTTPCMD :: rest.
Proof.
  unfold oauth_exec_post. rewrite with_local_trace.
  set (s1 := State _ _ _).
  unfold getenv. rewrite bind_assoc.
  unfold bind at 1. unfold log at 1. unfold bind at 1. unfold ret at 1.
  set (s2 := State _ _ _).
  destruct (preserves_post_rest w 0 u p (Ptr (next s) 0)
              (environ w _OAUTH_ENV_HTTPCMD) ltac:(simpl; lia) s2
              ltac:(lia)) as [(_ & _ & [rest Hrest]) _].
  exists rest. rewrite Hrest. unfold s2, s1. cbn [trace].
  rewrite <- app_assoc. reflexivity.
Qed.

Lemma grown_fits reads : forall prev,
  grown prev reads = true -> forallb fits reads = true.
Proof.
  induction reads as [|e reads IH]; intros prev; [reflexivity|].
  destruct e as [| | |cap req got|]; cbn [grown]; try discriminate.
  intros H. apply andb_prop in H as [H Hg]. apply andb_prop in H as [Hc Hr].
  cbn [forallb fits]. rewrite (IH cap Hg), Hr.
  apply Nat.eqb_eq in Hc. subst cap.
  assert ((req <=? prev + req)%nat = true) as -> by (apply Nat.leb_le; lia).
  reflexivity.
Qed.

(** No stream: [pclose(NULL)]. *)
Lemma exec_shell_no_stream w cmd c s :
  cstring_of (heap s) (At cmd) = Some c -> spawn w c = None ->
  oauth_exec_shell w cmd s =
  (Fault NullStream, State (heap s) (next s) (trace s ++ [EvPopen c])).
Proof.
  intros Hc Hsp. unfold oauth_exec_shell.
  rewrite (bind_done _ _ _ _ _ (popen_run w cmd c s Hc)), Hsp.
  reflexivity.
Qed.

(** ** The scenarios of the specification *)

(** The commands that are run and the strings that come back. *)
Example scenario_get_echo :
  commands (trace (snd (oauth_exec_get
                          (Sample.glibc (Sample.set_to_block0 _OAUTH_ENV_HTTPGET)
                             Sample.shell Sample.recycled)
                          (Lit (str "hello")) (At NULL)
                          (Sample.with_string (str "echo %u")))))
  = [str "echo hello"]
  /\ (let r := oauth_exec_get
                 (Sample.glibc (Sample.set_to_block0 _OAUTH_ENV_HTTPGET)
                    Sample.shell Sample.recycled)
                 (Lit (str "hello")) (At NULL)
                 (Sample.with_string (str "echo %u")) in
      match fst r with
      | Done p => cstring_of (heap (snd r)) (At p)
      | Fault _ => None
      end) = Some (str "hello" ++ [LF]).
Proof. split; vm_compute; reflexivity. Qed.

Example scenario_post_echo :
  commands (trace (snd (oauth_exec_post
                          (Sample.glibc (Sample.set_to_block0 _OAUTH_ENV_HTTPCMD)
                             Sample.shell Sample.recycled)
                          (Lit (str "U")) (Lit (str "B"))
                          (Sample.with_string (str "echo %p %u")))))
  = [str "echo B U"]
  /\ (let r := oauth_exec_post
                 (Sample.glibc (Sample.set_to_block0 _OAUTH_ENV_HTTPCMD)
                    Sample.shell Sample.recycled)
                 (Lit (str "U")) (Lit (str "B"))
                 (Sample.with_string (str "echo %p %u")) in
      match fst r with
      | Done p => cstring_of (heap (snd r)) (At p)
      | Fault _ => None
      end) = Some (str "B U" ++ [LF]).
Proof. split; vm_compute; reflexivity. Qed.

(** An output of exactly 1024 bytes takes two reads; the second stores
    nothing, and the buffer holds the output and its terminator. *)
Example capture_1024 :
  (take 1025 <$>
   heap (snd (oauth_exec_shell
                (Sample.glibc Sample.unset
                   (Sample.prints (repeat "a"%char 1024)) Sample.recycled)
                (Ptr 0 0) (Sample.with_string (str "curl")))) !! 1%nat)
  = Some (repeat "a"%char 1024 ++ [NUL]).
Proof. vm_compute. reflexivity. Qed.

(** With memory that is handed out zeroed the query is appended as the
    specification has it. *)
Example get_query_on_zeroed_memory :
  commands (trace (snd (oauth_exec_get
                          (Sample.glibc Sample.unset Sample.shell Sample.zeroed)
                          (Lit (str "http://h/r")) (Lit (str "a=1"))
                          Sample.empty)))
  = [Sample.get_pre ++ str "http://h/r?a=1" ++ Sample.def_suf].
Proof. vm_compute. reflexivity. Qed.

(** ** A POST request up to [snprintf] *)

Lemma bind_run_eq {A B} (m m' : M A) (k : A -> M B) s s' :
  m s = m' s' -> bind m k s = bind m' k s'.
Proof. unfold bind. intros ->. reflexivity. Qed.

(** A POST request whose template passes the test, up to [snprintf]: the
    placeholders have become [%s], and the arguments are passed in the
    order of the placeholders. *)
Lemma post_marks w o pre mid suf u p s :
  wf s ->
  cstring_of (heap s)
    (template_source w _OAUTH_ENV_HTTPCMD (_OAUTH_DEF_HTTPCMD w))
  = Some (post_template o pre mid suf) ->
  PERCENT ∉ pre -> PERCENT ∉ mid ->
  oauth_exec_post w u p s =
  bind (snprintf (Ptr (next s) 0) (BUFSIZ w) (Ptr (S (next s)) 0)
          (match o with URL_first => [u; p] | Body_first => [p; u] end) ;;;
        free (Ptr (S (next s)) 0) ;;;
        oauth_exec_shell w (Ptr (next s) 0))
       (fun r => free (Ptr (next s) 0) ;;; ret r)
    (State (<[S (next s) := (pre ++ PERCENT :: "s"%char
                               :: mid ++ PERCENT :: "s"%char :: suf) ++ [NUL]]>
              (<[next s := fresh_bytes w (next s) 0 (BUFSIZ w)]> (heap s)))
           (S (S (next s))) (trace s ++ [EvGetenv _OAUTH_ENV_HTTPCMD])).
Proof.
  intros Hwf Htpl Hpre Hmid.
  pose proof (cstring_of_nonul _ _ _ Htpl) as Hnul.
  pose proof (wf_below _ _ _ Hwf Htpl) as Bt.
  unfold oauth_exec_post, with_local.
  unfold bind at 1. unfold malloc at 1.
  apply bind_run_eq.
  set (J := fresh_bytes w (next s) 0 (BUFSIZ w)).
  set (s1 := State (<[next s := J]> (heap s)) (S (next s)) (trace s)).
  rewrite (template_copy_run w _ _ (post_template o pre mid suf) _ s1).
  2:{ rewrite (cstring_of_agree (next s) (heap s)); [exact Htpl| |exact Bt].
      unfold s1. solve_agree. }
  set (s2 := State (<[next s1 := _]> (heap s1)) _ _).
  assert (cstring_of (heap s2) (At (Ptr (S (next s)) 0))
          = Some (post_template o pre mid suf)) as Hc2.
  { eapply cstring_at_block; [apply lookup_insert_eq | exact Hnul]. }
  rewrite (bind_done _ _ _ _ _ (strstr_run _ (str "%p") _ s2 Hc2)).
  rewrite (bind_done _ _ _ _ _ (strstr_run _ (str "%u") _ s2 Hc2)).
  change (str "%p") with [PERCENT; "p"%char].
  change (str "%u") with [PERCENT; "u"%char].
  assert (forall x y r,
            pre ++ PERCENT :: x :: mid ++ PERCENT :: y :: suf ++ r
            = (pre ++ PERCENT :: x :: mid ++ PERCENT :: y :: suf) ++ r)
    as Hassoc.
  { intros. rewrite <- app_assoc. cbn [app]. rewrite <- app_assoc.
    reflexivity. }
  destruct o; unfold post_template in *; cbn [str list_ascii_of_string app];
    change "%"%char with PERCENT.
  - (* URL first *)
    rewrite (find_marker_second "p" "u" pre mid suf
               ltac:(discriminate) ltac:(discriminate) Hpre Hmid).
    rewrite (find_marker_first "u" pre _ Hpre).
    cbn [ptr_add is_null orb].
    assert (ptr_gt (Ptr (S (next s)) (0 + (length pre + 2 + length mid) + 1))
                   (Ptr (S (next s)) (0 + length pre + 1)) = true) as ->
      by (apply Nat.ltb_lt; lia).
    rewrite (mark_both_then _ (S (next s)) pre "u" mid "p" (suf ++ [NUL])
               false s2).
    + rewrite Hassoc. unfold s2, s1. cbn [heap next trace].
      rewrite insert_insert_eq. reflexivity.
    + unfold s2, s1. cbn [heap next str list_ascii_of_string app].
      change "%"%char with PERCENT. rewrite Hassoc.
      apply lookup_insert_eq.
  - (* body first *)
    rewrite (find_marker_first "p" pre _ Hpre).
    rewrite (find_marker_second "u" "p" pre mid suf
               ltac:(discriminate) ltac:(discriminate) Hpre Hmid).
    cbn [ptr_add is_null orb].
    assert (ptr_gt (Ptr (S (next s)) (0 + length pre + 1))
                   (Ptr (S (next s)) (0 + (length pre + 2 + length mid) + 1))
            = false) as ->
      by (apply Nat.ltb_ge; lia).
    rewrite (mark_both_then _ (S (next s)) pre "p" mid "u" (suf ++ [NUL])
               true s2).
    + rewrite Hassoc. unfold s2, s1. cbn [heap next trace].
      rewrite insert_insert_eq. reflexivity.
    + unfold s2, s1. cbn [heap next str list_ascii_of_string app].
      change "%"%char with PERCENT. rewrite Hassoc.
      apply lookup_insert_eq.
Qed.

(** * The claims *)

(** C1 (as amended).  A POST template that holds [%u] and [%p], in
    either order, and no other conversion: when the filled template is
    shorter than [BUFSIZ], the command that is run is the template with
    the URL in the place of [%u] and the body in the place of [%p]. *)
Theorem post_command_in_order w o pre mid suf u p url body s :
  wf s -> (0 < BUFSIZ w)%nat ->
  cstring_of (heap s)
    (template_source w _OAUTH_ENV_HTTPCMD (_OAUTH_DEF_HTTPCMD w))
  = Some (post_template o pre mid suf) ->
  PERCENT ∉ pre -> PERCENT ∉ mid -> PERCENT ∉ suf ->
  cstring_of (heap s) u = Some url -> cstring_of (heap s) p = Some body ->
  (length (post_command o pre mid suf url body) < BUFSIZ w)%nat ->
  exists rest,
    trace (snd (oauth_exec_post w u p s)) =
    trace s ++ EvGetenv _OAUTH_ENV_HTTPCMD
      :: EvPopen (post_command o pre mid suf url body) :: rest.
Proof.
  intros Hwf HB Htpl Hpre Hmid Hsuf Hu Hp Hfit.
  destruct (post_formats w o pre mid suf u p url body s
              Hwf HB Htpl Hpre Hmid Hsuf Hu Hp) as [rest Hrest].
  exists rest. rewrite Hrest, take_ge by lia. reflexivity.
Qed.

Lemma post_command_in_order_witness :
  exists rest,
    trace (snd (oauth_exec_post
                  (Sample.glibc Sample.unset Sample.shell Sample.recycled)
                  (Lit (str "http://h/r")) (Lit (str "a=1")) Sample.empty)) =
    [] ++ EvGetenv _OAUTH_ENV_HTTPCMD
      :: EvPopen (post_command Body_first Sample.def_pre Sample.def_mid
                    Sample.def_suf (str "http://h/r") (str "a=1"))
      :: rest.
Proof.
  apply (post_command_in_order
           (Sample.glibc Sample.unset Sample.shell Sample.recycled)
           Body_first Sample.def_pre Sample.def_mid Sample.def_suf
           (Lit (str "http://h/r")) (Lit (str "a=1"))
           (str "http://h/r") (str "a=1") Sample.empty).
  - intros b _. apply lookup_empty.
  - vm_compute. lia.
  - reflexivity.
  - apply (bool_decide_unpack _). vm_compute. exact I.
  - apply (bool_decide_unpack _). vm_compute. exact I.
  - apply (bool_decide_unpack _). vm_compute. exact I.
  - reflexivity.
  - reflexivity.
  - vm_compute. lia.
Defined.

(** C1, as stated, fails: a URL longer than [cmd] leaves no room for
    the rest of the template. *)
Lemma post_long_command_cut :
  commands (trace (snd (oauth_exec_post
                          (Sample.glibc Sample.unset Sample.shell
                             Sample.recycled)
                          (Lit Sample.long_url) (Lit (str "a=1"))
                          Sample.empty)))
  <> [post_command Body_first Sample.def_pre Sample.def_mid Sample.def_suf
        Sample.long_url (str "a=1")].
Proof. apply (bool_decide_eq_false_1 _). vm_compute. reflexivity. Qed.

(** C2 (as amended).  There is no length check: a filled template that
    does not fit [cmd] is cut to its first [BUFSIZ - 1] characters, and
    the request goes on to run what is left, for POST and for GET. *)
Theorem long_command_is_cut w o pre mid suf u p url body s :
  wf s -> (0 < BUFSIZ w)%nat -> PERCENT ∉ pre -> PERCENT ∉ suf ->
  cstring_of (heap s) u = Some url ->
  (cstring_of (heap s)
     (template_source w _OAUTH_ENV_HTTPCMD (_OAUTH_DEF_HTTPCMD w))
   = Some (post_template o pre mid suf) ->
   PERCENT ∉ mid -> cstring_of (heap s) p = Some body ->
   (BUFSIZ w <= length (post_command o pre mid suf url body))%nat ->
   exists cut rest,
     trace (snd (oauth_exec_post w u p s)) =
     trace s ++ EvGetenv _OAUTH_ENV_HTTPCMD :: EvPopen cut :: rest
     /\ cut = take (BUFSIZ w - 1) (post_command o pre mid suf url body)
     /\ (length cut < length (post_command o pre mid suf url body))%nat)
  /\
  (cstring_of (heap s)
     (template_source w _OAUTH_ENV_HTTPGET (_OAUTH_DEF_HTTPGET w))
   = Some (pre ++ str "%u" ++ suf) ->
   (BUFSIZ w <= length (pre ++ url ++ suf))%nat ->
   exists cut rest,
     trace (snd (oauth_exec_get w u (At NULL) s)) =
     trace s ++ EvGetenv _OAUTH_ENV_HTTPGET :: EvPopen cut :: rest
     /\ cut = take (BUFSIZ w - 1) (pre ++ url ++ suf)
     /\ (length cut < length (pre ++ url ++ suf))%nat).
Proof.
  intros Hwf HB Hpre Hsuf Hu. split.
  - intros Htpl Hmid Hp Hlong.
    destruct (post_formats w o pre mid suf u p url body s
                Hwf HB Htpl Hpre Hmid Hsuf Hu Hp) as [rest Hrest].
    eexists _, rest. split; [exact Hrest|]. split; [reflexivity|].
    rewrite length_take. lia.
  - intros Htpl Hlong.
    destruct (get_formats w pre suf u (At NULL) url None s
                Hwf HB Htpl Hpre Hsuf Hu eq_refl) as [rest Hrest].
    eexists _, rest. split; [exact Hrest|]. split; [reflexivity|].
    cbn [effective_url]. rewrite length_take. lia.
Qed.

Lemma long_command_is_cut_witness :
  (exists cut rest,
     trace (snd (oauth_exec_post
                   (Sample.glibc Sample.unset Sample.shell Sample.recycled)
                   (Lit Sample.long_url) (Lit (str "a=1")) Sample.empty)) =
     [] ++ EvGetenv _OAUTH_ENV_HTTPCMD :: EvPopen cut :: rest
     /\ cut = take (BUFSIZ (Sample.glibc Sample.unset Sample.shell
                              Sample.recycled) - 1)
                (post_command Body_first Sample.def_pre Sample.def_mid
                   Sample.def_suf Sample.long_url (str "a=1"))
     /\ (length cut <
         length (post_command Body_first Sample.def_pre Sample.def_mid
                   Sample.def_suf Sample.long_url (str "a=1")))%nat)
  /\
  (exists cut rest,
     trace (snd (oauth_exec_get
                   (Sample.glibc Sample.unset Sample.shell Sample.recycled)
                   (Lit Sample.long_url) (At NULL) Sample.empty)) =
     [] ++ EvGetenv _OAUTH_ENV_HTTPGET :: EvPopen cut :: rest
     /\ cut = take (BUFSIZ (Sample.glibc Sample.unset Sample.shell
                              Sample.recycled) - 1)
                (Sample.get_pre ++ Sample.long_url ++ Sample.def_suf)
     /\ (length cut <
         length (Sample.get_pre ++ Sample.long_url ++ Sample.def_suf))%nat).
Proof.
  destruct (long_command_is_cut
              (Sample.glibc Sample.unset Sample.shell Sample.recycled)
              Body_first Sample.get_pre Sample.def_mid Sample.def_suf
              (Lit Sample.long_url) (Lit (str "a=1"))
              Sample.long_url (str "a=1") Sample.empty) as [_ Hget].
  { intros b _. apply lookup_empty. }
  { vm_compute. lia. }
  { apply (bool_decide_unpack _). vm_compute. exact I. }
  { apply (bool_decide_unpack _). vm_compute. exact I. }
  { reflexivity. }
  destruct (long_command_is_cut
              (Sample.glibc Sample.unset Sample.shell Sample.recycled)
              Body_first Sample.def_pre Sample.def_mid Sample.def_suf
              (Lit Sample.long_url) (Lit (str "a=1"))
              Sample.long_url (str "a=1") Sample.empty) as [Hpost _].
  { intros b _. apply lookup_empty. }
  { vm_compute. lia. }
  { apply (bool_decide_unpack _). vm_compute. exact I. }
  { apply (bool_decide_unpack _). vm_compute. exact I. }
  { reflexivity. }
  split.
  - apply Hpost.
    + reflexivity.
    + apply (bool_decide_unpack _). vm_compute. exact I.
    + reflexivity.
    + vm_compute. lia.
  - apply Hget.
    + reflexivity.
    + vm_compute. lia.
Defined.

(** C2, as stated, fails: a GET whose command does not fit [cmd] is not
    refused; the call returns a buffer after running the cut command,
    and nothing is written to [stderr]. *)
Lemma get_long_command_not_refused :
  fst (oauth_exec_get (Sample.glibc Sample.unset Sample.shell Sample.recycled)
         (Lit Sample.long_url) (At NULL) Sample.empty)
  = Done (Ptr 2 0)
  /\ trace (snd (oauth_exec_get
                   (Sample.glibc Sample.unset Sample.shell Sample.recycled)
                   (Lit Sample.long_url) (At NULL) Sample.empty))
     = [EvGetenv _OAUTH_ENV_HTTPGET;
        EvPopen (take (Z.to_nat 8191)
                   (Sample.get_pre ++ Sample.long_url ++ Sample.def_suf));
        EvFread (Z.to_nat 1024) (Z.to_nat 1024) 0;
        EvPclose]
  /\ (Z.to_nat 8191 <
      length (Sample.get_pre ++ Sample.long_url ++ Sample.def_suf))%nat.
Proof.
  split; [vm_compute; reflexivity|].
  split; [vm_compute; reflexivity|].
  vm_compute. lia.
Qed.

(** C3.  When [popen] returns no stream the loop is skipped, and the
    code goes on to [pclose(in)] with the null stream; had that
    returned, [data[len]=0] would write through the null [data].  The
    call does not return a null result. *)
Theorem spawn_failure_faults :
  oauth_exec_shell (Sample.glibc Sample.unset Sample.no_fork Sample.recycled)
    (Ptr 0 0) (Sample.with_string (str "curl"))
  = (Fault NullStream,
     State (<[O := str "curl" ++ [NUL]]> ∅) 1 [EvPopen (str "curl")])
  /\ while (Sample.glibc Sample.unset Sample.no_fork Sample.recycled)
       (fuel_for None) (Locals None 0 0 NULL 1)
       (Sample.with_string (str "curl"))
     = (Done (Locals None 0 0 NULL 1), Sample.with_string (str "curl"))
  /\ write_chars (ptr_add (data (Locals None 0 0 NULL 1))
                    (Z.to_nat (len (Locals None 0 0 NULL 1)))) [NUL]
       (Sample.with_string (str "curl"))
     = (Fault NullDeref, Sample.with_string (str "curl")).
Proof.
  split; [|split; reflexivity].
  apply (exec_shell_no_stream _ (Ptr 0 0) (str "curl")); reflexivity.
Qed.

(** C4.  Every [fread] stores at the start of [data], not after the
    [len] bytes already read: of an output of 1024 times [a] and then
    [b], the buffer returned begins with [b], the last byte read, holds
    what fresh memory held at offset 1024, and has its terminator at
    offset 1025. *)
Theorem capture_overwrites_buffer :
  fst (oauth_exec_shell
         (Sample.glibc Sample.unset Sample.prints_1025 Sample.recycled)
         (Ptr 0 0) (Sample.with_string (str "curl")))
  = Done (Ptr 1 0)
  /\ (take 1026 <$>
      heap (snd (oauth_exec_shell
                   (Sample.glibc Sample.unset Sample.prints_1025
                      Sample.recycled)
                   (Ptr 0 0) (Sample.with_string (str "curl")))) !! 1%nat)
     = Some ("b"%char :: repeat "a"%char 1023 ++ ["#"%char; NUL])
  /\ (take 1026 <$>
      heap (snd (oauth_exec_shell
                   (Sample.glibc Sample.unset Sample.prints_1025
                      Sample.recycled)
                   (Ptr 0 0) (Sample.with_string (str "curl")))) !! 1%nat)
     <> Some (repeat "a"%char 1024 ++ ["b"%char; NUL]).
Proof.
  split; [vm_compute; reflexivity|].
  split; [vm_compute; reflexivity|].
  apply (bool_decide_eq_false_1 _). vm_compute. reflexivity.
Qed.

(** C5.  A template without a placeholder it needs: the request
    returns a null result after naming the variable to set on [stderr],
    and runs no command.  (A GET request with a null URL returns before
    it looks at the template, and writes nothing.) *)
Theorem invalid_template_rejected w u a tpl s :
  wf s ->
  (cstring_of (heap s)
     (template_source w _OAUTH_ENV_HTTPCMD (_OAUTH_DEF_HTTPCMD w)) = Some tpl ->
   find (str "%u") tpl = None \/ find (str "%p") tpl = None ->
   exists s',
     oauth_exec_post w u a s = (Done NULL, s')
     /\ trace s' = trace s ++ [EvGetenv _OAUTH_ENV_HTTPCMD;
                               EvStderr (diagnostic _OAUTH_ENV_HTTPCMD)])
  /\
  (cstring_of (heap s)
     (template_source w _OAUTH_ENV_HTTPGET (_OAUTH_DEF_HTTPGET w)) = Some tpl ->
   find (str "%u") tpl = None ->
   exists s',
     oauth_exec_get w u a s = (Done NULL, s')
     /\ trace s' = trace s ++
                   (if cstr_is_null u then []
                    else [EvGetenv _OAUTH_ENV_HTTPGET;
                          EvStderr (diagnostic _OAUTH_ENV_HTTPGET)])).
Proof.
  intros Hwf. split.
  - intros Htpl Hmiss. exact (post_rejects w u a tpl s Hwf Htpl Hmiss).
  - intros Htpl Hmiss. destruct (cstr_is_null u) eqn:Hu.
    + destruct u as [[|b o]|l]; try discriminate.
      eexists. split; [apply get_null_url|].
      cbn [trace]. rewrite app_nil_r. reflexivity.
    + exact (get_rejects w u a tpl s Hwf Htpl Hmiss Hu).
Qed.

Lemma invalid_template_rejected_witness :
  (exists s',
     oauth_exec_post
       (Sample.glibc Sample.all_block0 Sample.shell Sample.recycled)
       (Lit (str "http://h/r")) (Lit (str "a=1"))
       (Sample.with_string (str "wget -q")) = (Done NULL, s')
     /\ trace s' = [] ++ [EvGetenv _OAUTH_ENV_HTTPCMD;
                          EvStderr (diagnostic _OAUTH_ENV_HTTPCMD)])
  /\
  (exists s',
     oauth_exec_get
       (Sample.glibc Sample.all_block0 Sample.shell Sample.recycled)
       (Lit (str "http://h/r")) (Lit (str "a=1"))
       (Sample.with_string (str "wget -q")) = (Done NULL, s')
     /\ trace s' = [] ++ [EvGetenv _OAUTH_ENV_HTTPGET;
                          EvStderr (diagnostic _OAUTH_ENV_HTTPGET)]).
Proof.
  destruct (invalid_template_rejected
              (Sample.glibc Sample.all_block0 Sample.shell Sample.recycled)
              (Lit (str "http://h/r")) (Lit (str "a=1")) (str "wget -q")
              (Sample.with_string (str "wget -q"))) as [Hpost Hget].
  { intros b Hb. simpl in Hb. cbn [heap Sample.with_string].
    rewrite lookup_insert_ne by lia. apply lookup_empty. }
  split.
  - apply Hpost; [reflexivity | left; reflexivity].
  - apply Hget; reflexivity.
Defined.

(** C6.  A child that prints nothing: the call returns a fresh buffer
    that holds the empty string. *)
Theorem silent_child_empty_buffer w cmd c s :
  cstring_of (heap s) (At cmd) = Some c -> spawn w c = Some [] ->
  exists s',
    oauth_exec_shell w cmd s = (Done (Ptr (next s) 0), s')
    /\ cstring_of (heap s') (At (Ptr (next s) 0)) = Some [].
Proof.
  intros Hc Hsp.
  destruct (exec_shell_run w cmd c [] s Hc Hsp ltac:(simpl; size_lia))
    as (content & reads & Hrun & _ & Hnul & _).
  eexists. split; [exact Hrun|].
  cbn [cstring_of heap]. rewrite lookup_insert_eq.
  destruct content as [|x content]; [discriminate|].
  cbn [length] in Hnul. injection Hnul as ->. reflexivity.
Qed.

Lemma silent_child_empty_buffer_witness :
  exists s',
    oauth_exec_shell (Sample.glibc Sample.unset Sample.shell Sample.recycled)
      (Ptr 0 0) (Sample.with_string (str "true"))
    = (Done (Ptr (next (Sample.with_string (str "true"))) 0), s')
    /\ cstring_of (heap s')
         (At (Ptr (next (Sample.with_string (str "true"))) 0)) = Some [].
Proof.
  apply (silent_child_empty_buffer
           (Sample.glibc Sample.unset Sample.shell Sample.recycled)
           (Ptr 0 0) (str "true") (Sample.with_string (str "true")));
    reflexivity.
Defined.

(** C7.  With a query, the code appends URL, [?] and query with
    [strcat] to the block [xmalloc] has just returned, which it has not
    initialised.  On memory that does not begin with a NUL the appends
    run past the end of the block, and no command is run. *)
Theorem get_query_on_recycled_memory :
  fst (oauth_exec_get (Sample.glibc Sample.unset Sample.shell Sample.recycled)
         (Lit (str "http://h/r")) (Lit (str "a=1")) Sample.empty)
  = Fault OutOfBounds
  /\ trace (snd (oauth_exec_get
                   (Sample.glibc Sample.unset Sample.shell Sample.recycled)
                   (Lit (str "http://h/r")) (Lit (str "a=1")) Sample.empty))
     = [EvGetenv _OAUTH_ENV_HTTPGET].
Proof. split; vm_compute; reflexivity. Qed.

(** C8.  Before each [fread] of 1024 bytes the buffer has grown by 1024
    bytes since the read before it, so every read asks for no more than
    the buffer holds, and the call returns. *)
Theorem reads_stay_in_buffer w cmd c out s :
  cstring_of (heap s) (At cmd) = Some c -> spawn w c = Some out ->
  Z.of_nat (length out) + 1024 < 2 ^ 64 ->
  exists p s' reads,
    oauth_exec_shell w cmd s = (Done p, s')
    /\ trace s' = trace s ++ EvPopen c :: reads ++ [EvPclose]
    /\ grown 0 reads = true
    /\ forallb fits reads = true.
Proof.
  intros Hc Hsp Hbound.
  destruct (exec_shell_run w cmd c out s Hc Hsp Hbound)
    as (content & reads & Hrun & Hg & _ & _).
  eexists _, _, reads. split; [exact Hrun|].
  split; [reflexivity|]. split; [exact Hg|].
  exact (grown_fits reads 0 Hg).
Qed.

Lemma reads_stay_in_buffer_witness :
  exists p s' reads,
    oauth_exec_shell
      (Sample.glibc Sample.unset Sample.prints_1025 Sample.recycled)
      (Ptr 0 0) (Sample.with_string (str "curl")) = (Done p, s')
    /\ trace s' = trace (Sample.with_string (str "curl"))
                  ++ EvPopen (str "curl") :: reads ++ [EvPclose]
    /\ grown 0 reads = true
    /\ forallb fits reads = true.
Proof.
  apply (reads_stay_in_buffer
           (Sample.glibc Sample.unset Sample.prints_1025 Sample.recycled)
           (Ptr 0 0) (str "curl") (repeat "a"%char 1024 ++ ["b"%char])
           (Sample.with_string (str "curl"))).
  - reflexivity.
  - reflexivity.
  - vm_compute. reflexivity.
Defined.

(** Neither request writes to a block that was there before it. *)
Lemma requests_frame w u a s :
  agree (next s) (heap s) (heap (snd (oauth_exec_post w u a s)))
  /\ agree (next s) (heap s) (heap (snd (oauth_exec_get w u a s))).
Proof.
  split.
  - destruct (preserves_oauth_exec_post w (next s) u a s (Nat.le_refl _))
      as [(_ & Ha & _) _]. exact Ha.
  - destruct (preserves_oauth_exec_get w (next s) u a s (Nat.le_refl _))
      as [(_ & Ha & _) _]. exact Ha.
Qed.

(** C9.  The requests search and mark a copy of the template: whatever
    a variable of the environment or the built-in default held before a
    request, it holds after it, whichever way the request ends. *)
Theorem template_source_not_written w u a name def tpl s :
  wf s ->
  cstring_of (heap s) (template_source w name def) = Some tpl ->
  cstring_of (heap (snd (oauth_exec_post w u a s))) (template_source w name def)
  = Some tpl
  /\ cstring_of (heap (snd (oauth_exec_get w u a s)))
       (template_source w name def)
     = Some tpl.
Proof.
  intros Hwf Htpl.
  pose proof (wf_below _ _ _ Hwf Htpl) as Hb.
  destruct (requests_frame w u a s) as [Hpost Hget].
  split.
  - rewrite (cstring_of_agree _ _ _ _ Hpost Hb). exact Htpl.
  - rewrite (cstring_of_agree _ _ _ _ Hget Hb). exact Htpl.
Qed.

Lemma template_source_not_written_witness :
  cstring_of
    (heap (snd (oauth_exec_post
                  (Sample.glibc Sample.all_block0 Sample.shell Sample.recycled)
                  (Lit (str "U")) (Lit (str "B"))
                  (Sample.with_string (str "echo %p %u")))))
    (template_source
       (Sample.glibc Sample.all_block0 Sample.shell Sample.recycled)
       _OAUTH_ENV_HTTPCMD
       (_OAUTH_DEF_HTTPCMD
          (Sample.glibc Sample.all_block0 Sample.shell Sample.recycled)))
  = Some (str "echo %p %u")
  /\ cstring_of
       (heap (snd (oauth_exec_get
                     (Sample.glibc Sample.all_block0 Sample.shell
                        Sample.recycled)
                     (Lit (str "U")) (Lit (str "B"))
                     (Sample.with_string (str "echo %p %u")))))
       (template_source
          (Sample.glibc Sample.all_block0 Sample.shell Sample.recycled)
          _OAUTH_ENV_HTTPCMD
          (_OAUTH_DEF_HTTPCMD
             (Sample.glibc Sample.all_block0 Sample.shell Sample.recycled)))
     = Some (str "echo %p %u").
Proof.
  apply (template_source_not_written
           (Sample.glibc Sample.all_block0 Sample.shell Sample.recycled)
           (Lit (str "U")) (Lit (str "B")) _OAUTH_ENV_HTTPCMD
           (_OAUTH_DEF_HTTPCMD
              (Sample.glibc Sample.all_block0 Sample.shell Sample.recycled))
           (str "echo %p %u") (Sample.with_string (str "echo %p %u"))).
  - intros b Hb. simpl in Hb. cbn [heap Sample.with_string].
    rewrite lookup_insert_ne by lia. apply lookup_empty.
  - reflexivity.
Defined.

(** C10.  [oauth_exec_get] with a null URL returns a null result at
    once: the trace is as it was, and so is the store but for the array
    [cmd], which is gone again.  [oauth_exec_post] has no such test.
    With a null URL it reads the template as with any other; when the
    template lacks a placeholder it writes the diagnostic, as for any
    other URL; and when the template holds both, the null pointer is the
    argument [snprintf] is given in the place of the URL (what
    [snprintf] makes of it is not part of the statement). *)
Theorem null_url_guard w q p s :
  oauth_exec_get w (At NULL) q s =
    (Done NULL, State (delete (next s) (heap s)) (S (next s)) (trace s))
  /\ (exists rest,
        trace (snd (oauth_exec_post w (At NULL) p s)) =
        trace s ++ EvGetenv _OAUTH_ENV_HTTPCMD :: rest)
  /\ (forall tpl,
        wf s ->
        cstring_of (heap s)
          (template_source w _OAUTH_ENV_HTTPCMD (_OAUTH_DEF_HTTPCMD w))
        = Some tpl ->
        (find (str "%u") tpl = None \/ find (str "%p") tpl = None ->
         exists s',
           oauth_exec_post w (At NULL) p s = (Done NULL, s')
           /\ trace s' = trace s ++ [EvGetenv _OAUTH_ENV_HTTPCMD;
                                     EvStderr (diagnostic _OAUTH_ENV_HTTPCMD)])
        /\ (forall o pre mid suf,
              tpl = post_template o pre mid suf ->
              PERCENT ∉ pre -> PERCENT ∉ mid ->
              oauth_exec_post w (At NULL) p s =
              bind (snprintf (Ptr (next s) 0) (BUFSIZ w) (Ptr (S (next s)) 0)
                      (match o with
                       | URL_first => [At NULL; p]
                       | Body_first => [p; At NULL]
                       end) ;;;
                    free (Ptr (S (next s)) 0) ;;;
                    oauth_exec_shell w (Ptr (next s) 0))
                   (fun r => free (Ptr (next s) 0) ;;; ret r)
                (State (<[S (next s) :=
                            (pre ++ PERCENT :: "s"%char
                                 :: mid ++ PERCENT :: "s"%char :: suf)
                            ++ [NUL]]>
                          (<[next s := fresh_bytes w (next s) 0 (BUFSIZ w)]>
                             (heap s)))
                       (S (S (next s)))
                       (trace s ++ [EvGetenv _OAUTH_ENV_HTTPCMD])))).
Proof.
  split; [apply get_null_url|]. split; [apply post_reads_template|].
  intros tpl Hwf Htpl. split.
  - intros Hmiss. exact (post_rejects w (At NULL) p tpl s Hwf Htpl Hmiss).
  - intros o pre mid suf -> Hpre Hmid.
    exact (post_marks w o pre mid suf (At NULL) p s Hwf Htpl Hpre Hmid).
Qed.

Lemma null_url_guard_witness :
  (exists s',
     oauth_exec_post
       (Sample.glibc Sample.all_block0 Sample.shell Sample.recycled)
       (At NULL) (Lit (str "a=1")) (Sample.with_string (str "wget -q"))
     = (Done NULL, s')
     /\ trace s' = trace (Sample.with_string (str "wget -q"))
                   ++ [EvGetenv _OAUTH_ENV_HTTPCMD;
                       EvStderr (diagnostic _OAUTH_ENV_HTTPCMD)])
  /\ oauth_exec_post
       (Sample.glibc Sample.all_block0 Sample.shell Sample.recycled)
       (At NULL) (Lit (str "a=1")) (Sample.with_string (str "echo %u %p"))
     = bind (snprintf (Ptr 1 0) (Z.to_nat 8192) (Ptr 2 0)
               [At NULL; Lit (str "a=1")] ;;;
             free (Ptr 2 0) ;;;
             oauth_exec_shell
               (Sample.glibc Sample.all_block0 Sample.shell Sample.recycled)
               (Ptr 1 0))
            (fun r => free (Ptr 1 0) ;;; ret r)
         (State (<[2%nat := (str "echo " ++ PERCENT :: "s"%char
                               :: str " " ++ PERCENT :: "s"%char :: [])
                            ++ [NUL]]>
                   (<[1%nat := fresh_bytes
                                 (Sample.glibc Sample.all_block0 Sample.shell
                                    Sample.recycled) 1 0 (Z.to_nat 8192)]>
                      (heap (Sample.with_string (str "echo %u %p")))))
                3 ([] ++ [EvGetenv _OAUTH_ENV_HTTPCMD])).
Proof.
  assert (forall v, wf (Sample.with_string v)) as Hwf.
  { intros v b Hb. cbn [Sample.with_string heap next] in *.
    rewrite lookup_insert_ne by lia. apply lookup_empty. }
  split.
  - apply (proj1 (proj2 (proj2
             (null_url_guard
                (Sample.glibc Sample.all_block0 Sample.shell Sample.recycled)
                (At NULL) (Lit (str "a=1"))
                (Sample.with_string (str "wget -q"))))
             (str "wget -q") (Hwf _) eq_refl)).
    left. reflexivity.
  - apply (proj2 (proj2 (proj2
             (null_url_guard
                (Sample.glibc Sample.all_block0 Sample.shell Sample.recycled)
                (At NULL) (Lit (str "a=1"))
                (Sample.with_string (str "echo %u %p"))))
             (str "echo %u %p") (Hwf _) eq_refl)
             URL_first (str "echo ") (str " ") [] eq_refl).
    + apply (bool_decide_unpack _). vm_compute. exact I.
    + apply (bool_decide_unpack _). vm_compute. exact I.
Defined.

(** * Further properties of the code *)

(** ** What a request leaves in the store *)

(** Equality of two stores built from one store by writes and frees. *)
Ltac heap_eq Hwf :=
  apply map_eq; intros ?b; cbn [heap next];
  repeat first [ rewrite lookup_insert | rewrite lookup_delete ];
  repeat case_decide; subst; try reflexivity; try lia;
  try (symmetry; apply Hwf; lia); try (apply Hwf; lia).

Lemma post_rejects_state w u p tpl s :
  wf s ->
  cstring_of (heap s)
    (template_source w _OAUTH_ENV_HTTPCMD (_OAUTH_DEF_HTTPCMD w)) = Some tpl ->
  find (str "%u") tpl = None \/ find (str "%p") tpl = None ->
  oauth_exec_post w u p s =
  (Done NULL,
   State (<[S (next s) := tpl ++ [NUL]]> (heap s)) (S (S (next s)))
         (trace s ++ [EvGetenv _OAUTH_ENV_HTTPCMD;
                      EvStderr (diagnostic _OAUTH_ENV_HTTPCMD)])).
Proof.
  intros Hwf Htpl Hmiss.
  pose proof (cstring_of_nonul _ _ _ Htpl) as Hnul.
  pose proof (wf_below _ _ _ Hwf Htpl) as Bt.
  unfold oauth_exec_post.
  etransitivity; [eapply with_local_done|].
  - set (s1 := State _ _ _).
    rewrite (template_copy_run w _ _ tpl _ s1).
    2:{ rewrite (cstring_of_agree (next s) (heap s)); [exact Htpl| |exact Bt].
        unfold s1. solve_agree. }
    set (s2 := State _ _ _).
    assert (cstring_of (heap s2) (At (Ptr (S (next s)) 0)) = Some tpl) as Hc2.
    { eapply cstring_at_block; [apply lookup_insert_eq | exact Hnul]. }
    rewrite (bind_done _ _ _ _ _ (strstr_run _ (str "%p") _ s2 Hc2)).
    rewrite (bind_done _ _ _ _ _ (strstr_run _ (str "%u") _ s2 Hc2)).
    assert (is_null match find (str "%p") tpl with
                    | Some i => ptr_add (Ptr (S (next s)) 0) i
                    | None => NULL
                    end
            || is_null match find (str "%u") tpl with
                       | Some i => ptr_add (Ptr (S (next s)) 0) i
                       | None => NULL
                       end = true) as ->.
    { destruct Hmiss as [-> | ->]; [apply orb_true_r | reflexivity]. }
    rewrite (bind_done _ _ _ _ _ (diagnostic_post s2)). reflexivity.
  - cbn [heap next]. rewrite lookup_insert_ne by lia.
    apply lookup_insert_eq.
  - cbn [heap next trace]. f_equal. f_equal.
    + heap_eq Hwf.
    + rewrite <- app_assoc. reflexivity.
Qed.

Lemma get_rejects_state w u q tpl s :
  wf s ->
  cstring_of (heap s)
    (template_source w _OAUTH_ENV_HTTPGET (_OAUTH_DEF_HTTPGET w)) = Some tpl ->
  find (str "%u") tpl = None ->
  cstr_is_null u = false ->
  oauth_exec_get w u q s =
  (Done NULL,
   State (<[S (next s) := tpl ++ [NUL]]> (heap s)) (S (S (next s)))
         (trace s ++ [EvGetenv _OAUTH_ENV_HTTPGET;
                      EvStderr (diagnostic _OAUTH_ENV_HTTPGET)])).
Proof.
  intros Hwf Htpl Hmiss Hu.
  pose proof (cstring_of_nonul _ _ _ Htpl) as Hnul.
  pose proof (wf_below _ _ _ Hwf Htpl) as Bt.
  unfold oauth_exec_get. rewrite Hu.
  etransitivity; [eapply with_local_done|].
  - set (s1 := State _ _ _).
    rewrite (template_copy_run w _ _ tpl _ s1).
    2:{ rewrite (cstring_of_agree (next s) (heap s)); [exact Htpl| |exact Bt].
        unfold s1. solve_agree. }
    set (s2 := State _ _ _).
    assert (cstring_of (heap s2) (At (Ptr (S (next s)) 0)) = Some tpl) as Hc2.
    { eapply cstring_at_block; [apply lookup_insert_eq | exact Hnul]. }
    rewrite (bind_done _ _ _ _ _ (strstr_run _ (str "%u") _ s2 Hc2)).
    rewrite Hmiss. cbn [is_null].
    rewrite (bind_done _ _ _ _ _ (diagnostic_get s2)). reflexivity.
  - cbn [heap next]. rewrite lookup_insert_ne by lia.
    apply lookup_insert_eq.
  - cbn [heap next trace]. f_equal. f_equal.
    + heap_eq Hwf.
    + rewrite <- app_assoc. reflexivity.
Qed.

(** X1.  A request that is refused for its template returns without
    [free(cmdtpl)]: the block that holds the copy of the template, which
    was not there before the call, is still there after it, and the
    null result leaves the caller nothing to free it with. *)
Theorem refused_request_keeps_copy w u a tpl s :
  wf s ->
  (cstring_of (heap s)
     (template_source w _OAUTH_ENV_HTTPCMD (_OAUTH_DEF_HTTPCMD w)) = Some tpl ->
   find (str "%u") tpl = None \/ find (str "%p") tpl = None ->
   fst (oauth_exec_post w u a s) = Done NULL
   /\ heap s !! S (next s) = None
   /\ heap (snd (oauth_exec_post w u a s))
      = <[S (next s) := tpl ++ [NUL]]> (heap s))
  /\
  (cstring_of (heap s)
     (template_source w _OAUTH_ENV_HTTPGET (_OAUTH_DEF_HTTPGET w)) = Some tpl ->
   find (str "%u") tpl = None -> cstr_is_null u = false ->
   fst (oauth_exec_get w u a s) = Done NULL
   /\ heap s !! S (next s) = None
   /\ heap (snd (oauth_exec_get w u a s))
      = <[S (next s) := tpl ++ [NUL]]> (heap s)).
Proof.
  intros Hwf. split.
  - intros Htpl Hmiss.
    rewrite (post_rejects_state w u a tpl s Hwf Htpl Hmiss).
    split; [reflexivity|]. split; [apply Hwf; lia | reflexivity].
  - intros Htpl Hmiss Hu.
    rewrite (get_rejects_state w u a tpl s Hwf Htpl Hmiss Hu).
    split; [reflexivity|]. split; [apply Hwf; lia | reflexivity].
Qed.

Lemma refused_request_keeps_copy_witness :
  (fst (oauth_exec_post
          (Sample.glibc Sample.all_block0 Sample.shell Sample.recycled)
          (Lit (str "http://h/r")) (Lit (str "a=1"))
          (Sample.with_string (str "wget -q"))) = Done NULL
   /\ heap (Sample.with_string (str "wget -q"))
        !! S (next (Sample.with_string (str "wget -q"))) = None
   /\ heap (snd (oauth_exec_post
                   (Sample.glibc Sample.all_block0 Sample.shell Sample.recycled)
                   (Lit (str "http://h/r")) (Lit (str "a=1"))
                   (Sample.with_string (str "wget -q"))))
      = <[S (next (Sample.with_string (str "wget -q")))
          := str "wget -q" ++ [NUL]]>
          (heap (Sample.with_string (str "wget -q"))))
  /\
  (fst (oauth_exec_get
          (Sample.glibc Sample.all_block0 Sample.shell Sample.recycled)
          (Lit (str "http://h/r")) (Lit (str "a=1"))
          (Sample.with_string (str "wget -q"))) = Done NULL
   /\ heap (Sample.with_string (str "wget -q"))
        !! S (next (Sample.with_string (str "wget -q"))) = None
   /\ heap (snd (oauth_exec_get
                   (Sample.glibc Sample.all_block0 Sample.shell Sample.recycled)
                   (Lit (str "http://h/r")) (Lit (str "a=1"))
                   (Sample.with_string (str "wget -q"))))
      = <[S (next (Sample.with_string (str "wget -q")))
          := str "wget -q" ++ [NUL]]>
          (heap (Sample.with_string (str "wget -q")))).
Proof.
  destruct (refused_request_keeps_copy
              (Sample.glibc Sample.all_block0 Sample.shell Sample.recycled)
              (Lit (str "http://h/r")) (Lit (str "a=1")) (str "wget -q")
              (Sample.with_string (str "wget -q"))) as [Hpost Hget].
  { intros b Hb. simpl in Hb. cbn [heap Sample.with_string].
    rewrite lookup_insert_ne by lia. apply lookup_empty. }
  split.
  - apply Hpost; [reflexivity | left; reflexivity].
  - apply Hget; reflexivity.
Defined.

(** ** Outputs that one read takes *)

(** [oauth_exec_shell] up to the second test of the loop. *)
Lemma exec_shell_first_turn w cmd c out s :
  cstring_of (heap s) (At cmd) = Some c -> spawn w c = Some out ->
  oauth_exec_shell w cmd s =
  (l <- while w (length out)
          (Locals (Some (Stream (drop 1024 out) (length out <? 1024)%nat))
                  (0 + Z.of_nat (length (take 1024 out))) 1024
                  (Ptr (next s) 0) (Z.of_nat (length (take 1024 out)))) ;;
   pclose (in_ l) ;;;
   write_chars (ptr_add (data l) (Z.to_nat (len l))) [NUL] ;;;
   ret (data l))
    (State (<[next s := take 1024 out
                        ++ drop (length (take 1024 out))
                             (fresh_bytes w (next s) 0 1024)]> (heap s))
           (S (next s))
           ((trace s ++ [EvPopen c])
            ++ [EvFread 1024 1024 (length (take 1024 out))])).
Proof.
  intros Hc Hsp.
  pose (l0 := Locals (Some (Stream out false)) 0 0 NULL 1).
  pose (s0 := State (heap s) (next s) (trace s ++ [EvPopen c])).
  pose proof (loop_body_first w l0 s0 out false eq_refl eq_refl eq_refl
                ltac:(simpl; lia) ltac:(simpl; size_lia)) as Hfirst.
  cbn [len l0 s0 heap next trace orb] in Hfirst.
  unfold oauth_exec_shell.
  rewrite (bind_done _ _ _ _ _ (popen_run w cmd c s Hc)), Hsp.
  cbn [fuel_for pending while]. change (loop_test _) with true. cbv iota.
  rewrite bind_assoc, (bind_done _ _ _ _ _ Hfirst). reflexivity.
Qed.

Lemma while_step w fuel l :
  loop_test l = true ->
  while w (S fuel) l = (l' <- loop_body w l ;; while w fuel l').
Proof. intros H. cbn [while]. rewrite H. reflexivity. Qed.

(** An output of exactly 1024 bytes: the second read finds the end of
    the stream and stores nothing. *)
Lemma exec_shell_run_1024 w cmd c out s :
  cstring_of (heap s) (At cmd) = Some c -> spawn w c = Some out ->
  length out = 1024%nat ->
  exists rest s',
    oauth_exec_shell w cmd s = (Done (Ptr (next s) 0), s')
    /\ heap s' !! next s = Some (out ++ NUL :: rest).
Proof.
  intros Hc Hsp Hlen.
  rewrite (exec_shell_first_turn w cmd c out s Hc Hsp).
  assert (take 1024 out = out) as Htake by (apply take_ge; lia).
  assert (drop 1024 out = []) as Hdrop by (apply drop_ge; lia).
  rewrite Htake, Hdrop, Hlen.
  rewrite drop_ge by (rewrite length_fresh_bytes; lia).
  rewrite app_nil_r. change (1024 <? 1024)%nat with false.
  set (l1 := Locals _ _ _ _ _). set (s1 := State _ _ _).
  rewrite (while_step w 1023 l1 eq_refl).
  assert (heap s1 !! next s = Some out) as Hb1 by apply lookup_insert_eq.
  rewrite bind_assoc.
  rewrite (bind_done _ _ _ _ _
             (loop_body_run w l1 s1 (next s) out [] false eq_refl eq_refl Hb1
                ltac:(unfold l1; cbn [alloc]; lia)
                ltac:(unfold l1; cbn [alloc]; size_lia)
                ltac:(unfold l1; cbn [len]; lia)
                ltac:(unfold l1; cbn [len]; size_lia))).
  cbn [take drop length app orb Nat.ltb Nat.leb].
  set (l2 := Locals _ _ _ _ _). set (s2 := State _ _ _).
  rewrite (bind_done _ _ _ _ _ (while_stop w _ l2 s2 eq_refl)).
  assert (heap s2 !! next s
          = Some (out ++ fresh_bytes w (next s) (length out) 1024)) as Hb2
    by apply lookup_insert_eq.
  assert (Z.to_nat (len l2) = length out) as Hk
    by (unfold l2, l1; cbn [len]; lia).
  rewrite (finish_run l2 _ (next s) _ s2 eq_refl eq_refl Hb2
             ltac:(rewrite length_app, length_fresh_bytes; lia)).
  eexists _, _. split; [reflexivity|].
  cbn [heap]. rewrite lookup_insert_eq, Hk.
  rewrite take_app_length. reflexivity.
Qed.

(** X2.  The output of a child that prints at most 1024 bytes is in the
    buffer that is returned, byte for byte, followed by the terminator. *)
Theorem output_of_one_read_is_intact w cmd c out s :
  cstring_of (heap s) (At cmd) = Some c -> spawn w c = Some out ->
  (length out <= 1024)%nat ->
  exists rest s',
    oauth_exec_shell w cmd s = (Done (Ptr (next s) 0), s')
    /\ heap s' !! next s = Some (out ++ NUL :: rest).
Proof.
  intros Hc Hsp Hlen.
  destruct (decide (length out = 1024%nat)) as [H1024|Hne].
  - exact (exec_shell_run_1024 w cmd c out s Hc Hsp H1024).
  - destruct (exec_shell_run w cmd c out s Hc Hsp ltac:(size_lia))
      as (content & reads & Hrun & _ & Hnul & Hshort).
    eexists _, _. split; [exact Hrun|].
    cbn [heap]. rewrite lookup_insert_eq. f_equal.
    rewrite <- (take_drop_middle content (length out) NUL Hnul) at 1.
    rewrite (Hshort ltac:(lia)). reflexivity.
Qed.

Lemma output_of_one_read_is_intact_witness :
  exists rest s',
    oauth_exec_shell
      (Sample.glibc Sample.unset (Sample.prints (repeat "a"%char 1024))
         Sample.recycled)
      (Ptr 0 0) (Sample.with_string (str "curl"))
    = (Done (Ptr (next (Sample.with_string (str "curl"))) 0), s')
    /\ heap s' !! next (Sample.with_string (str "curl"))
       = Some (repeat "a"%char 1024 ++ NUL :: rest).
Proof.
  apply (output_of_one_read_is_intact
           (Sample.glibc Sample.unset (Sample.prints (repeat "a"%char 1024))
              Sample.recycled)
           (Ptr 0 0) (str "curl") (repeat "a"%char 1024)
           (Sample.with_string (str "curl"))).
  - reflexivity.
  - reflexivity.
  - rewrite repeat_length. lia.
Defined.

(** ** A request as a run of [oauth_exec_shell] *)

(** A POST request with a valid template is [oauth_exec_shell] on the
    array [cmd], in a store where the copy of the template is gone, and
    then the end of the scope of [cmd]. *)
Lemma post_reduces w o pre mid suf u p url body s :
  wf s -> (0 < BUFSIZ w)%nat ->
  cstring_of (heap s)
    (template_source w _OAUTH_ENV_HTTPCMD (_OAUTH_DEF_HTTPCMD w))
  = Some (post_template o pre mid suf) ->
  PERCENT ∉ pre -> PERCENT ∉ mid -> PERCENT ∉ suf ->
  cstring_of (heap s) u = Some url -> cstring_of (heap s) p = Some body ->
  oauth_exec_post w u p s =
  (r <- oauth_exec_shell w (Ptr (next s) 0) ;;
   free (Ptr (next s) 0) ;;; ret r)
    (State (<[next s := cmd_holds w (next s)
                          (post_command o pre mid suf url body)]> (heap s))
           (S (S (next s))) (trace s ++ [EvGetenv _OAUTH_ENV_HTTPCMD])).
Proof.
  intros Hwf HB Htpl Hpre Hmid Hsuf Hu Hp.
  pose proof (cstring_of_nonul _ _ _ Htpl) as Hnul.
  pose proof (post_template_nonul _ _ _ _ Hnul) as (Hn1 & Hn2 & Hn3).
  pose proof (cstring_of_nonul _ _ _ Hu) as Hnu.
  pose proof (cstring_of_nonul _ _ _ Hp) as Hnp.
  pose proof (wf_below _ _ _ Hwf Htpl) as Bt.
  pose proof (wf_below _ _ _ Hwf Hu) as Bu.
  pose proof (wf_below _ _ _ Hwf Hp) as Bp.
  unfold oauth_exec_post, with_local, cmd_holds.
  unfold bind at 1. unfold malloc at 1.
  apply bind_run_eq.
  destruct (BUFSIZ w) as [|m] eqn:Hm; [lia|]. clear HB.
  replace (S m - 1)%nat with m by lia.
  set (J := fresh_bytes w (next s) 0 (S m)).
  set (s1 := State (<[next s := J]> (heap s)) (S (next s)) (trace s)).
  rewrite (template_copy_run w _ _ (post_template o pre mid suf) _ s1).
  2:{ rewrite (cstring_of_agree (next s) (heap s)); [exact Htpl| |exact Bt].
      unfold s1. solve_agree. }
  set (s2 := State (<[next s1 := _]> (heap s1)) _ _).
  assert (cstring_of (heap s2) (At (Ptr (S (next s)) 0))
          = Some (post_template o pre mid suf)) as Hc2.
  { eapply cstring_at_block; [apply lookup_insert_eq | exact Hnul]. }
  rewrite (bind_done _ _ _ _ _ (strstr_run _ (str "%p") _ s2 Hc2)).
  rewrite (bind_done _ _ _ _ _ (strstr_run _ (str "%u") _ s2 Hc2)).
  change (str "%p") with [PERCENT; "p"%char].
  change (str "%u") with [PERCENT; "u"%char].
  set (f := pre ++ PERCENT :: "s"%char :: mid ++ PERCENT :: "s"%char :: suf).
  assert (NUL ∉ f) as Hf.
  { unfold f. rewrite !not_elem_of_app, !not_elem_of_cons, !not_elem_of_app,
      !not_elem_of_cons. repeat split; try assumption; discriminate. }
  assert (forall x y r,
            pre ++ PERCENT :: x :: mid ++ PERCENT :: y :: suf ++ r
            = (pre ++ PERCENT :: x :: mid ++ PERCENT :: y :: suf) ++ r)
    as Hassoc.
  { intros. rewrite <- app_assoc. cbn [app]. rewrite <- app_assoc.
    reflexivity. }
  assert (forall a1 a2 v1 v2 out,
            below (next s) a1 -> below (next s) a2 ->
            cstring_of (heap s) a1 = Some v1 ->
            cstring_of (heap s) a2 = Some v2 ->
            out = pre ++ v1 ++ mid ++ v2 ++ suf ->
            (snprintf (Ptr (next s) 0) (S m) (Ptr (next s1) 0) [a1; a2] ;;;
             free (Ptr (next s1) 0) ;;;
             oauth_exec_shell w (Ptr (next s) 0))
              (State (<[S (next s) := f ++ [NUL]]> (heap s2))
                     (next s2) (trace s2)) =
            oauth_exec_shell w (Ptr (next s) 0)
              (State (<[next s := take m out
                                  ++ NUL :: drop (length (take m out) + 1) J]>
                        (heap s))
                     (S (S (next s)))
                     (trace s ++ [EvGetenv _OAUTH_ENV_HTTPCMD]))) as Htail.
  { intros a1 a2 v1 v2 out B1 B2 H1 H2 ->.
    set (s3 := State (<[S (next s) := f ++ [NUL]]> (heap s2)) _ _).
    assert (agree (next s) (heap s) (heap s3)) as Hag
      by (unfold s3, s2, s1; solve_agree).
    rewrite (snprintf_free_run _ (next s) m (S (next s)) [a1; a2] f
               (pre ++ v1 ++ mid ++ v2 ++ suf) J s3).
    - f_equal. unfold s3, s2, s1. cbn [heap next trace]. f_equal.
      heap_eq Hwf.
    - apply lookup_insert_eq.
    - exact Hf.
    - apply format_two; try assumption;
        rewrite (cstring_of_agree (next s) (heap s)); assumption.
    - unfold s3, s2, s1. cbn [heap next].
      rewrite !lookup_insert_ne by lia. apply lookup_insert_eq.
    - unfold J. rewrite length_fresh_bytes. lia.
    - lia. }
  destruct o; unfold post_template in *; cbn [str list_ascii_of_string app];
    change "%"%char with PERCENT.
  - (* URL first *)
    rewrite (find_marker_second "p" "u" pre mid suf
               ltac:(discriminate) ltac:(discriminate) Hpre Hmid).
    rewrite (find_marker_first "u" pre _ Hpre).
    cbn [ptr_add is_null orb].
    assert (ptr_gt (Ptr (S (next s)) (0 + (length pre + 2 + length mid) + 1))
                   (Ptr (S (next s)) (0 + length pre + 1)) = true) as ->
      by (apply Nat.ltb_lt; lia).
    rewrite (mark_both_then _ (S (next s)) pre "u" mid "p" (suf ++ [NUL])
               false s2).
    + rewrite Hassoc.
      apply (Htail u p url body _); try assumption; reflexivity.
    + unfold s2, s1. cbn [heap next str list_ascii_of_string app].
      change "%"%char with PERCENT. rewrite Hassoc.
      apply lookup_insert_eq.
  - (* body first *)
    rewrite (find_marker_first "p" pre _ Hpre).
    rewrite (find_marker_second "u" "p" pre mid suf
               ltac:(discriminate) ltac:(discriminate) Hpre Hmid).
    cbn [ptr_add is_null orb].
    assert (ptr_gt (Ptr (S (next s)) (0 + length pre + 1))
                   (Ptr (S (next s)) (0 + (length pre + 2 + length mid) + 1))
            = false) as ->
      by (apply Nat.ltb_ge; lia).
    rewrite (mark_both_then _ (S (next s)) pre "p" mid "u" (suf ++ [NUL])
               true s2).
    + rewrite Hassoc.
      apply (Htail p u body url _); try assumption; reflexivity.
    + unfold s2, s1. cbn [heap next str list_ascii_of_string app].
      change "%"%char with PERCENT. rewrite Hassoc.
      apply lookup_insert_eq.
Qed.

(** The same for a GET request; with a query the block of the effective
    URL has been allocated and freed again before the command is run. *)
Lemma get_reduces w pre suf u q url query s :
  wf s -> (0 < BUFSIZ w)%nat ->
  cstring_of (heap s)
    (template_source w _OAUTH_ENV_HTTPGET (_OAUTH_DEF_HTTPGET w))
  = Some (pre ++ str "%u" ++ suf) ->
  PERCENT ∉ pre -> PERCENT ∉ suf ->
  cstring_of (heap s) u = Some url ->
  match query with
  | None => q = At NULL
  | Some qs =>
      cstring_of (heap s) q = Some qs
      /\ uninit w (S (S (next s))) 0 = NUL
      /\ Z.of_nat (length url) + Z.of_nat (length qs) + 2 < 2 ^ 64
  end ->
  oauth_exec_get w u q s =
  (r <- oauth_exec_shell w (Ptr (next s) 0) ;;
   free (Ptr (next s) 0) ;;; ret r)
    (State (<[next s := cmd_holds w (next s)
                          (pre ++ effective_url url query ++ suf)]> (heap s))
           (match query with
            | Some _ => S (S (S (next s)))
            | None => S (S (next s))
            end)
           (trace s ++ [EvGetenv _OAUTH_ENV_HTTPGET])).
Proof.
  intros Hwf HB Htpl Hpre Hsuf Hu Hq.
  pose proof (cstring_of_nonul _ _ _ Htpl) as Hnul.
  cbn [str list_ascii_of_string app] in Htpl, Hnul.
  change "%"%char with PERCENT in Htpl, Hnul.
  assert ((NUL ∉ pre) /\ (NUL ∉ suf)) as [Hn1 Hn2].
  { rewrite not_elem_of_app, !not_elem_of_cons in Hnul. tauto. }
  pose proof (cstring_of_nonul _ _ _ Hu) as Hnu.
  pose proof (wf_below _ _ _ Hwf Htpl) as Bt.
  pose proof (wf_below _ _ _ Hwf Hu) as Bu.
  unfold oauth_exec_get, with_local, cmd_holds.
  unfold bind at 1. unfold malloc at 1.
  apply bind_run_eq.
  rewrite (readable_not_null _ _ _ Hu).
  destruct (BUFSIZ w) as [|m] eqn:Hm; [lia|]. clear HB.
  replace (S m - 1)%nat with m by lia.
  set (J := fresh_bytes w (next s) 0 (S m)).
  set (s1 := State (<[next s := J]> (heap s)) (S (next s)) (trace s)).
  rewrite (template_copy_run w _ _ (pre ++ PERCENT :: "u"%char :: suf) _ s1).
  2:{ rewrite (cstring_of_agree (next s) (heap s)); [exact Htpl| |exact Bt].
      unfold s1. solve_agree. }
  set (s2 := State (<[next s1 := _]> (heap s1)) _ _).
  assert (cstring_of (heap s2) (At (Ptr (S (next s)) 0))
          = Some (pre ++ PERCENT :: "u"%char :: suf)) as Hc2.
  { eapply cstring_at_block; [apply lookup_insert_eq | exact Hnul]. }
  rewrite (bind_done _ _ _ _ _ (strstr_run _ (str "%u") _ s2 Hc2)).
  change (str "%u") with [PERCENT; "u"%char].
  rewrite (find_marker_first "u" pre suf Hpre).
  cbn [ptr_add is_null].
  assert (heap s2 !! S (next s) = Some (pre ++ PERCENT :: "u"%char :: suf ++ [NUL]))
    as Hb2.
  { unfold s2, s1. cbn [heap next]. rewrite lookup_insert_eq.
    rewrite <- app_assoc. reflexivity. }
  rewrite (bind_done _ _ _ _ _ (mark_run (S (next s)) pre "u" _ s2 Hb2)).
  set (f := pre ++ PERCENT :: "s"%char :: suf).
  set (s3 := State (<[S (next s) := _]> (heap s2)) _ _).
  assert (NUL ∉ f) as Hf.
  { unfold f. rewrite not_elem_of_app, !not_elem_of_cons.
    repeat split; try assumption; discriminate. }
  assert (heap s3 !! S (next s) = Some (f ++ [NUL])) as Hb3.
  { unfold s3, f. cbn [heap]. rewrite lookup_insert_eq.
    rewrite <- app_assoc. reflexivity. }
  assert (heap s3 !! next s = Some J) as Hd3.
  { unfold s3, s2, s1. cbn [heap next].
    rewrite !lookup_insert_ne by lia. apply lookup_insert_eq. }
  assert (agree (next s) (heap s) (heap s3)) as Hag3
    by (unfold s3, s2, s1; solve_agree).
  destruct query as [qs|].
  - (* with a query *)
    destruct Hq as (Hq & Hzero & Hwrap).
    pose proof (cstring_of_nonul _ _ _ Hq) as Hnq.
    pose proof (wf_below _ _ _ Hwf Hq) as Bq.
    rewrite (readable_not_null _ _ _ Hq).
    assert (cstring_of (heap s3) u = Some url) as Hu3
      by (rewrite (cstring_of_agree (next s) (heap s)); assumption).
    assert (cstring_of (heap s3) q = Some qs) as Hq3
      by (rewrite (cstring_of_agree (next s) (heap s)); assumption).
    rewrite bind_assoc, (bind_done _ _ _ _ _ (strlen_run u url s3 Hu3)).
    rewrite bind_assoc, (bind_done _ _ _ _ _ (strlen_run q qs s3 Hq3)).
    rewrite Z.mul_1_l.
    rewrite (size_t_small (Z.of_nat (length url) + Z.of_nat (length qs)))
      by size_lia.
    rewrite (size_t_small (Z.of_nat (length url) + Z.of_nat (length qs) + 2))
      by size_lia.
    rewrite size_t_small by size_lia.
    rewrite bind_assoc. unfold xmalloc. unfold bind at 1. unfold malloc at 1.
    replace (Z.to_nat (Z.of_nat (length url) + Z.of_nat (length qs) + 2))
      with (S (length url + length qs + 1)) by lia.
    unfold fresh_bytes at 1. cbn [seq map].
    change (next s3) with (S (S (next s))). rewrite Hzero.
    set (R := map _ _).
    assert (length R = length url + length qs + 1)%nat as HR
      by (unfold R; rewrite length_map, length_seq; reflexivity).
    set (s4 := State (<[S (S (next s)) := _]> (heap s3)) _ _).
    assert (agree (next s) (heap s) (heap s4)) as Hag4
      by (unfold s4, s3, s2, s1; solve_agree).
    assert (cstring_of (heap s4) u = Some url) as Hu4
      by (rewrite (cstring_of_agree (next s) (heap s)); assumption).
    rewrite bind_assoc.
    rewrite (bind_done _ _ _ _ _
               (strcat_run (S (S (next s))) [] R u url s4
                  ltac:(apply lookup_insert_eq) ltac:(apply not_elem_of_nil)
                  Hu4 ltac:(lia))).
    set (s5 := State (<[S (S (next s)) := _]> (heap s4)) _ _).
    rewrite bind_assoc.
    rewrite (bind_done _ _ _ _ _
               (strcat_run (S (S (next s))) ([] ++ url) _ (Lit (str "?"))
                  (str "?") s5
                  ltac:(apply lookup_insert_eq) ltac:(exact Hnu)
                  eq_refl ltac:(rewrite length_drop; simpl; lia))).
    set (s6 := State (<[S (S (next s)) := _]> (heap s5)) _ _).
    assert (agree (next s) (heap s) (heap s6)) as Hag6
      by (unfold s6, s5, s4, s3, s2, s1; solve_agree).
    assert (cstring_of (heap s6) q = Some qs) as Hq6
      by (rewrite (cstring_of_agree (next s) (heap s)); assumption).
    assert (NUL ∉ ([] ++ url) ++ str "?") as Hnuq.
    { rewrite !not_elem_of_app. repeat split;
        [apply not_elem_of_nil | exact Hnu |].
      cbn. rewrite not_elem_of_cons. split;
        [discriminate | apply not_elem_of_nil]. }
    rewrite bind_assoc.
    rewrite (bind_done _ _ _ _ _
               (strcat_run (S (S (next s))) (([] ++ url) ++ str "?") _ q qs s6
                  ltac:(apply lookup_insert_eq) Hnuq Hq6
                  ltac:(rewrite !length_drop; simpl; lia))).
    set (s7 := State (<[S (S (next s)) := _]> (heap s6)) _ _).
    unfold ret at 1. unfold bind at 1. cbv beta iota.
    assert (NUL ∉ url ++ str "?" ++ qs) as Hneff.
    { rewrite !not_elem_of_app. repeat split; try assumption.
      cbn. rewrite not_elem_of_cons. split;
        [discriminate | apply not_elem_of_nil]. }
    assert (cstring_of (heap s7) (At (Ptr (S (S (next s))) 0))
            = Some (url ++ str "?" ++ qs)) as Ht7.
    { eapply cstring_at_block; [|exact Hneff].
      unfold s7. cbn [heap]. rewrite lookup_insert_eq.
      cbn [app]. rewrite <- !app_assoc. reflexivity. }
    rewrite (snprintf_free_run _ (next s) m (S (next s))
               [At (Ptr (S (S (next s))) 0)] f
               (pre ++ (url ++ str "?" ++ qs) ++ suf) J s7).
    + set (s8 := State (delete (S (next s)) _) _ _).
      assert (is_Some (heap s8 !! S (S (next s)))) as [c8 Hc8].
      { unfold s8, s7. cbn [heap]. rewrite lookup_delete_ne by lia.
        rewrite lookup_insert_ne by lia. rewrite lookup_insert_eq. eauto. }
      rewrite (bind_done _ _ _ _ _ (free_run _ _ s8 Hc8)).
      f_equal. unfold s8, s7, s6, s5, s4, s3, s2, s1.
      cbn [heap next trace effective_url]. f_equal.
      heap_eq Hwf.
    + unfold s7, s6, s5, s4. cbn [heap].
      rewrite !lookup_insert_ne by lia. exact Hb3.
    + exact Hf.
    + apply format_one; assumption.
    + unfold s7, s6, s5, s4. cbn [heap].
      rewrite !lookup_insert_ne by lia. exact Hd3.
    + unfold J. rewrite length_fresh_bytes. lia.
    + lia.
  - (* without *)
    subst q. cbn [cstr_is_null]. unfold ret at 1. unfold bind at 1.
    cbv beta iota.
    rewrite (snprintf_free_run _ (next s) m (S (next s)) [u] f
               (pre ++ url ++ suf) J s3 Hb3 Hf).
    + unfold ret at 1. unfold bind at 1. cbv beta iota.
      f_equal. unfold s3, s2, s1. cbn [heap next trace effective_url].
      f_equal. heap_eq Hwf.
    + apply format_one; try assumption.
      rewrite (cstring_of_agree (next s) (heap s)); assumption.
    + exact Hd3.
    + unfold J. rewrite length_fresh_bytes. lia.
    + lia.
Qed.

(** [oauth_exec_shell] on the command in block [b], then the end of the
    scope of that block. *)
Lemma shell_then_release w b c r out h n t :
  h !! b = Some (c ++ NUL :: r) -> NUL ∉ c -> (b < n)%nat ->
  spawn w c = Some out -> Z.of_nat (length out) + 1024 < 2 ^ 64 ->
  exists content reads,
    (x <- oauth_exec_shell w (Ptr b 0) ;; free (Ptr b 0) ;;; ret x)
      (State h n t)
    = (Done (Ptr n 0),
       State (delete b (<[n := content]> h)) (S n)
             (t ++ EvPopen c :: reads ++ [EvPclose]))
    /\ grown 0 reads = true
    /\ content !! length out = Some NUL
    /\ ((length out <= 1024)%nat -> take (length out) content = out).
Proof.
  intros Hb Hc Hn Hsp Hbound.
  pose proof (cstring_at_block h b c r Hb Hc) as Hcmd.
  destruct (exec_shell_run w (Ptr b 0) c out (State h n t) Hcmd Hsp Hbound)
    as (content & reads & Hrun & Hgrown & Hnul & Hshort).
  cbn [heap next trace] in Hrun.
  exists content, reads. repeat split; try assumption.
  - rewrite (bind_done _ _ _ _ _ Hrun).
    set (s1 := State _ _ _).
    assert (heap s1 !! b = Some (c ++ NUL :: r)) as Hb1
      by (unfold s1; cbn [heap]; rewrite lookup_insert_ne by lia; exact Hb).
    rewrite (bind_done _ _ _ _ _ (free_run b _ s1 Hb1)). reflexivity.
  - intros Hle. destruct (decide (length out = 1024%nat)) as [H1024|Hne].
    + destruct (exec_shell_run_1024 w (Ptr b 0) c out (State h n t)
                  Hcmd Hsp H1024) as (rest & s' & Hrun' & Hrest).
      rewrite Hrun in Hrun'. injection Hrun' as <-.
      cbn [heap next] in Hrest. rewrite lookup_insert_eq in Hrest.
      injection Hrest as ->. apply take_app_length.
    + apply Hshort. lia.
Qed.

(** X3.  A POST request with a valid template, whose child can be
    started: the call returns the buffer of [oauth_exec_shell]; the store
    it leaves is the store it found with this one buffer added (the array
    [cmd] and the copy of the template are gone); the trace is [getenv],
    [popen] of the command, the reads, [pclose]. *)
Theorem post_request_runs w o pre mid suf u p url body out s :
  wf s -> (0 < BUFSIZ w)%nat ->
  cstring_of (heap s)
    (template_source w _OAUTH_ENV_HTTPCMD (_OAUTH_DEF_HTTPCMD w))
  = Some (post_template o pre mid suf) ->
  PERCENT ∉ pre -> PERCENT ∉ mid -> PERCENT ∉ suf ->
  cstring_of (heap s) u = Some url -> cstring_of (heap s) p = Some body ->
  spawn w (take (BUFSIZ w - 1) (post_command o pre mid suf url body))
  = Some out ->
  Z.of_nat (length out) + 1024 < 2 ^ 64 ->
  exists content reads,
    oauth_exec_post w u p s
    = (Done (Ptr (S (S (next s))) 0),
       State (<[S (S (next s)) := content]> (heap s)) (S (S (S (next s))))
             (trace s ++ EvGetenv _OAUTH_ENV_HTTPCMD
                :: EvPopen (take (BUFSIZ w - 1)
                              (post_command o pre mid suf url body))
                :: reads ++ [EvPclose]))
    /\ grown 0 reads = true
    /\ content !! length out = Some NUL
    /\ ((length out <= 1024)%nat -> take (length out) content = out).
Proof.
  intros Hwf HB Htpl Hpre Hmid Hsuf Hu Hp Hsp Hbound.
  pose proof (cstring_of_nonul _ _ _ Htpl) as Hnul.
  pose proof (post_template_nonul _ _ _ _ Hnul) as (Hn1 & Hn2 & Hn3).
  pose proof (cstring_of_nonul _ _ _ Hu) as Hnu.
  pose proof (cstring_of_nonul _ _ _ Hp) as Hnp.
  pose proof (post_command_nonul o pre mid suf url body Hn1 Hn2 Hn3 Hnu Hnp)
    as Hcmd.
  rewrite (post_reduces w o pre mid suf u p url body s
             Hwf HB Htpl Hpre Hmid Hsuf Hu Hp).
  unfold cmd_holds.
  set (c := take (BUFSIZ w - 1) (post_command o pre mid suf url body)) in *.
  set (r := drop (length c + 1) _).
  destruct (shell_then_release w (next s) c r out
              (<[next s := c ++ NUL :: r]> (heap s)) (S (S (next s)))
              (trace s ++ [EvGetenv _OAUTH_ENV_HTTPCMD])
              ltac:(apply lookup_insert_eq)
              (not_elem_of_take _ (BUFSIZ w - 1) _ Hcmd)
              ltac:(lia) Hsp Hbound)
    as (content & reads & Hrun & Hgrown & Hend & Hshort).
  exists content, reads. repeat split; try assumption.
  rewrite Hrun. f_equal. f_equal.
  - heap_eq Hwf.
  - rewrite <- app_assoc. reflexivity.
Qed.

Lemma post_request_runs_witness :
  exists content reads,
    oauth_exec_post (Sample.glibc Sample.unset Sample.shell Sample.recycled)
      (Lit (str "http://h/r")) (Lit (str "a=1")) Sample.empty
    = (Done (Ptr 2 0),
       State (<[2%nat := content]> ∅) 3
             ([] ++ EvGetenv _OAUTH_ENV_HTTPCMD
                :: EvPopen (take (Z.to_nat 8192 - 1)
                              (post_command Body_first Sample.def_pre
                                 Sample.def_mid Sample.def_suf
                                 (str "http://h/r") (str "a=1")))
                :: reads ++ [EvPclose]))
    /\ grown 0 reads = true
    /\ content !! length (@nil ascii) = Some NUL
    /\ ((length (@nil ascii) <= 1024)%nat
        -> take (length (@nil ascii)) content = []).
Proof.
  apply (post_request_runs
           (Sample.glibc Sample.unset Sample.shell Sample.recycled)
           Body_first Sample.def_pre Sample.def_mid Sample.def_suf
           (Lit (str "http://h/r")) (Lit (str "a=1"))
           (str "http://h/r") (str "a=1") [] Sample.empty).
  - intros b _. apply lookup_empty.
  - vm_compute. lia.
  - reflexivity.
  - apply (bool_decide_unpack _). vm_compute. exact I.
  - apply (bool_decide_unpack _). vm_compute. exact I.
  - apply (bool_decide_unpack _). vm_compute. exact I.
  - reflexivity.
  - reflexivity.
  - vm_compute. reflexivity.
  - vm_compute. reflexivity.
Defined.

(** X4.  A GET request with a valid template, whose child can be
    started: the command is the template with the effective URL in the
    place of [%u]; the store the call leaves is the store it found with
    the returned buffer added, so the block of the effective URL, the
    copy of the template and the array [cmd] are all gone.  With a query
    this needs the block [xmalloc] hands out to begin with a NUL. *)
Theorem get_request_runs w pre suf u q url query out s :
  wf s -> (0 < BUFSIZ w)%nat ->
  cstring_of (heap s)
    (template_source w _OAUTH_ENV_HTTPGET (_OAUTH_DEF_HTTPGET w))
  = Some (pre ++ str "%u" ++ suf) ->
  PERCENT ∉ pre -> PERCENT ∉ suf ->
  cstring_of (heap s) u = Some url ->
  match query with
  | None => q = At NULL
  | Some qs =>
      cstring_of (heap s) q = Some qs
      /\ uninit w (S (S (next s))) 0 = NUL
      /\ Z.of_nat (length url) + Z.of_nat (length qs) + 2 < 2 ^ 64
  end ->
  spawn w (take (BUFSIZ w - 1) (pre ++ effective_url url query ++ suf))
  = Some out ->
  Z.of_nat (length out) + 1024 < 2 ^ 64 ->
  let b := match query with
           | Some _ => S (S (S (next s)))
           | None => S (S (next s))
           end in
  exists content reads,
    oauth_exec_get w u q s
    = (Done (Ptr b 0),
       State (<[b := content]> (heap s)) (S b)
             (trace s ++ EvGetenv _OAUTH_ENV_HTTPGET
                :: EvPopen (take (BUFSIZ w - 1)
                              (pre ++ effective_url url query ++ suf))
                :: reads ++ [EvPclose]))
    /\ grown 0 reads = true
    /\ content !! length out = Some NUL
    /\ ((length out <= 1024)%nat -> take (length out) content = out).
Proof.
  intros Hwf HB Htpl Hpre Hsuf Hu Hq Hsp Hbound b.
  pose proof (cstring_of_nonul _ _ _ Htpl) as Hnul.
  cbn [str list_ascii_of_string app] in Hnul.
  assert ((NUL ∉ pre) /\ (NUL ∉ suf)) as [Hn1 Hn2].
  { rewrite not_elem_of_app, !not_elem_of_cons in Hnul. tauto. }
  pose proof (cstring_of_nonul _ _ _ Hu) as Hnu.
  assert (NUL ∉ pre ++ effective_url url query ++ suf) as Hcmd.
  { destruct query as [qs|]; cbn [effective_url].
    - destruct Hq as (Hq & _).
      pose proof (cstring_of_nonul _ _ _ Hq) as Hnq.
      rewrite !not_elem_of_app. repeat split; try assumption.
      cbn. rewrite not_elem_of_cons. split;
        [discriminate | apply not_elem_of_nil].
    - rewrite !not_elem_of_app. tauto. }
  rewrite (get_reduces w pre suf u q url query s
             Hwf HB Htpl Hpre Hsuf Hu Hq).
  fold b. unfold cmd_holds.
  set (c := take (BUFSIZ w - 1) (pre ++ effective_url url query ++ suf)) in *.
  set (r := drop (length c + 1) _).
  destruct (shell_then_release w (next s) c r out
              (<[next s := c ++ NUL :: r]> (heap s)) b
              (trace s ++ [EvGetenv _OAUTH_ENV_HTTPGET])
              ltac:(apply lookup_insert_eq)
              (not_elem_of_take _ (BUFSIZ w - 1) _ Hcmd)
              ltac:(unfold b; destruct query; lia) Hsp Hbound)
    as (content & reads & Hrun & Hgrown & Hend & Hshort).
  exists content, reads. repeat split; try assumption.
  rewrite Hrun. f_equal. f_equal.
  - assert (next s < b)%nat as Hlt by (unfold b; destruct query; lia).
    clearbody b. heap_eq Hwf.
  - rewrite <- app_assoc. reflexivity.
Qed.

Lemma get_request_runs_witness :
  exists content reads,
    oauth_exec_get (Sample.glibc Sample.unset Sample.shell Sample.zeroed)
      (Lit (str "http://h/r")) (Lit (str "a=1")) Sample.empty
    = (Done (Ptr 3 0),
       State (<[3%nat := content]> ∅) 4
             ([] ++ EvGetenv _OAUTH_ENV_HTTPGET
                :: EvPopen (take (Z.to_nat 8192 - 1)
                              (Sample.get_pre
                               ++ effective_url (str "http://h/r")
                                    (Some (str "a=1"))
                               ++ Sample.def_suf))
                :: reads ++ [EvPclose]))
    /\ grown 0 reads = true
    /\ content !! length (@nil ascii) = Some NUL
    /\ ((length (@nil ascii) <= 1024)%nat
        -> take (length (@nil ascii)) content = []).
Proof.
  apply (get_request_runs
           (Sample.glibc Sample.unset Sample.shell Sample.zeroed)
           Sample.get_pre Sample.def_suf
           (Lit (str "http://h/r")) (Lit (str "a=1"))
           (str "http://h/r") (Some (str "a=1")) [] Sample.empty).
  - intros b _. apply lookup_empty.
  - vm_compute. lia.
  - reflexivity.
  - apply (bool_decide_unpack _). vm_compute. exact I.
  - apply (bool_decide_unpack _). vm_compute. exact I.
  - reflexivity.
  - split; [reflexivity|]. split; [reflexivity|]. vm_compute. reflexivity.
  - vm_compute. reflexivity.
  - vm_compute. reflexivity.
Defined.

(** ** The built-in commands *)

Lemma user_agent_clean (w : host) (c : ascii) :
  c ∉ str "curl -sA 'liboauth-agent/' -d '" -> c ∉ VERSION w ->
  (c ∉ str "curl -sA '" ++ OAUTH_USER_AGENT w ++ str "' -d '")
  /\ (c ∉ str "curl -sA '" ++ OAUTH_USER_AGENT w ++ str "' '").
Proof.
  intros Hc Hv. unfold OAUTH_USER_AGENT.
  cbn [str list_ascii_of_string app] in *.
  rewrite !not_elem_of_cons, !not_elem_of_app, !not_elem_of_cons in *.
  intuition.
Qed.

(** X5.  Built without cURL and with the two variables unset,
    [oauth_http_post] runs [curl -sA 'liboauth-agent/VERSION' -d 'p' 'u' ]
    and [oauth_http_get] with a null query runs
    [curl -sA 'liboauth-agent/VERSION' 'u' ]: the body comes before the
    URL, and both are put between the quotes as they are (cut to
    [BUFSIZ - 1] characters as every command is). *)
Theorem default_commands w net u p url body s :
  wf s -> (0 < BUFSIZ w)%nat ->
  PERCENT ∉ VERSION w -> NUL ∉ VERSION w ->
  environ w _OAUTH_ENV_HTTPCMD = NULL ->
  environ w _OAUTH_ENV_HTTPGET = NULL ->
  cstring_of (heap s) u = Some url -> cstring_of (heap s) p = Some body ->
  (exists rest,
     trace (snd (oauth_http_post w net false u p s)) =
     trace s ++ EvGetenv _OAUTH_ENV_HTTPCMD
       :: EvPopen (take (BUFSIZ w - 1)
                     (str "curl -sA '" ++ OAUTH_USER_AGENT w
                      ++ str "' -d '" ++ body ++ str "' '" ++ url
                      ++ str "' "))
       :: rest)
  /\ (exists rest,
        trace (snd (oauth_http_get w net false u (At NULL) s)) =
        trace s ++ EvGetenv _OAUTH_ENV_HTTPGET
          :: EvPopen (take (BUFSIZ w - 1)
                        (str "curl -sA '" ++ OAUTH_USER_AGENT w
                         ++ str "' '" ++ url ++ str "' "))
          :: rest).
Proof.
  intros Hwf HB Hpv Hnv Henv Henvg Hu Ha.
  destruct (user_agent_clean w PERCENT) as [Hp1 Hp2];
    [apply (bool_decide_unpack _); vm_compute; exact I | exact Hpv |].
  destruct (user_agent_clean w NUL) as [Hz1 Hz2];
    [apply (bool_decide_unpack _); vm_compute; exact I | exact Hnv |].
  split.
  - unfold oauth_http_post.
    destruct (post_formats w Body_first
                (str "curl -sA '" ++ OAUTH_USER_AGENT w ++ str "' -d '")
                (str "' '") (str "' ") u p url body s Hwf HB) as [rest Hr];
      try assumption.
    + unfold template_source. rewrite Henv. cbn [cstring_of].
      unfold _OAUTH_DEF_HTTPCMD, post_template.
      rewrite before_nul_id.
      * rewrite <- !app_assoc. reflexivity.
      * change (str "' -d '%p' '%u' ")
          with (str "' -d '" ++ str "%p' '%u' ").
        rewrite 2!app_assoc, not_elem_of_app. split; [|].
        -- rewrite <- app_assoc. exact Hz1.
        -- apply (bool_decide_unpack _). vm_compute. exact I.
    + apply (bool_decide_unpack _). vm_compute. exact I.
    + apply (bool_decide_unpack _). vm_compute. exact I.
    + exists rest. rewrite Hr. unfold post_command.
      rewrite <- !app_assoc. reflexivity.
  - unfold oauth_http_get.
    destruct (get_formats w
                (str "curl -sA '" ++ OAUTH_USER_AGENT w ++ str "' '")
                (str "' ") u (At NULL) url None s Hwf HB) as [rest Hr];
      try assumption; try reflexivity.
    + unfold template_source. rewrite Henvg. cbn [cstring_of].
      unfold _OAUTH_DEF_HTTPGET.
      rewrite before_nul_id.
      * rewrite <- !app_assoc. reflexivity.
      * change (str "' '%u' ") with (str "' '" ++ str "%u' ").
        rewrite 2!app_assoc, not_elem_of_app. split; [|].
        -- rewrite <- app_assoc. exact Hz2.
        -- apply (bool_decide_unpack _). vm_compute. exact I.
    + apply (bool_decide_unpack _). vm_compute. exact I.
    + exists rest. rewrite Hr. cbn [effective_url].
      rewrite <- !app_assoc. reflexivity.
Qed.

Lemma default_commands_witness :
  (exists rest,
     trace (snd (oauth_http_post
                   (Sample.glibc Sample.unset Sample.shell Sample.recycled)
                   SampleNet.no_handle false
                   (Lit (str "http://h/r")) (Lit (str "a=1")) Sample.empty)) =
     trace Sample.empty ++ EvGetenv _OAUTH_ENV_HTTPCMD
       :: EvPopen (take (BUFSIZ (Sample.glibc Sample.unset Sample.shell
                                   Sample.recycled) - 1)
                     (str "curl -sA '"
                      ++ OAUTH_USER_AGENT (Sample.glibc Sample.unset
                                             Sample.shell Sample.recycled)
                      ++ str "' -d '" ++ str "a=1" ++ str "' '"
                      ++ str "http://h/r" ++ str "' "))
       :: rest)
  /\ (exists rest,
        trace (snd (oauth_http_get
                      (Sample.glibc Sample.unset Sample.shell Sample.recycled)
                      SampleNet.no_handle false
                      (Lit (str "http://h/r")) (At NULL) Sample.empty)) =
        trace Sample.empty ++ EvGetenv _OAUTH_ENV_HTTPGET
          :: EvPopen (take (BUFSIZ (Sample.glibc Sample.unset Sample.shell
                                      Sample.recycled) - 1)
                        (str "curl -sA '"
                         ++ OAUTH_USER_AGENT (Sample.glibc Sample.unset
                                                Sample.shell Sample.recycled)
                         ++ str "' '" ++ str "http://h/r" ++ str "' "))
          :: rest).
Proof.
  apply (default_commands
           (Sample.glibc Sample.unset Sample.shell Sample.recycled)
           SampleNet.no_handle
           (Lit (str "http://h/r")) (Lit (str "a=1"))
           (str "http://h/r") (str "a=1") Sample.empty).
  - intros b _. apply lookup_empty.
  - vm_compute. lia.
  - apply (bool_decide_unpack _). vm_compute. exact I.
  - apply (bool_decide_unpack _). vm_compute. exact I.
  - reflexivity.
  - reflexivity.
  - reflexivity.
  - reflexivity.
Defined.

(** ** Templates with more conversions than arguments *)

Lemma bind_fault {A B} (m : M A) (k : A -> M B) s f s1 :
  m s = (Fault f, s1) -> bind m k s = (Fault f, s1).
Proof. unfold bind. intros ->. reflexivity. Qed.

Lemma conversions_plain (l rest : chars) :
  PERCENT ∉ l -> conversions (l ++ rest) = conversions rest.
Proof.
  induction l as [|c l IH]; intros Hl; [reflexivity|].
  apply not_elem_of_cons in Hl as [Hc Hl]. cbn [app conversions].
  assert (Ascii.eqb c PERCENT = false) as ->
    by (apply Ascii.eqb_neq; congruence).
  apply IH. exact Hl.
Qed.

Lemma conversions_s (rest : chars) :
  conversions (PERCENT :: "s"%char :: rest) = S (conversions rest).
Proof. reflexivity. Qed.

(** X6.  The test of the template looks for [%u] and [%p] only (the
    code's TODO).  A template that holds both and a [%s] behind them is
    not refused: no diagnostic is written, and the request goes on to
    [snprintf] with a format of three or more [%s] and the two arguments
    it always passes.  What that call does C leaves undefined, and the
    statement says nothing of it. *)
Theorem third_conversion_not_refused w o pre mid suf u p s :
  wf s ->
  cstring_of (heap s)
    (template_source w _OAUTH_ENV_HTTPCMD (_OAUTH_DEF_HTTPCMD w))
  = Some (post_template o pre mid suf) ->
  PERCENT ∉ pre -> PERCENT ∉ mid -> (0 < conversions suf)%nat ->
  let args := match o with URL_first => [u; p] | Body_first => [p; u] end in
  exists f s3,
    oauth_exec_post w u p s =
    bind (snprintf (Ptr (next s) 0) (BUFSIZ w) (Ptr (S (next s)) 0) args ;;;
          free (Ptr (S (next s)) 0) ;;;
          oauth_exec_shell w (Ptr (next s) 0))
         (fun r => free (Ptr (next s) 0) ;;; ret r) s3
    /\ cstring_of (heap s3) (At (Ptr (S (next s)) 0)) = Some f
    /\ (length args < conversions f)%nat
    /\ trace s3 = trace s ++ [EvGetenv _OAUTH_ENV_HTTPCMD].
Proof.
  intros Hwf Htpl Hpre Hmid Hsuf args.
  pose proof (cstring_of_nonul _ _ _ Htpl) as Hnul.
  set (f := pre ++ PERCENT :: "s"%char :: mid ++ PERCENT :: "s"%char :: suf).
  assert (NUL ∉ f) as Hf.
  { destruct o; unfold post_template in Hnul; unfold f;
      cbn [str list_ascii_of_string app] in *;
      rewrite !not_elem_of_app, !not_elem_of_cons, !not_elem_of_app,
        !not_elem_of_cons in *;
      intuition discriminate. }
  exists f. eexists. split; [|split; [|split]].
  - exact (post_marks w o pre mid suf u p s Hwf Htpl Hpre Hmid).
  - apply (cstring_at_block _ (S (next s)) f []);
      [apply lookup_insert_eq | exact Hf].
  - unfold f.
    rewrite (conversions_plain pre _ Hpre), conversions_s.
    rewrite (conversions_plain mid _ Hmid), conversions_s.
    unfold args. destruct o; cbn [length]; lia.
  - reflexivity.
Qed.

Lemma third_conversion_not_refused_witness :
  exists f s3,
    oauth_exec_post
      (Sample.glibc Sample.all_block0 Sample.shell Sample.recycled)
      (Lit (str "http://h/r")) (Lit (str "a=1"))
      (Sample.with_string (str "echo %u %p %s"))
    = bind (snprintf (Ptr 1 0) (Z.to_nat 8192) (Ptr 2 0)
              [Lit (str "http://h/r"); Lit (str "a=1")] ;;;
            free (Ptr 2 0) ;;;
            oauth_exec_shell
              (Sample.glibc Sample.all_block0 Sample.shell Sample.recycled)
              (Ptr 1 0))
           (fun r => free (Ptr 1 0) ;;; ret r) s3
    /\ cstring_of (heap s3) (At (Ptr 2 0)) = Some f
    /\ (length [Lit (str "http://h/r"); Lit (str "a=1")] < conversions f)%nat
    /\ trace s3 = trace (Sample.with_string (str "echo %u %p %s"))
                  ++ [EvGetenv _OAUTH_ENV_HTTPCMD].
Proof.
  apply (third_conversion_not_refused
           (Sample.glibc Sample.all_block0 Sample.shell Sample.recycled)
           URL_first (str "echo ") (str " ") (str " %s")
           (Lit (str "http://h/r")) (Lit (str "a=1"))
           (Sample.with_string (str "echo %u %p %s"))).
  - intros b Hb. cbn [Sample.with_string heap next] in *.
    rewrite lookup_insert_ne by lia. apply lookup_empty.
  - reflexivity.
  - apply (bool_decide_unpack _). vm_compute. exact I.
  - apply (bool_decide_unpack _). vm_compute. exact I.
  - vm_compute. lia.
Defined.

(** ** The write callback *)

(** The two writes of the callback: the bytes behind what the block
    holds, and the terminator behind them. *)
Lemma append_run b X received bytes s :
  heap s !! b = Some X ->
  length X = (length received + length bytes + 1)%nat ->
  take (length received) X = received ->
  (write_chars (Ptr b (0 + length received)) bytes ;;;
   write_chars (Ptr b (0 + (length received + length bytes))) [NUL]) s
  = (Done tt,
     State (<[b := received ++ bytes ++ [NUL]]> (heap s)) (next s) (trace s)).
Proof.
  intros Hb Hlen Htake.
  rewrite (bind_done _ _ _ _ _
             (write_chars_run b (0 + length received) bytes X s Hb
                ltac:(size_lia))).
  cbn [Nat.add]. rewrite Htake.
  set (D := drop (length received + length bytes) X).
  assert (length D = 1%nat) as HD by (unfold D; rewrite length_drop; lia).
  set (s1 := State _ _ _).
  assert (heap s1 !! b = Some (received ++ bytes ++ D)) as Hb1
    by apply lookup_insert_eq.
  rewrite (write_chars_run b (length received + length bytes) [NUL]
             _ s1 Hb1 ltac:(rewrite !length_app; cbn [length]; size_lia)).
  unfold s1. cbn [heap next trace]. rewrite insert_insert_eq.
  f_equal. f_equal. f_equal.
  rewrite (app_assoc received bytes D).
  rewrite take_app_length' by (rewrite length_app; lia).
  rewrite drop_ge by (rewrite !length_app; cbn [length]; lia).
  rewrite app_nil_r, <- app_assoc. reflexivity.
Qed.

Lemma append_then {A} (k : M A) b X received bytes s :
  heap s !! b = Some X ->
  length X = (length received + length bytes + 1)%nat ->
  take (length received) X = received ->
  (write_chars (Ptr b (0 + length received)) bytes ;;;
   write_chars (Ptr b (0 + (length received + length bytes))) [NUL] ;;;
   k) s
  = k (State (<[b := received ++ bytes ++ [NUL]]> (heap s))
             (next s) (trace s)).
Proof.
  intros Hb Hlen Htake.
  etransitivity;
    [symmetry; apply (bind_assoc (write_chars _ _) (fun _ => write_chars _ _)
                        (fun _ => k) s)|].
  exact (bind_done _ (fun _ => k) s tt _
           (append_run b X received bytes s Hb Hlen Htake)).
Qed.

Lemma callback_run w piece size nmemb mem received s :
  holds (heap s) mem received ->
  0 <= size * nmemb -> (Z.to_nat (size * nmemb) <= length piece)%nat ->
  Z.of_nat (length received) + size * nmemb + 1 < 2 ^ 64 ->
  WriteMemoryCallback w piece size nmemb mem s =
  (Done (size * nmemb,
         MemoryStruct.Make (Ptr (chunk_block s mem) 0)
           (Z.of_nat (length received) + size * nmemb)),
   State (<[chunk_block s mem :=
              received ++ take (Z.to_nat (size * nmemb)) piece ++ [NUL]]>
            (heap s))
         (chunk_next s mem) (trace s)).
Proof.
  intros [Hsize Hdata] Hn Hpiece Hbound.
  unfold WriteMemoryCallback, chunk_block, chunk_next. cbv zeta.
  rewrite Hsize. set (n := size * nmemb) in *.
  rewrite (size_t_small n) by size_lia.
  rewrite (size_t_small (Z.of_nat (length received) + n)) by size_lia.
  rewrite (size_t_small (Z.of_nat (length received) + n + 1)) by size_lia.
  set (bytes := take (Z.to_nat n) piece).
  assert (length bytes = Z.to_nat n) as Hbytes
    by (unfold bytes; rewrite length_take; lia).
  assert (Z.to_nat (Z.of_nat (length received) + n)
          = length received + length bytes)%nat as Hoff by lia.
  assert (Z.to_nat (Z.of_nat (length received) + n + 1)
          = length received + length bytes + 1)%nat as Hcap by lia.
  unfold memcpy.
  destruct (decide (Z.to_nat n <= length piece)%nat) as [_|]; [|lia].
  fold bytes. rewrite Nat2Z.id, Hoff.
  destruct (MemoryStruct.data mem) as [|b o].
  - subst received. cbn [xrealloc]. rewrite Hcap. cbn [length Nat.add] in *.
    unfold bind at 1. unfold malloc at 1. cbn [is_null ptr_add].
    set (s1 := State _ _ _).
    rewrite (append_then _ (next s)
               (fresh_bytes w (next s) 0 (length bytes + 1)) [] bytes s1
               ltac:(apply lookup_insert_eq)
               ltac:(rewrite length_fresh_bytes; cbn [length]; lia)
               eq_refl).
    unfold ret. unfold s1. cbn [heap next trace].
    rewrite insert_insert_eq. reflexivity.
  - destruct Hdata as [-> Hb].
    rewrite (bind_done _ _ _ _ _
               (xrealloc_grow_run w b (received ++ [NUL])
                  (Z.of_nat (length received) + n + 1) s Hb
                  ltac:(rewrite length_app; cbn [length]; size_lia))).
    cbn [is_null ptr_add].
    set (s1 := State _ _ _).
    rewrite (append_then _ b
               ((received ++ [NUL])
                ++ fresh_bytes w b (length (received ++ [NUL]))
                     (Z.to_nat (Z.of_nat (length received) + n + 1)
                      - length (received ++ [NUL])))
               received bytes s1
               ltac:(apply lookup_insert_eq)
               ltac:(rewrite !length_app, length_fresh_bytes;
                     cbn [length]; size_lia)
               ltac:(rewrite <- app_assoc; apply take_app_length)).
    unfold ret. unfold s1. cbn [heap next trace].
    rewrite insert_insert_eq. reflexivity.
Qed.

(** The callback as libcurl calls it: [size] is 1 and [nmemb] the length
    of the piece. *)
Lemma callback_piece w piece mem received s :
  holds (heap s) mem received ->
  Z.of_nat (length received) + Z.of_nat (length piece) + 1 < 2 ^ 64 ->
  WriteMemoryCallback w piece 1 (Z.of_nat (length piece)) mem s =
  (Done (Z.of_nat (length piece),
         MemoryStruct.Make (Ptr (chunk_block s mem) 0)
           (Z.of_nat (length received) + Z.of_nat (length piece))),
   State (<[chunk_block s mem := received ++ piece ++ [NUL]]> (heap s))
         (chunk_next s mem) (trace s)).
Proof.
  intros Hh Hbound.
  rewrite (callback_run w piece 1 (Z.of_nat (length piece)) mem received s Hh
             ltac:(lia) ltac:(lia) ltac:(size_lia)).
  rewrite Z.mul_1_l, Nat2Z.id, firstn_all. reflexivity.
Qed.

Lemma holds_after (h : gmap block chars) b received :
  holds (<[b := received ++ [NUL]]> h)
        (MemoryStruct.Make (Ptr b 0) (Z.of_nat (length received))) received.
Proof.
  split; [reflexivity|]. cbn [MemoryStruct.data].
  split; [reflexivity | apply lookup_insert_eq].
Qed.

Lemma deliver_run w pieces :
  forall mem received s,
    holds (heap s) mem received ->
    Z.of_nat (length received) + Z.of_nat (length (concat pieces)) + 1
    < 2 ^ 64 ->
    deliver w pieces mem s =
    (Done (true, fst (delivered pieces mem received s)),
     snd (delivered pieces mem received s)).
Proof.
  induction pieces as [|piece rest IH]; intros mem received s Hh Hbound.
  - reflexivity.
  - cbn [concat] in Hbound. rewrite length_app in Hbound.
    cbn [deliver].
    rewrite (bind_done _ _ _ _ _
               (callback_piece w piece mem received s Hh ltac:(size_lia))).
    cbn [fst snd]. rewrite Z.eqb_refl.
    replace (Z.of_nat (length received) + Z.of_nat (length piece))
      with (Z.of_nat (length (received ++ piece)))
      by (rewrite length_app; lia).
    rewrite (app_assoc received piece [NUL]).
    set (b := chunk_block s mem).
    rewrite (IH _ (received ++ piece)
               (State (<[b := (received ++ piece) ++ [NUL]]> (heap s))
                      (chunk_next s mem) (trace s))
               (holds_after (heap s) b _)
               ltac:(rewrite length_app; size_lia)).
    destruct rest as [|p2 rest].
    + cbn [delivered fst snd concat]. rewrite app_nil_r, <- app_assoc.
      rewrite length_app, Nat2Z.inj_add. reflexivity.
    + cbn [delivered fst snd chunk_block chunk_next MemoryStruct.data
             heap next trace].
      fold b. rewrite insert_insert_eq.
      cbn [concat]. rewrite !length_app, <- !app_assoc.
      rewrite !Nat2Z.inj_add, <- !Z.add_assoc. reflexivity.
Qed.

(** X7.  One call of the write callback appends: when [chunk] holds the
    bytes received so far, after the call it holds them followed by the
    first [size * nmemb] bytes at [ptr]; the call returns
    [size * nmemb], leaves [chunk.data] non-null and writes to no other
    block. *)
Theorem callback_appends w piece size nmemb mem received s :
  holds (heap s) mem received ->
  0 <= size * nmemb -> (Z.to_nat (size * nmemb) <= length piece)%nat ->
  Z.of_nat (length received) + size * nmemb + 1 < 2 ^ 64 ->
  exists mem' s',
    WriteMemoryCallback w piece size nmemb mem s
    = (Done (size * nmemb, mem'), s')
    /\ holds (heap s') mem'
         (received ++ take (Z.to_nat (size * nmemb)) piece)
    /\ MemoryStruct.data mem' <> NULL
    /\ trace s' = trace s
    /\ forall b, b <> chunk_block s mem -> heap s' !! b = heap s !! b.
Proof.
  intros Hh Hn Hpiece Hbound.
  eexists _, _. split;
    [exact (callback_run w piece size nmemb mem received s
              Hh Hn Hpiece Hbound)|].
  cbn [heap trace MemoryStruct.data]. repeat split.
  - cbn [MemoryStruct.size]. rewrite length_app, length_take. lia.
  - rewrite lookup_insert_eq, <- app_assoc. reflexivity.
  - discriminate.
  - intros b Hb. apply lookup_insert_ne. congruence.
Qed.

Lemma callback_appends_witness :
  exists mem' s',
    WriteMemoryCallback
      (Sample.glibc Sample.unset Sample.shell Sample.recycled)
      (str "world!") 1 5
      (MemoryStruct.Make (Ptr 0 0) 6)
      (Sample.with_string (str "hello "))
    = (Done (1 * 5, mem'), s')
    /\ holds (heap s') mem'
         (str "hello " ++ take (Z.to_nat (1 * 5)) (str "world!"))
    /\ MemoryStruct.data mem' <> NULL
    /\ trace s' = trace (Sample.with_string (str "hello "))
    /\ forall b,
         b <> chunk_block (Sample.with_string (str "hello "))
                (MemoryStruct.Make (Ptr 0 0) 6) ->
         heap s' !! b = heap (Sample.with_string (str "hello ")) !! b.
Proof.
  apply (callback_appends
           (Sample.glibc Sample.unset Sample.shell Sample.recycled)
           (str "world!") 1 5 (MemoryStruct.Make (Ptr 0 0) 6)
           (str "hello ") (Sample.with_string (str "hello "))).
  - split; [reflexivity|]. split; [reflexivity|]. apply lookup_insert_eq.
  - lia.
  - vm_compute. lia.
  - vm_compute. reflexivity.
Defined.

(** X8.  The pieces of a reply, handed to the callback in order, end up
    in [chunk] in that order with nothing between them: [chunk] holds
    what it held followed by the concatenation of the pieces, and
    libcurl is never told to stop. *)
Theorem reply_accumulates w pieces mem received s :
  holds (heap s) mem received ->
  Z.of_nat (length received) + Z.of_nat (length (concat pieces)) + 1
  < 2 ^ 64 ->
  exists mem' s',
    deliver w pieces mem s = (Done (true, mem'), s')
    /\ holds (heap s') mem' (received ++ concat pieces)
    /\ trace s' = trace s
    /\ forall b, b <> chunk_block s mem -> heap s' !! b = heap s !! b.
Proof.
  intros Hh Hbound.
  eexists _, _. split; [exact (deliver_run w pieces mem received s Hh Hbound)|].
  destruct pieces as [|piece rest].
  - cbn [delivered fst snd concat]. rewrite app_nil_r. auto.
  - cbn [delivered fst snd heap trace]. repeat split.
    + cbn [MemoryStruct.size]. rewrite length_app. lia.
    + rewrite lookup_insert_eq, <- app_assoc. reflexivity.
    + intros b Hb. apply lookup_insert_ne. congruence.
Qed.

Lemma reply_accumulates_witness :
  exists mem' s',
    deliver (Sample.glibc Sample.unset Sample.shell Sample.recycled)
      [str "oauth_token=a"; str "&oauth_token_"; str "secret=b"]
      (MemoryStruct.Make NULL 0) Sample.empty
    = (Done (true, mem'), s')
    /\ holds (heap s') mem'
         ([] ++ concat [str "oauth_token=a"; str "&oauth_token_";
                        str "secret=b"])
    /\ trace s' = trace Sample.empty
    /\ forall b,
         b <> chunk_block Sample.empty (MemoryStruct.Make NULL 0) ->
         heap s' !! b = heap Sample.empty !! b.
Proof.
  apply (reply_accumulates
           (Sample.glibc Sample.unset Sample.shell Sample.recycled)
           [str "oauth_token=a"; str "&oauth_token_"; str "secret=b"]
           (MemoryStruct.Make NULL 0) [] Sample.empty).
  - split; reflexivity.
  - vm_compute. reflexivity.
Defined.

(** ** [curl_easy_perform] *)

Lemma capacity_run b o l s :
  heap s !! b = Some l -> capacity (Ptr b o) s = (Done (length l - o)%nat, s).
Proof.
  intros Hb. unfold capacity, bind, block_of. rewrite Hb. reflexivity.
Qed.

Lemma copied_run c t s :
  cstring_of (heap s) c = Some t -> copied c s = (Done (Some t), s).
Proof.
  intros Hc. unfold copied. rewrite (readable_not_null _ _ _ Hc).
  rewrite (bind_done _ _ _ _ _ (read_cstr_run _ _ _ Hc)). reflexivity.
Qed.

Lemma pointed_run c t s :
  cstring_of (heap s) c = Some t -> pointed c s = (Done (Some t), s).
Proof.
  intros Hc. unfold pointed. rewrite (readable_not_null _ _ _ Hc).
  rewrite (bind_done _ _ _ _ _ (read_cstr_run _ _ _ Hc)). reflexivity.
Qed.

Lemma setopt_URL_run o c t s :
  cstring_of (heap s) c = Some t ->
  setopt_URL o c s =
  (Done (Options (Some t) (CURLOPT_POSTFIELDS o) (CURLOPT_USERAGENT o)
           (CURLOPT_POST o) (CURLOPT_POSTFIELDSIZE o) (CURLOPT_HTTPHEADER o)
           (CURLOPT_READDATA o)), s).
Proof.
  intros Hc. unfold setopt_URL.
  rewrite (bind_done _ _ _ _ _ (copied_run c t s Hc)). reflexivity.
Qed.

Lemma setopt_USERAGENT_run o c t s :
  cstring_of (heap s) c = Some t ->
  setopt_USERAGENT o c s =
  (Done (Options (CURLOPT_URL o) (CURLOPT_POSTFIELDS o) (Some t)
           (CURLOPT_POST o) (CURLOPT_POSTFIELDSIZE o) (CURLOPT_HTTPHEADER o)
           (CURLOPT_READDATA o)), s).
Proof.
  intros Hc. unfold setopt_USERAGENT.
  rewrite (bind_done _ _ _ _ _ (copied_run c t s Hc)). reflexivity.
Qed.

(** A transfer on a live handle, with an empty [chunk]: the pieces of the
    reply go through the callback, and the code is libcurl's. *)
Lemma perform_run w net c l o post headers pieces code s :
  heap s !! c = Some l ->
  pointed (CURLOPT_POSTFIELDS o) s = (Done post, s) ->
  pointed (At (CURLOPT_HTTPHEADER o)) s = (Done headers, s) ->
  transfer net
    (Request (CURLOPT_URL o) post (CURLOPT_USERAGENT o) (CURLOPT_POST o)
       (CURLOPT_POSTFIELDSIZE o) headers (CURLOPT_READDATA o))
  = (pieces, code) ->
  Z.of_nat (length (concat pieces)) + 1 < 2 ^ 64 ->
  curl_easy_perform w net (Ptr c 0) o (MemoryStruct.Make NULL 0) s =
  (Done (code, fst (delivered pieces (MemoryStruct.Make NULL 0) [] s)),
   snd (delivered pieces (MemoryStruct.Make NULL 0) [] s)).
Proof.
  intros Hc Hpost Hheaders Htransfer Hbound. unfold curl_easy_perform.
  rewrite (bind_done _ _ _ _ _ (capacity_run c 0 l s Hc)).
  rewrite (bind_done _ _ _ _ _ Hpost).
  rewrite (bind_done _ _ _ _ _ Hheaders).
  cbv zeta. rewrite Htransfer. cbn [fst snd].
  rewrite (bind_done _ _ _ _ _
             (deliver_run w pieces (MemoryStruct.Make NULL 0) [] s
                ltac:(split; reflexivity) ltac:(cbn [length]; size_lia))).
  reflexivity.
Qed.

(** ** [oauth_curl_post] *)

Lemma curl_post_run w net u p url body pieces code s :
  wf s -> init_works net = true ->
  cstring_of (heap s) u = Some url -> cstring_of (heap s) p = Some body ->
  transfer net
    (Request (Some url) (Some body) (Some (before_nul (OAUTH_USER_AGENT w)))
       false None None NULL)
  = (pieces, code) ->
  Z.of_nat (length (concat pieces)) + 1 < 2 ^ 64 ->
  oauth_curl_post w net u p s =
  let r := delivered pieces (MemoryStruct.Make NULL 0) []
             (State (<[next s := fresh_bytes w (next s) 0 1]> (heap s))
                    (S (next s)) (trace s)) in
  if code =? 0
  then (Done (MemoryStruct.data (fst r)),
        State (delete (next s) (heap (snd r))) (next (snd r)) (trace (snd r)))
  else (Done NULL, snd r).
Proof.
  intros Hwf Hinit Hu Hp Htransfer Hbound.
  pose proof (wf_below _ _ _ Hwf Hu) as Bu.
  pose proof (wf_below _ _ _ Hwf Hp) as Bp.
  unfold oauth_curl_post, curl_easy_init. rewrite Hinit. cbv zeta.
  unfold bind at 1. unfold malloc at 1. cbn [is_null].
  set (s1 := State _ _ _).
  assert (agree (next s) (heap s) (heap s1)) as Hag
    by (unfold s1; solve_agree).
  assert (cstring_of (heap s1) u = Some url) as Hu1
    by (rewrite (cstring_of_agree (next s) (heap s)); assumption).
  assert (cstring_of (heap s1) p = Some body) as Hp1
    by (rewrite (cstring_of_agree (next s) (heap s)); assumption).
  rewrite (bind_done _ _ _ _ _ (setopt_URL_run no_options u url s1 Hu1)).
  rewrite (bind_done _ _ _ _ _
             (setopt_USERAGENT_run _ (Lit (OAUTH_USER_AGENT w)) _ s1 eq_refl)).
  cbn [setopt_POSTFIELDS no_options CURLOPT_URL CURLOPT_POSTFIELDS
         CURLOPT_USERAGENT CURLOPT_POST CURLOPT_POSTFIELDSIZE
         CURLOPT_HTTPHEADER CURLOPT_READDATA].
  rewrite (bind_done _ _ _ _ _
             (perform_run w net (next s) (fresh_bytes w (next s) 0 1)
                (Options (Some url) p
                   (Some (before_nul (OAUTH_USER_AGENT w))) false None
                   NULL NULL)
                (Some body) None pieces code s1
                ltac:(apply lookup_insert_eq)
                (pointed_run p body s1 Hp1) eq_refl Htransfer Hbound)).
  cbn [fst snd]. destruct (code =? 0); cbn [negb]; [|reflexivity].
  set (r := delivered _ _ _ _).
  assert (heap (snd r) !! next s = Some (fresh_bytes w (next s) 0 1)) as Hh.
  { unfold r. destruct pieces; cbn [delivered snd heap chunk_block
                                      MemoryStruct.data].
    - apply lookup_insert_eq.
    - unfold s1 at 1. cbn [next]. rewrite lookup_insert_ne by lia.
      apply lookup_insert_eq. }
  unfold curl_easy_cleanup.
  rewrite (bind_done _ _ _ _ _ (free_run _ _ _ Hh)). reflexivity.
Qed.

(** X9.  A POST through cURL that libcurl reports as done (code 0):
    libcurl was given the URL, the body as [CURLOPT_POSTFIELDS] and the
    user agent [liboauth-agent/VERSION]; the result is a buffer that holds
    the pieces of the reply in order and a terminator, and the store is
    the store before the call with this buffer added (the handle is
    gone).  A reply with no piece at all gives NULL, the result the
    documentation keeps for errors. *)
Theorem curl_post_returns_reply w net u p url body pieces s :
  wf s -> init_works net = true ->
  cstring_of (heap s) u = Some url -> cstring_of (heap s) p = Some body ->
  transfer net
    (Request (Some url) (Some body) (Some (before_nul (OAUTH_USER_AGENT w)))
       false None None NULL)
  = (pieces, 0) ->
  Z.of_nat (length (concat pieces)) + 1 < 2 ^ 64 ->
  oauth_curl_post w net u p s =
  match pieces with
  | [] => (Done NULL, State (heap s) (S (next s)) (trace s))
  | _ :: _ =>
      (Done (Ptr (S (next s)) 0),
       State (<[S (next s) := concat pieces ++ [NUL]]> (heap s))
             (S (S (next s))) (trace s))
  end.
Proof.
  intros Hwf Hinit Hu Hp Htransfer Hbound.
  rewrite (curl_post_run w net u p url body pieces 0 s
             Hwf Hinit Hu Hp Htransfer Hbound).
  cbv zeta. change (0 =? 0) with true. cbv iota.
  destruct pieces as [|piece rest];
    cbn [delivered fst snd heap next trace MemoryStruct.data chunk_block
           chunk_next app];
    f_equal; f_equal; heap_eq Hwf.
Qed.

Lemma curl_post_returns_reply_witness :
  oauth_curl_post (Sample.glibc Sample.unset Sample.shell Sample.recycled)
    (SampleNet.replies [str "oauth_token=a"; str "&oauth_token_secret=b"] 0)
    (Lit (str "http://h/r")) (Lit (str "a=1")) Sample.empty
  = (Done (Ptr (S (next Sample.empty)) 0),
     State (<[S (next Sample.empty) :=
                concat [str "oauth_token=a"; str "&oauth_token_secret=b"]
                ++ [NUL]]> (heap Sample.empty))
           (S (S (next Sample.empty))) (trace Sample.empty)).
Proof.
  apply (curl_post_returns_reply
           (Sample.glibc Sample.unset Sample.shell Sample.recycled)
           (SampleNet.replies
              [str "oauth_token=a"; str "&oauth_token_secret=b"] 0)
           (Lit (str "http://h/r")) (Lit (str "a=1"))
           (str "http://h/r") (str "a=1")
           [str "oauth_token=a"; str "&oauth_token_secret=b"] Sample.empty).
  - intros b _. apply lookup_empty.
  - reflexivity.
  - reflexivity.
  - reflexivity.
  - reflexivity.
  - vm_compute. reflexivity.
Defined.

(** X10.  A POST through cURL that libcurl reports as failed: the call
    returns NULL straight from the test of the code, without
    [curl_easy_cleanup] and without freeing [chunk.data]: the handle is
    still allocated afterwards, and so is the part of the reply that had
    arrived, which the caller cannot reach. *)
Theorem curl_post_failure_cleans_nothing w net u p url body pieces code s :
  wf s -> init_works net = true ->
  cstring_of (heap s) u = Some url -> cstring_of (heap s) p = Some body ->
  transfer net
    (Request (Some url) (Some body) (Some (before_nul (OAUTH_USER_AGENT w)))
       false None None NULL)
  = (pieces, code) ->
  Z.of_nat (length (concat pieces)) + 1 < 2 ^ 64 ->
  code <> 0 ->
  fst (oauth_curl_post w net u p s) = Done NULL
  /\ heap (snd (oauth_curl_post w net u p s)) !! next s
     = Some (fresh_bytes w (next s) 0 1)
  /\ match pieces with
     | [] => next (snd (oauth_curl_post w net u p s)) = S (next s)
     | _ :: _ =>
         heap (snd (oauth_curl_post w net u p s)) !! S (next s)
         = Some (concat pieces ++ [NUL])
     end.
Proof.
  intros Hwf Hinit Hu Hp Htransfer Hbound Hcode.
  rewrite (curl_post_run w net u p url body pieces code s
             Hwf Hinit Hu Hp Htransfer Hbound).
  cbv zeta. apply Z.eqb_neq in Hcode. rewrite Hcode.
  destruct pieces as [|piece rest];
    cbn [delivered fst snd heap next trace MemoryStruct.data chunk_block
           chunk_next app].
  - split; [reflexivity|]. split; [apply lookup_insert_eq | reflexivity].
  - split; [reflexivity|]. split.
    + rewrite lookup_insert_ne by lia. apply lookup_insert_eq.
    + apply lookup_insert_eq.
Qed.

Lemma curl_post_failure_cleans_nothing_witness :
  fst (oauth_curl_post
         (Sample.glibc Sample.unset Sample.shell Sample.recycled)
         (SampleNet.replies [str "<html>"] SampleNet.couldnt_connect)
         (Lit (str "http://h/r")) (Lit (str "a=1")) Sample.empty)
  = Done NULL
  /\ heap (snd (oauth_curl_post
                  (Sample.glibc Sample.unset Sample.shell Sample.recycled)
                  (SampleNet.replies [str "<html>"] SampleNet.couldnt_connect)
                  (Lit (str "http://h/r")) (Lit (str "a=1")) Sample.empty))
     !! next Sample.empty
     = Some (fresh_bytes
               (Sample.glibc Sample.unset Sample.shell Sample.recycled)
               (next Sample.empty) 0 1)
  /\ heap (snd (oauth_curl_post
                  (Sample.glibc Sample.unset Sample.shell Sample.recycled)
                  (SampleNet.replies [str "<html>"] SampleNet.couldnt_connect)
                  (Lit (str "http://h/r")) (Lit (str "a=1")) Sample.empty))
     !! S (next Sample.empty)
     = Some (concat [str "<html>"] ++ [NUL]).
Proof.
  apply (curl_post_failure_cleans_nothing
           (Sample.glibc Sample.unset Sample.shell Sample.recycled)
           (SampleNet.replies [str "<html>"] SampleNet.couldnt_connect)
           (Lit (str "http://h/r")) (Lit (str "a=1"))
           (str "http://h/r") (str "a=1") [str "<html>"]
           SampleNet.couldnt_connect Sample.empty).
  - intros b _. apply lookup_empty.
  - reflexivity.
  - reflexivity.
  - reflexivity.
  - reflexivity.
  - vm_compute. reflexivity.
  - discriminate.
Defined.

(** ** [oauth_curl_get] *)

(** [t1 = xmalloc(strlen(u)+strlen(q)+2)] and the three [strcat], on a
    block that begins with a NUL: the block is filled exactly by the URL,
    the question mark, the query and the terminator. *)
Lemma url_query_run w u q url qs s :
  wf s ->
  cstring_of (heap s) u = Some url -> cstring_of (heap s) q = Some qs ->
  uninit w (next s) 0 = NUL ->
  Z.of_nat (length url) + Z.of_nat (length qs) + 2 < 2 ^ 64 ->
  (n1 <- strlen u ;;
   n2 <- strlen q ;;
   t1 <- xmalloc w (size_t (1 * size_t (size_t (n1 + n2) + 2))) ;;
   strcat t1 u ;;;
   strcat t1 (Lit (str "?")) ;;;
   strcat t1 q ;;;
   ret t1) s
  = (Done (Ptr (next s) 0),
     State (<[next s := (url ++ str "?" ++ qs) ++ [NUL]]> (heap s))
           (S (next s)) (trace s)).
Proof.
  intros Hwf Hu Hq Hzero Hwrap.
  pose proof (cstring_of_nonul _ _ _ Hu) as Hnu.
  pose proof (cstring_of_nonul _ _ _ Hq) as Hnq.
  pose proof (wf_below _ _ _ Hwf Hu) as Bu.
  pose proof (wf_below _ _ _ Hwf Hq) as Bq.
  rewrite (bind_done _ _ _ _ _ (strlen_run u url s Hu)).
  rewrite (bind_done _ _ _ _ _ (strlen_run q qs s Hq)).
  rewrite Z.mul_1_l.
  rewrite (size_t_small (Z.of_nat (length url) + Z.of_nat (length qs)))
    by size_lia.
  rewrite (size_t_small (Z.of_nat (length url) + Z.of_nat (length qs) + 2))
    by size_lia.
  rewrite size_t_small by size_lia.
  unfold xmalloc. unfold bind at 1. unfold malloc at 1.
  replace (Z.to_nat (Z.of_nat (length url) + Z.of_nat (length qs) + 2))
    with (S (length url + length qs + 1)) by lia.
  unfold fresh_bytes at 1. cbn [seq map]. rewrite Hzero.
  set (R := map _ _).
  assert (length R = length url + length qs + 1)%nat as HR
    by (unfold R; rewrite length_map, length_seq; reflexivity).
  set (s4 := State (<[next s := _]> (heap s)) _ _).
  assert (agree (next s) (heap s) (heap s4)) as Hag4
    by (unfold s4; solve_agree).
  assert (cstring_of (heap s4) u = Some url) as Hu4
    by (rewrite (cstring_of_agree (next s) (heap s)); assumption).
  rewrite (bind_done _ _ _ _ _
             (strcat_run (next s) [] R u url s4
                ltac:(apply lookup_insert_eq) ltac:(apply not_elem_of_nil)
                Hu4 ltac:(lia))).
  set (s5 := State (<[next s := _]> (heap s4)) _ _).
  rewrite (bind_done _ _ _ _ _
             (strcat_run (next s) ([] ++ url) _ (Lit (str "?"))
                (str "?") s5
                ltac:(apply lookup_insert_eq) ltac:(exact Hnu)
                eq_refl ltac:(rewrite length_drop; simpl; lia))).
  set (s6 := State (<[next s := _]> (heap s5)) _ _).
  assert (agree (next s) (heap s) (heap s6)) as Hag6
    by (unfold s6, s5, s4; solve_agree).
  assert (cstring_of (heap s6) q = Some qs) as Hq6
    by (rewrite (cstring_of_agree (next s) (heap s)); assumption).
  assert (NUL ∉ ([] ++ url) ++ str "?") as Hnuq.
  { rewrite !not_elem_of_app. repeat split;
      [apply not_elem_of_nil | exact Hnu |].
    cbn. rewrite not_elem_of_cons. split;
      [discriminate | apply not_elem_of_nil]. }
  rewrite (bind_done _ _ _ _ _
             (strcat_run (next s) (([] ++ url) ++ str "?") _ q qs s6
                ltac:(apply lookup_insert_eq) Hnuq Hq6
                ltac:(rewrite !length_drop; simpl; lia))).
  unfold ret. unfold s6, s5, s4. cbn [heap next trace].
  rewrite !insert_insert_eq. f_equal. f_equal. f_equal.
  rewrite (drop_ge (drop _ (drop _ R)))
    by (rewrite !length_drop; simpl; lia).
  cbn [app]. rewrite <- !app_assoc. reflexivity.
Qed.

Lemma free_then {A} (k : M A) b l s :
  heap s !! b = Some l ->
  (free (Ptr b 0) ;;; k) s = k (State (delete b (heap s)) (next s) (trace s)).
Proof. intros Hb. exact (bind_done _ (fun _ => k) s tt _ (free_run b l s Hb)). Qed.

(** Looking up a block in a store written as inserts and deletes. *)
Ltac find_block :=
  cbn [heap next];
  repeat first [ rewrite lookup_delete_ne by lia
               | rewrite lookup_insert_ne by lia ];
  apply lookup_insert_eq.

(** X11.  [oauth_curl_get] with a query builds the URL before it asks for
    a handle; when [curl_easy_init] fails it returns NULL at once, before
    [if (q) free(t1)]: the block of the joined URL is still allocated
    after the call. *)
Theorem curl_get_init_failure_keeps_url w net u q url qs s :
  wf s -> init_works net = false ->
  cstring_of (heap s) u = Some url -> cstring_of (heap s) q = Some qs ->
  uninit w (next s) 0 = NUL ->
  Z.of_nat (length url) + Z.of_nat (length qs) + 2 < 2 ^ 64 ->
  oauth_curl_get w net u q s =
  (Done NULL,
   State (<[next s := (url ++ str "?" ++ qs) ++ [NUL]]> (heap s))
         (S (next s)) (trace s)).
Proof.
  intros Hwf Hinit Hu Hq Hzero Hwrap.
  unfold oauth_curl_get. rewrite (readable_not_null _ _ _ Hq).
  rewrite (bind_done _ _ _ _ _
             (url_query_run w u q url qs s Hwf Hu Hq Hzero Hwrap)).
  cbv zeta. unfold curl_easy_init. rewrite Hinit. reflexivity.
Qed.

Lemma curl_get_init_failure_keeps_url_witness :
  oauth_curl_get (Sample.glibc Sample.unset Sample.shell Sample.zeroed)
    SampleNet.no_handle (Lit (str "http://h/r")) (Lit (str "a=1"))
    Sample.empty
  = (Done NULL,
     State (<[next Sample.empty :=
                (str "http://h/r" ++ str "?" ++ str "a=1") ++ [NUL]]>
              (heap Sample.empty))
           (S (next Sample.empty)) (trace Sample.empty)).
Proof.
  apply (curl_get_init_failure_keeps_url
           (Sample.glibc Sample.unset Sample.shell Sample.zeroed)
           SampleNet.no_handle (Lit (str "http://h/r")) (Lit (str "a=1"))
           (str "http://h/r") (str "a=1") Sample.empty).
  - intros b _. apply lookup_empty.
  - reflexivity.
  - reflexivity.
  - reflexivity.
  - reflexivity.
  - vm_compute. reflexivity.
Defined.

(** X12.  A GET through cURL that libcurl reports as done: the URL
    libcurl was given is the effective URL ([u], or [u?q]), with no
    [CURLOPT_POSTFIELDS]; the result is the buffer of the reply, and the
    store is the store before the call with this buffer added: the block
    of the joined URL and the handle are gone.  With a query this needs
    the block [xmalloc] hands out to begin with a NUL. *)
Theorem curl_get_returns_reply w net u q url query pieces s :
  wf s -> init_works net = true ->
  cstring_of (heap s) u = Some url ->
  match query with
  | None => q = At NULL
  | Some qs =>
      cstring_of (heap s) q = Some qs
      /\ uninit w (next s) 0 = NUL
      /\ Z.of_nat (length url) + Z.of_nat (length qs) + 2 < 2 ^ 64
  end ->
  transfer net
    (Request (Some (effective_url url query)) None
       (Some (before_nul (OAUTH_USER_AGENT w))) false None None NULL)
  = (pieces, 0) ->
  Z.of_nat (length (concat pieces)) + 1 < 2 ^ 64 ->
  let b := match query with
           | Some _ => S (S (next s))
           | None => S (next s)
           end in
  oauth_curl_get w net u q s =
  match pieces with
  | [] => (Done NULL, State (heap s) b (trace s))
  | _ :: _ =>
      (Done (Ptr b 0),
       State (<[b := concat pieces ++ [NUL]]> (heap s)) (S b) (trace s))
  end.
Proof.
  intros Hwf Hinit Hu Hq Htransfer Hbound b.
  pose proof (cstring_of_nonul _ _ _ Hu) as Hnu.
  pose proof (wf_below _ _ _ Hwf Hu) as Bu.
  unfold oauth_curl_get.
  destruct query as [qs|].
  - destruct Hq as (Hq & Hzero & Hwrap).
    pose proof (cstring_of_nonul _ _ _ Hq) as Hnq.
    rewrite (readable_not_null _ _ _ Hq).
    rewrite (bind_done _ _ _ _ _
               (url_query_run w u q url qs s Hwf Hu Hq Hzero Hwrap)).
    cbv zeta. unfold curl_easy_init. rewrite Hinit.
    unfold bind at 1. unfold malloc at 1. cbn [is_null next heap trace].
    set (s1 := State _ _ _).
    assert (cstring_of (heap s1) (At (Ptr (next s) 0))
            = Some (url ++ str "?" ++ qs)) as Ht1.
    { eapply cstring_at_block.
      - unfold s1. cbn [heap]. rewrite lookup_insert_ne by lia.
        apply lookup_insert_eq.
      - rewrite !not_elem_of_app. repeat split; try assumption.
        cbn. rewrite not_elem_of_cons. split;
          [discriminate | apply not_elem_of_nil]. }
    rewrite (bind_done _ _ _ _ _ (setopt_URL_run no_options _ _ s1 Ht1)).
    rewrite (bind_done _ _ _ _ _
               (setopt_USERAGENT_run _ (Lit (OAUTH_USER_AGENT w)) _ s1
                  eq_refl)).
    cbn [no_options CURLOPT_URL CURLOPT_POSTFIELDS CURLOPT_USERAGENT
           CURLOPT_POST CURLOPT_POSTFIELDSIZE CURLOPT_HTTPHEADER
           CURLOPT_READDATA].
    rewrite (bind_done _ _ _ _ _
               (perform_run w net (S (next s))
                  (fresh_bytes w (S (next s)) 0 1)
                  (Options (Some (url ++ str "?" ++ qs)) (At NULL)
                     (Some (before_nul (OAUTH_USER_AGENT w))) false None
                     NULL NULL)
                  None None pieces 0 s1
                  ltac:(apply lookup_insert_eq) eq_refl eq_refl
                  Htransfer Hbound)).
    cbn [fst snd]. change (negb (0 =? 0)) with false. cbv iota.
    unfold curl_easy_cleanup.
    destruct pieces as [|piece rest];
      cbn [delivered fst snd MemoryStruct.data chunk_block chunk_next];
      unfold s1; cbn [heap next trace].
    + erewrite (free_then _ (next s)) by find_block.
      erewrite (free_then _ (S (next s))) by find_block.
      unfold ret, b. cbn [heap next trace]. f_equal. f_equal. heap_eq Hwf.
    + erewrite (free_then _ (next s)) by find_block.
      erewrite (free_then _ (S (next s))) by find_block.
      unfold ret, b. cbn [heap next trace app]. f_equal. f_equal.
      heap_eq Hwf.
  - subst q. cbn [cstr_is_null effective_url] in *.
    unfold ret at 1. unfold bind at 1. cbv beta iota zeta.
    unfold curl_easy_init. rewrite Hinit.
    unfold bind at 1. unfold malloc at 1. cbn [is_null].
    set (s1 := State _ _ _).
    assert (cstring_of (heap s1) u = Some url) as Hu1.
    { rewrite (cstring_of_agree (next s) (heap s)); [exact Hu| |exact Bu].
      unfold s1. solve_agree. }
    rewrite (bind_done _ _ _ _ _ (setopt_URL_run no_options _ _ s1 Hu1)).
    rewrite (bind_done _ _ _ _ _
               (setopt_USERAGENT_run _ (Lit (OAUTH_USER_AGENT w)) _ s1
                  eq_refl)).
    cbn [no_options CURLOPT_URL CURLOPT_POSTFIELDS CURLOPT_USERAGENT
           CURLOPT_POST CURLOPT_POSTFIELDSIZE CURLOPT_HTTPHEADER
           CURLOPT_READDATA].
    rewrite (bind_done _ _ _ _ _
               (perform_run w net (next s) (fresh_bytes w (next s) 0 1)
                  (Options (Some url) (At NULL)
                     (Some (before_nul (OAUTH_USER_AGENT w))) false None
                     NULL NULL)
                  None None pieces 0 s1
                  ltac:(apply lookup_insert_eq) eq_refl eq_refl
                  Htransfer Hbound)).
    cbn [fst snd]. change (negb (0 =? 0)) with false. cbv iota.
    unfold curl_easy_cleanup.
    unfold ret at 1. unfold bind at 1. cbv beta iota.
    destruct pieces as [|piece rest];
      cbn [delivered fst snd MemoryStruct.data chunk_block chunk_next];
      unfold s1; cbn [heap next trace].
    + erewrite (free_then _ (next s)) by find_block.
      unfold ret, b. cbn [heap next trace]. f_equal. f_equal. heap_eq Hwf.
    + erewrite (free_then _ (next s)) by find_block.
      unfold ret, b. cbn [heap next trace app]. f_equal. f_equal.
      heap_eq Hwf.
Qed.

Lemma curl_get_returns_reply_witness :
  oauth_curl_get (Sample.glibc Sample.unset Sample.shell Sample.zeroed)
    (SampleNet.replies [str "oauth_token=a"; str "&oauth_token_secret=b"] 0)
    (Lit (str "http://h/r")) (Lit (str "a=1")) Sample.empty
  = (Done (Ptr (S (S (next Sample.empty))) 0),
     State (<[S (S (next Sample.empty)) :=
                concat [str "oauth_token=a"; str "&oauth_token_secret=b"]
                ++ [NUL]]> (heap Sample.empty))
           (S (S (S (next Sample.empty)))) (trace Sample.empty)).
Proof.
  apply (curl_get_returns_reply
           (Sample.glibc Sample.unset Sample.shell Sample.zeroed)
           (SampleNet.replies
              [str "oauth_token=a"; str "&oauth_token_secret=b"] 0)
           (Lit (str "http://h/r")) (Lit (str "a=1"))
           (str "http://h/r") (Some (str "a=1"))
           [str "oauth_token=a"; str "&oauth_token_secret=b"] Sample.empty).
  - intros b _. apply lookup_empty.
  - reflexivity.
  - reflexivity.
  - split; [reflexivity|]. split; [reflexivity|]. vm_compute. reflexivity.
  - reflexivity.
  - vm_compute. reflexivity.
Defined.

(** ** [oauth_curl_post_file] *)

Lemma stat_run net fn path s :
  cstring_of (heap s) fn = Some path ->
  stat net fn s = (Done (st_size net path), s).
Proof.
  intros Hfn. unfold stat.
  rewrite (bind_done _ _ _ _ _ (read_cstr_run _ _ _ Hfn)). reflexivity.
Qed.

(** The function up to [fopen]: the header has been copied into a list,
    and the length is the one given, or the size [stat] reports. *)
Lemma post_file_prologue {A} w net (k : ptr -> option Z -> M A)
    fn path (len : Z) customheader hdr s :
  wf s ->
  cstring_of (heap s)
    (if cstr_is_null customheader then Lit image_jpeg else customheader)
  = Some hdr ->
  cstring_of (heap s) fn = Some path ->
  (slist <- (if cstr_is_null customheader
             then curl_slist_append w NULL (Lit image_jpeg)
             else curl_slist_append w NULL customheader) ;;
   len <- (if len =? 0 then
             sz <- stat net fn ;;
             ret (match sz with
                  | Some n => Some (size_t n)
                  | None => None
                  end)
           else ret (Some len)) ;;
   k slist len) s
  = k (Ptr (next s) 0)
      (if len =? 0 then option_map size_t (st_size net path) else Some len)
      (State (<[next s := hdr ++ [NUL]]> (heap s)) (S (next s)) (trace s)).
Proof.
  intros Hwf Hhdr Hfn.
  pose proof (wf_below _ _ _ Hwf Hfn) as Bfn.
  assert ((if cstr_is_null customheader
           then curl_slist_append w NULL (Lit image_jpeg)
           else curl_slist_append w NULL customheader)
          = strdup w (if cstr_is_null customheader then Lit image_jpeg
                      else customheader)) as ->
    by (destruct (cstr_is_null customheader); reflexivity).
  rewrite (bind_done _ _ _ _ _ (strdup_run w _ hdr s Hhdr)).
  set (s1 := State _ _ _).
  assert (cstring_of (heap s1) fn = Some path) as Hfn1.
  { rewrite (cstring_of_agree (next s) (heap s)); [exact Hfn| |exact Bfn].
    unfold s1. solve_agree. }
  destruct (len =? 0).
  - rewrite bind_assoc, (bind_done _ _ _ _ _ (stat_run net fn path s1 Hfn1)).
    unfold ret at 1. unfold bind at 1. cbv beta iota.
    destruct (st_size net path); reflexivity.
  - reflexivity.
Qed.

Lemma fopen_run w net fn path s :
  cstring_of (heap s) fn = Some path ->
  fopen w net fn s =
  (if fopen_works net path then malloc w 1 else ret NULL) s.
Proof.
  intros Hfn. unfold fopen.
  rewrite (bind_done _ _ _ _ _ (read_cstr_run _ _ _ Hfn)). reflexivity.
Qed.

(** X13.  [oauth_curl_post_file] copies the header into a list before it
    looks at the file.  When the length is to be detected and [stat]
    fails, or when [fopen] fails, it returns NULL at once: the list is
    still allocated after the call, and nothing else has changed. *)
Theorem post_file_early_return_keeps_list
    w net u fn len customheader path hdr s :
  wf s ->
  cstring_of (heap s)
    (if cstr_is_null customheader then Lit image_jpeg else customheader)
  = Some hdr ->
  cstring_of (heap s) fn = Some path ->
  (len = 0 /\ st_size net path = None) \/ fopen_works net path = false ->
  oauth_curl_post_file w net u fn len customheader s =
  (Done NULL,
   State (<[next s := hdr ++ [NUL]]> (heap s)) (S (next s)) (trace s)).
Proof.
  intros Hwf Hhdr Hfn Hcase.
  pose proof (wf_below _ _ _ Hwf Hfn) as Bfn.
  unfold oauth_curl_post_file. cbv zeta.
  rewrite (post_file_prologue w net _ fn path len customheader hdr s
             Hwf Hhdr Hfn).
  set (s1 := State _ _ _).
  assert (cstring_of (heap s1) fn = Some path) as Hfn1.
  { rewrite (cstring_of_agree (next s) (heap s)); [exact Hfn| |exact Bfn].
    unfold s1. solve_agree. }
  destruct Hcase as [[-> Hstat]|Hfopen].
  - change (0 =? 0) with true. cbv iota. rewrite Hstat. reflexivity.
  - destruct (if len =? 0 then option_map size_t (st_size net path)
              else Some len) as [n|]; [|reflexivity].
    rewrite (bind_done _ (fun f => if is_null f then _ else _) s1 NULL s1).
    + reflexivity.
    + rewrite (fopen_run w net fn path s1 Hfn1), Hfopen. reflexivity.
Qed.

Lemma post_file_early_return_keeps_list_witness :
  oauth_curl_post_file
    (Sample.glibc Sample.unset Sample.shell Sample.recycled)
    (SampleNet.with_file [] 0 None true)
    (Lit (str "http://h/r")) (Lit (str "photo.jpg")) 0 (At NULL)
    Sample.empty
  = (Done NULL,
     State (<[next Sample.empty := image_jpeg ++ [NUL]]> (heap Sample.empty))
           (S (next Sample.empty)) (trace Sample.empty)).
Proof.
  apply (post_file_early_return_keeps_list
           (Sample.glibc Sample.unset Sample.shell Sample.recycled)
           (SampleNet.with_file [] 0 None true)
           (Lit (str "http://h/r")) (Lit (str "photo.jpg")) 0 (At NULL)
           (str "photo.jpg") image_jpeg Sample.empty).
  - intros b _. apply lookup_empty.
  - reflexivity.
  - reflexivity.
  - left. split; reflexivity.
Defined.

(** X14.  When the file has been opened and [curl_easy_init] fails,
    [oauth_curl_post_file] returns NULL without [fclose]: the [FILE] is
    still open after the call, and the header list still allocated. *)
Theorem post_file_init_failure_keeps_file
    w net u fn len customheader path hdr n s :
  wf s ->
  cstring_of (heap s)
    (if cstr_is_null customheader then Lit image_jpeg else customheader)
  = Some hdr ->
  cstring_of (heap s) fn = Some path ->
  (if len =? 0 then option_map size_t (st_size net path) else Some len)
  = Some n ->
  fopen_works net path = true -> init_works net = false ->
  oauth_curl_post_file w net u fn len customheader s =
  (Done NULL,
   State (<[S (next s) := fresh_bytes w (S (next s)) 0 1]>
            (<[next s := hdr ++ [NUL]]> (heap s)))
         (S (S (next s))) (trace s)).
Proof.
  intros Hwf Hhdr Hfn Hlen Hfopen Hinit.
  pose proof (wf_below _ _ _ Hwf Hfn) as Bfn.
  unfold oauth_curl_post_file. cbv zeta.
  rewrite (post_file_prologue w net _ fn path len customheader hdr s
             Hwf Hhdr Hfn).
  rewrite Hlen.
  set (s1 := State _ _ _).
  assert (cstring_of (heap s1) fn = Some path) as Hfn1.
  { rewrite (cstring_of_agree (next s) (heap s)); [exact Hfn| |exact Bfn].
    unfold s1. solve_agree. }
  rewrite (bind_done _ (fun f => if is_null f then _ else _) s1
             (Ptr (next s1) 0)
             (State (<[next s1 := fresh_bytes w (next s1) 0 1]> (heap s1))
                    (S (next s1)) (trace s1))).
  - cbn [is_null]. unfold curl_easy_init. rewrite Hinit. reflexivity.
  - rewrite (fopen_run w net fn path s1 Hfn1), Hfopen. reflexivity.
Qed.

Lemma post_file_init_failure_keeps_file_witness :
  oauth_curl_post_file
    (Sample.glibc Sample.unset Sample.shell Sample.recycled)
    SampleNet.file_but_no_handle
    (Lit (str "http://h/r")) (Lit (str "photo.jpg")) 0 (At NULL)
    Sample.empty
  = (Done NULL,
     State (<[S (next Sample.empty) :=
                fresh_bytes
                  (Sample.glibc Sample.unset Sample.shell Sample.recycled)
                  (S (next Sample.empty)) 0 1]>
              (<[next Sample.empty := image_jpeg ++ [NUL]]>
                 (heap Sample.empty)))
           (S (S (next Sample.empty))) (trace Sample.empty)).
Proof.
  apply (post_file_init_failure_keeps_file
           (Sample.glibc Sample.unset Sample.shell Sample.recycled)
           SampleNet.file_but_no_handle
           (Lit (str "http://h/r")) (Lit (str "photo.jpg")) 0 (At NULL)
           (str "photo.jpg") image_jpeg 3 Sample.empty).
  - intros b _. apply lookup_empty.
  - reflexivity.
  - reflexivity.
  - reflexivity.
  - reflexivity.
  - reflexivity.
Defined.

(** X15.  A file posted through cURL, when libcurl reports the transfer
    as done: libcurl was given the URL, [CURLOPT_POST], the length (the
    one passed, or the size [stat] reports when 0 was passed), the header
    (the custom one, or [Content-Type: image/jpeg;]), the open file to
    read from, and no [CURLOPT_POSTFIELDS].  The result is the buffer of
    the reply; the file has been closed and the handle released, but the
    header list is still allocated. *)
Theorem post_file_returns_reply
    w net u fn len customheader url path hdr n pieces s :
  wf s -> init_works net = true ->
  cstring_of (heap s) u = Some url ->
  cstring_of (heap s)
    (if cstr_is_null customheader then Lit image_jpeg else customheader)
  = Some hdr ->
  cstring_of (heap s) fn = Some path ->
  (if len =? 0 then option_map size_t (st_size net path) else Some len)
  = Some n ->
  fopen_works net path = true ->
  transfer net
    (Request (Some url) None (Some (before_nul (OAUTH_USER_AGENT w)))
       true (Some n) (Some hdr) (Ptr (S (next s)) 0))
  = (pieces, 0) ->
  Z.of_nat (length (concat pieces)) + 1 < 2 ^ 64 ->
  oauth_curl_post_file w net u fn len customheader s =
  match pieces with
  | [] =>
      (Done NULL,
       State (<[next s := hdr ++ [NUL]]> (heap s))
             (S (S (S (next s)))) (trace s))
  | _ :: _ =>
      (Done (Ptr (S (S (S (next s)))) 0),
       State (<[S (S (S (next s))) := concat pieces ++ [NUL]]>
                (<[next s := hdr ++ [NUL]]> (heap s)))
             (S (S (S (S (next s))))) (trace s))
  end.
Proof.
  intros Hwf Hinit Hu Hhdr Hfn Hlen Hfopen Htransfer Hbound.
  pose proof (wf_below _ _ _ Hwf Hfn) as Bfn.
  pose proof (wf_below _ _ _ Hwf Hu) as Bu.
  pose proof (cstring_of_nonul _ _ _ Hhdr) as Hnh.
  unfold oauth_curl_post_file. cbv zeta.
  rewrite (post_file_prologue w net _ fn path len customheader hdr s
             Hwf Hhdr Hfn).
  rewrite Hlen.
  set (s1 := State _ _ _).
  assert (cstring_of (heap s1) fn = Some path) as Hfn1.
  { rewrite (cstring_of_agree (next s) (heap s)); [exact Hfn| |exact Bfn].
    unfold s1. solve_agree. }
  rewrite (bind_done _ (fun f => if is_null f then _ else _) s1
             (Ptr (next s1) 0)
             (State (<[next s1 := fresh_bytes w (next s1) 0 1]> (heap s1))
                    (S (next s1)) (trace s1)));
    [|rewrite (fopen_run w net fn path s1 Hfn1), Hfopen; reflexivity].
  cbn [is_null]. unfold curl_easy_init. rewrite Hinit.
  unfold bind at 1. unfold malloc at 1. cbn [is_null].
  unfold s1. cbn [heap next trace].
  set (s3 := State _ _ _).
  assert (agree (next s) (heap s) (heap s3)) as Hag
    by (unfold s3; solve_agree).
  assert (cstring_of (heap s3) u = Some url) as Hu3
    by (rewrite (cstring_of_agree (next s) (heap s)); assumption).
  assert (cstring_of (heap s3) (At (Ptr (next s) 0)) = Some hdr) as Hh3.
  { apply (cstring_at_block _ (next s) hdr []); [|exact Hnh].
    unfold s3. find_block. }
  rewrite (bind_done _ _ _ _ _ (setopt_URL_run no_options u url s3 Hu3)).
  rewrite (bind_done _ _ _ _ _
             (setopt_USERAGENT_run _ (Lit (OAUTH_USER_AGENT w)) _ s3
                eq_refl)).
  cbn [no_options setopt_POST setopt_POSTFIELDSIZE setopt_HTTPHEADER
         setopt_READDATA CURLOPT_URL CURLOPT_POSTFIELDS CURLOPT_USERAGENT
         CURLOPT_POST CURLOPT_POSTFIELDSIZE CURLOPT_HTTPHEADER
         CURLOPT_READDATA].
  rewrite (bind_done _ _ _ _ _
             (perform_run w net (S (S (next s)))
                (fresh_bytes w (S (S (next s))) 0 1)
                (Options (Some url) (At NULL)
                   (Some (before_nul (OAUTH_USER_AGENT w))) true (Some n)
                   (Ptr (next s) 0) (Ptr (S (next s)) 0))
                None (Some hdr) pieces 0 s3
                ltac:(apply lookup_insert_eq) eq_refl
                (pointed_run _ hdr s3 Hh3) Htransfer Hbound)).
  cbn [fst snd]. change (negb (0 =? 0)) with false. cbv iota.
  unfold fclose, curl_easy_cleanup.
  destruct pieces as [|piece rest];
    cbn [delivered fst snd MemoryStruct.data chunk_block chunk_next];
    unfold s3; cbn [heap next trace].
  - erewrite (free_then _ (S (next s))) by find_block.
    erewrite (free_then _ (S (S (next s)))) by find_block.
    unfold ret. cbn [heap next trace]. f_equal. f_equal. heap_eq Hwf.
  - erewrite (free_then _ (S (next s))) by find_block.
    erewrite (free_then _ (S (S (next s)))) by find_block.
    unfold ret. cbn [heap next trace app]. f_equal. f_equal. heap_eq Hwf.
Qed.

Lemma post_file_returns_reply_witness :
  oauth_curl_post_file
    (Sample.glibc Sample.unset Sample.shell Sample.recycled)
    (SampleNet.with_file [str "ok"] 0 (Some 3) true)
    (Lit (str "http://h/r")) (Lit (str "photo.jpg")) 0 (At NULL)
    Sample.empty
  = (Done (Ptr (S (S (S (next Sample.empty)))) 0),
     State (<[S (S (S (next Sample.empty))) := concat [str "ok"] ++ [NUL]]>
              (<[next Sample.empty := image_jpeg ++ [NUL]]>
                 (heap Sample.empty)))
           (S (S (S (S (next Sample.empty))))) (trace Sample.empty)).
Proof.
  apply (post_file_returns_reply
           (Sample.glibc Sample.unset Sample.shell Sample.recycled)
           (SampleNet.with_file [str "ok"] 0 (Some 3) true)
           (Lit (str "http://h/r")) (Lit (str "photo.jpg")) 0 (At NULL)
           (str "http://h/r") (str "photo.jpg") image_jpeg 3 [str "ok"]
           Sample.empty).
  - intros b _. apply lookup_empty.
  - reflexivity.
  - reflexivity.
  - reflexivity.
  - reflexivity.
  - reflexivity.
  - reflexivity.
  - reflexivity.
  - vm_compute. reflexivity.
Defined.

(** ** Requests whose child cannot be started *)

(** X16.  Built without cURL, [oauth_http_post] with a valid template
    does not return NULL when [popen] fails: the fault of
    [oauth_exec_shell] ([pclose] on the null stream) is the outcome of
    the request, after the [getenv] and the [popen] of the command. *)
Theorem post_without_child_faults w net o pre mid suf u p url body s :
  wf s -> (0 < BUFSIZ w)%nat ->
  cstring_of (heap s)
    (template_source w _OAUTH_ENV_HTTPCMD (_OAUTH_DEF_HTTPCMD w))
  = Some (post_template o pre mid suf) ->
  PERCENT ∉ pre -> PERCENT ∉ mid -> PERCENT ∉ suf ->
  cstring_of (heap s) u = Some url -> cstring_of (heap s) p = Some body ->
  spawn w (take (BUFSIZ w - 1) (post_command o pre mid suf url body))
  = None ->
  fst (oauth_http_post w net false u p s) = Fault NullStream
  /\ trace (snd (oauth_http_post w net false u p s))
     = trace s
       ++ [EvGetenv _OAUTH_ENV_HTTPCMD;
           EvPopen (take (BUFSIZ w - 1)
                      (post_command o pre mid suf url body))].
Proof.
  intros Hwf HB Htpl Hpre Hmid Hsuf Hu Hp Hsp.
  pose proof (cstring_of_nonul _ _ _ Htpl) as Hnul.
  pose proof (post_template_nonul _ _ _ _ Hnul) as (Hn1 & Hn2 & Hn3).
  pose proof (cstring_of_nonul _ _ _ Hu) as Hnu.
  pose proof (cstring_of_nonul _ _ _ Hp) as Hnp.
  pose proof (post_command_nonul o pre mid suf url body Hn1 Hn2 Hn3 Hnu Hnp)
    as Hcmd.
  unfold oauth_http_post.
  rewrite (post_reduces w o pre mid suf u p url body s
             Hwf HB Htpl Hpre Hmid Hsuf Hu Hp).
  unfold cmd_holds.
  set (c := take (BUFSIZ w - 1) (post_command o pre mid suf url body)) in *.
  set (s5 := State _ _ _).
  assert (cstring_of (heap s5) (At (Ptr (next s) 0)) = Some c) as Hc5.
  { eapply cstring_at_block; [apply lookup_insert_eq|].
    apply not_elem_of_take. exact Hcmd. }
  rewrite (bind_fault _ _ _ _ _
             (exec_shell_no_stream w (Ptr (next s) 0) c s5 Hc5 Hsp)).
  cbn [fst snd trace s5]. split; [reflexivity|].
  rewrite <- app_assoc. reflexivity.
Qed.

Lemma post_without_child_faults_witness :
  fst (oauth_http_post
         (Sample.glibc Sample.unset Sample.no_fork Sample.recycled)
         SampleNet.no_handle false
         (Lit (str "http://h/r")) (Lit (str "a=1")) Sample.empty)
  = Fault NullStream
  /\ trace (snd (oauth_http_post
                   (Sample.glibc Sample.unset Sample.no_fork Sample.recycled)
                   SampleNet.no_handle false
                   (Lit (str "http://h/r")) (Lit (str "a=1")) Sample.empty))
     = trace Sample.empty
       ++ [EvGetenv _OAUTH_ENV_HTTPCMD;
           EvPopen (take (BUFSIZ (Sample.glibc Sample.unset Sample.no_fork
                                    Sample.recycled) - 1)
                      (post_command Body_first Sample.def_pre Sample.def_mid
                         Sample.def_suf (str "http://h/r") (str "a=1")))].
Proof.
  apply (post_without_child_faults
           (Sample.glibc Sample.unset Sample.no_fork Sample.recycled)
           SampleNet.no_handle
           Body_first Sample.def_pre Sample.def_mid Sample.def_suf
           (Lit (str "http://h/r")) (Lit (str "a=1"))
           (str "http://h/r") (str "a=1") Sample.empty).
  - intros b _. apply lookup_empty.
  - vm_compute. lia.
  - reflexivity.
  - apply (bool_decide_unpack _). vm_compute. exact I.
  - apply (bool_decide_unpack _). vm_compute. exact I.
  - apply (bool_decide_unpack _). vm_compute. exact I.
  - reflexivity.
  - reflexivity.
  - reflexivity.
Defined.

(** ** Outputs that take two reads *)

Lemma take_fresh_bytes w b from n k :
  (k <= n)%nat -> take k (fresh_bytes w b from n) = fresh_bytes w b from k.
Proof.
  intros Hk. unfold fresh_bytes.
  rewrite firstn_map, take_seq, Nat.min_l by exact Hk. reflexivity.
Qed.

Lemma while_pos w fuel l :
  (0 < fuel)%nat -> loop_test l = true ->
  while w fuel l = (l' <- loop_body w l ;; while w (fuel - 1) l').
Proof.
  intros Hf H. destruct fuel as [|fuel]; [lia|].
  rewrite (while_step w fuel l H), Nat.sub_1_r. reflexivity.
Qed.

(** X18.  An output of more than 1024 and less than 2048 bytes takes two
    reads, and the second is stored over the first: the buffer returned
    begins with the bytes of the output from offset 1024 on, followed by
    what they left of the first 1024, then as many bytes of fresh memory,
    and the terminator at the number of bytes read. *)
Theorem second_read_overwrites_first w cmd c out s :
  cstring_of (heap s) (At cmd) = Some c -> spawn w c = Some out ->
  (1024 < length out < 2048)%nat ->
  exists rest s',
    oauth_exec_shell w cmd s = (Done (Ptr (next s) 0), s')
    /\ heap s' !! next s
       = Some (drop 1024 out
               ++ drop (length out - 1024) (take 1024 out)
               ++ fresh_bytes w (next s) 1024 (length out - 1024)
               ++ NUL :: rest).
Proof.
  intros Hc Hsp [Hlo Hhi].
  rewrite (exec_shell_first_turn w cmd c out s Hc Hsp).
  set (F := take 1024 out). set (P := drop 1024 out).
  assert (length F = 1024%nat) as HF by (unfold F; rewrite length_take; lia).
  assert (length P = length out - 1024)%nat as HP
    by (unfold P; rewrite length_drop; lia).
  rewrite HF.
  rewrite drop_ge by (rewrite length_fresh_bytes; lia).
  rewrite app_nil_r.
  assert ((length out <? 1024)%nat = false) as -> by (apply Nat.ltb_ge; lia).
  set (l1 := Locals _ _ _ _ _). set (s1 := State _ _ _).
  rewrite (while_pos w (length out) l1 ltac:(lia) eq_refl).
  assert (heap s1 !! next s = Some F) as Hb1 by apply lookup_insert_eq.
  rewrite bind_assoc.
  rewrite (bind_done _ _ _ _ _
             (loop_body_run w l1 s1 (next s) F P false eq_refl eq_refl Hb1
                ltac:(unfold l1; cbn [alloc]; lia)
                ltac:(unfold l1; cbn [alloc]; size_lia)
                ltac:(unfold l1; cbn [len]; lia)
                ltac:(unfold l1; cbn [len]; size_lia))).
  assert (take 1024 P = P) as -> by (apply take_ge; lia).
  assert ((length P <? 1024)%nat = true) as -> by (apply Nat.ltb_lt; lia).
  cbn [orb].
  set (l2 := Locals _ _ _ _ _). set (s2 := State _ _ _).
  rewrite (bind_done _ _ _ _ _
             (while_stop w _ l2 s2 ltac:(apply andb_false_r))).
  set (X := P ++ drop (length P) (F ++ fresh_bytes w (next s) (length F) 1024)).
  assert (X = P ++ drop (length P) F ++ fresh_bytes w (next s) 1024 1024)
    as HX.
  { unfold X. rewrite drop_app_le by lia. rewrite HF. reflexivity. }
  assert (heap s2 !! next s = Some X) as Hb2 by apply lookup_insert_eq.
  assert (Z.to_nat (len l2) = 1024 + length P)%nat as Hk
    by (unfold l2, l1; cbn [len]; lia).
  assert (length X = 2048%nat) as HlenX.
  { rewrite HX, !length_app, length_drop, length_fresh_bytes. lia. }
  rewrite (finish_run l2 _ (next s) X s2 eq_refl eq_refl Hb2 ltac:(lia)).
  eexists _, _. split; [reflexivity|].
  cbn [heap]. rewrite lookup_insert_eq, Hk. f_equal.
  rewrite HX at 1.
  rewrite 2!app_assoc.
  rewrite take_app_add'
    by (rewrite length_app, length_drop; lia).
  rewrite take_fresh_bytes by lia.
  rewrite <- !app_assoc, HP. reflexivity.
Qed.

Lemma second_read_overwrites_first_witness :
  exists rest s',
    oauth_exec_shell
      (Sample.glibc Sample.unset Sample.prints_1025 Sample.recycled)
      (Ptr 0 0) (Sample.with_string (str "curl"))
    = (Done (Ptr (next (Sample.with_string (str "curl"))) 0), s')
    /\ heap s' !! next (Sample.with_string (str "curl"))
       = Some (drop 1024 (repeat "a"%char 1024 ++ ["b"%char])
               ++ drop (length (repeat "a"%char 1024 ++ ["b"%char]) - 1024)
                    (take 1024 (repeat "a"%char 1024 ++ ["b"%char]))
               ++ fresh_bytes
                    (Sample.glibc Sample.unset Sample.prints_1025
                       Sample.recycled)
                    (next (Sample.with_string (str "curl"))) 1024
                    (length (repeat "a"%char 1024 ++ ["b"%char]) - 1024)
               ++ NUL :: rest).
Proof.
  apply (second_read_overwrites_first
           (Sample.glibc Sample.unset Sample.prints_1025 Sample.recycled)
           (Ptr 0 0) (str "curl") (repeat "a"%char 1024 ++ ["b"%char])
           (Sample.with_string (str "curl"))).
  - reflexivity.
  - reflexivity.
  - rewrite length_app, repeat_length. cbn [length]. lia.
Defined.

(** ** Transfers that fail *)

(** X19.  A file posted through cURL, when libcurl reports the transfer
    as failed: the call returns NULL from the test of the code, before
    [fclose] and [curl_easy_cleanup]: the [FILE] is still open after the
    call, the handle and the header list are still allocated. *)
Theorem post_file_failure_keeps_file_open
    w net u fn len customheader url path hdr n pieces code s :
  wf s -> init_works net = true ->
  cstring_of (heap s) u = Some url ->
  cstring_of (heap s)
    (if cstr_is_null customheader then Lit image_jpeg else customheader)
  = Some hdr ->
  cstring_of (heap s) fn = Some path ->
  (if len =? 0 then option_map size_t (st_size net path) else Some len)
  = Some n ->
  fopen_works net path = true ->
  transfer net
    (Request (Some url) None (Some (before_nul (OAUTH_USER_AGENT w)))
       true (Some n) (Some hdr) (Ptr (S (next s)) 0))
  = (pieces, code) ->
  Z.of_nat (length (concat pieces)) + 1 < 2 ^ 64 ->
  code <> 0 ->
  fst (oauth_curl_post_file w net u fn len customheader s) = Done NULL
  /\ heap (snd (oauth_curl_post_file w net u fn len customheader s))
     !! next s = Some (hdr ++ [NUL])
  /\ heap (snd (oauth_curl_post_file w net u fn len customheader s))
     !! S (next s) = Some (fresh_bytes w (S (next s)) 0 1)
  /\ heap (snd (oauth_curl_post_file w net u fn len customheader s))
     !! S (S (next s)) = Some (fresh_bytes w (S (S (next s))) 0 1).
Proof.
  intros Hwf Hinit Hu Hhdr Hfn Hlen Hfopen Htransfer Hbound Hcode.
  pose proof (wf_below _ _ _ Hwf Hfn) as Bfn.
  pose proof (wf_below _ _ _ Hwf Hu) as Bu.
  pose proof (cstring_of_nonul _ _ _ Hhdr) as Hnh.
  assert (oauth_curl_post_file w net u fn len customheader s
          = (Done NULL,
             snd (delivered pieces (MemoryStruct.Make NULL 0) []
                    (State (<[S (S (next s)) :=
                                fresh_bytes w (S (S (next s))) 0 1]>
                              (<[S (next s) :=
                                   fresh_bytes w (S (next s)) 0 1]>
                                 (<[next s := hdr ++ [NUL]]> (heap s))))
                           (S (S (S (next s)))) (trace s))))) as Hrun.
  { unfold oauth_curl_post_file. cbv zeta.
  rewrite (post_file_prologue w net _ fn path len customheader hdr s
             Hwf Hhdr Hfn).
  rewrite Hlen.
  set (s1 := State _ _ _).
  assert (cstring_of (heap s1) fn = Some path) as Hfn1.
  { rewrite (cstring_of_agree (next s) (heap s)); [exact Hfn| |exact Bfn].
    unfold s1. solve_agree. }
  rewrite (bind_done _ (fun f => if is_null f then _ else _) s1
             (Ptr (next s1) 0)
             (State (<[next s1 := fresh_bytes w (next s1) 0 1]> (heap s1))
                    (S (next s1)) (trace s1)));
    [|rewrite (fopen_run w net fn path s1 Hfn1), Hfopen; reflexivity].
  cbn [is_null]. unfold curl_easy_init. rewrite Hinit.
  unfold bind at 1. unfold malloc at 1. cbn [is_null].
  unfold s1. cbn [heap next trace].
  set (s3 := State _ _ _).
  assert (agree (next s) (heap s) (heap s3)) as Hag
    by (unfold s3; solve_agree).
  assert (cstring_of (heap s3) u = Some url) as Hu3
    by (rewrite (cstring_of_agree (next s) (heap s)); assumption).
  assert (cstring_of (heap s3) (At (Ptr (next s) 0)) = Some hdr) as Hh3.
  { apply (cstring_at_block _ (next s) hdr []); [|exact Hnh].
    unfold s3. find_block. }
  rewrite (bind_done _ _ _ _ _ (setopt_URL_run no_options u url s3 Hu3)).
  rewrite (bind_done _ _ _ _ _
             (setopt_USERAGENT_run _ (Lit (OAUTH_USER_AGENT w)) _ s3
                eq_refl)).
  cbn [no_options setopt_POST setopt_POSTFIELDSIZE setopt_HTTPHEADER
         setopt_READDATA CURLOPT_URL CURLOPT_POSTFIELDS CURLOPT_USERAGENT
         CURLOPT_POST CURLOPT_POSTFIELDSIZE CURLOPT_HTTPHEADER
         CURLOPT_READDATA].
  rewrite (bind_done _ _ _ _ _
             (perform_run w net (S (S (next s)))
                (fresh_bytes w (S (S (next s))) 0 1)
                (Options (Some url) (At NULL)
                   (Some (before_nul (OAUTH_USER_AGENT w))) true (Some n)
                   (Ptr (next s) 0) (Ptr (S (next s)) 0))
                None (Some hdr) pieces code s3
                ltac:(apply lookup_insert_eq) eq_refl
                (pointed_run _ hdr s3 Hh3) Htransfer Hbound)).
  cbn [fst snd]. apply Z.eqb_neq in Hcode. rewrite Hcode. reflexivity. }
  rewrite Hrun. cbn [fst snd].
  destruct pieces as [|piece rest];
    cbn [delivered fst snd MemoryStruct.data chunk_block chunk_next
           heap next trace];
    (split; [reflexivity|]); repeat split; find_block.
Qed.

Lemma post_file_failure_keeps_file_open_witness :
  fst (oauth_curl_post_file
         (Sample.glibc Sample.unset Sample.shell Sample.recycled)
         (SampleNet.with_file [] SampleNet.couldnt_connect (Some 3) true)
         (Lit (str "http://h/r")) (Lit (str "photo.jpg")) 0 (At NULL)
         Sample.empty)
  = Done NULL
  /\ heap (snd (oauth_curl_post_file
                  (Sample.glibc Sample.unset Sample.shell Sample.recycled)
                  (SampleNet.with_file [] SampleNet.couldnt_connect (Some 3)
                     true)
                  (Lit (str "http://h/r")) (Lit (str "photo.jpg")) 0
                  (At NULL) Sample.empty))
     !! next Sample.empty = Some (image_jpeg ++ [NUL])
  /\ heap (snd (oauth_curl_post_file
                  (Sample.glibc Sample.unset Sample.shell Sample.recycled)
                  (SampleNet.with_file [] SampleNet.couldnt_connect (Some 3)
                     true)
                  (Lit (str "http://h/r")) (Lit (str "photo.jpg")) 0
                  (At NULL) Sample.empty))
     !! S (next Sample.empty)
     = Some (fresh_bytes
               (Sample.glibc Sample.unset Sample.shell Sample.recycled)
               (S (next Sample.empty)) 0 1)
  /\ heap (snd (oauth_curl_post_file
                  (Sample.glibc Sample.unset Sample.shell Sample.recycled)
                  (SampleNet.with_file [] SampleNet.couldnt_connect (Some 3)
                     true)
                  (Lit (str "http://h/r")) (Lit (str "photo.jpg")) 0
                  (At NULL) Sample.empty))
     !! S (S (next Sample.empty))
     = Some (fresh_bytes
               (Sample.glibc Sample.unset Sample.shell Sample.recycled)
               (S (S (next Sample.empty))) 0 1).
Proof.
  apply (post_file_failure_keeps_file_open
           (Sample.glibc Sample.unset Sample.shell Sample.recycled)
           (SampleNet.with_file [] SampleNet.couldnt_connect (Some 3) true)
           (Lit (str "http://h/r")) (Lit (str "photo.jpg")) 0 (At NULL)
           (str "http://h/r") (str "photo.jpg") image_jpeg 3 []
           SampleNet.couldnt_connect Sample.empty).
  - intros b _. apply lookup_empty.
  - reflexivity.
  - reflexivity.
  - reflexivity.
  - reflexivity.
  - reflexivity.
  - reflexivity.
  - reflexivity.
  - vm_compute. reflexivity.
  - discriminate.
Defined.

(** X20.  A GET through cURL that libcurl reports as failed: the block
    of the joined URL is freed (the [free] comes before the test of the
    code), but the call returns NULL without [curl_easy_cleanup]: the
    handle is still allocated after the call. *)
Theorem curl_get_failure_keeps_handle w net u q url query pieces code s :
  wf s -> init_works net = true ->
  cstring_of (heap s) u = Some url ->
  match query with
  | None => q = At NULL
  | Some qs =>
      cstring_of (heap s) q = Some qs
      /\ uninit w (next s) 0 = NUL
      /\ Z.of_nat (length url) + Z.of_nat (length qs) + 2 < 2 ^ 64
  end ->
  transfer net
    (Request (Some (effective_url url query)) None
       (Some (before_nul (OAUTH_USER_AGENT w))) false None None NULL)
  = (pieces, code) ->
  Z.of_nat (length (concat pieces)) + 1 < 2 ^ 64 ->
  code <> 0 ->
  let b := match query with
           | Some _ => S (next s)
           | None => next s
           end in
  fst (oauth_curl_get w net u q s) = Done NULL
  /\ heap (snd (oauth_curl_get w net u q s)) !! b
     = Some (fresh_bytes w b 0 1)
  /\ match query with
     | Some _ => heap (snd (oauth_curl_get w net u q s)) !! next s = None
     | None => True
     end.
Proof.
  intros Hwf Hinit Hu Hq Htransfer Hbound Hcode b.
  pose proof (cstring_of_nonul _ _ _ Hu) as Hnu.
  pose proof (wf_below _ _ _ Hwf Hu) as Bu.
  apply Z.eqb_neq in Hcode.
  destruct query as [qs|].
  - destruct Hq as (Hq & Hzero & Hwrap).
    pose proof (cstring_of_nonul _ _ _ Hq) as Hnq.
    set (s1 := State (<[S (next s) := fresh_bytes w (S (next s)) 0 1]>
                        (<[next s := (url ++ str "?" ++ qs) ++ [NUL]]>
                           (heap s)))
                     (S (S (next s))) (trace s)).
    set (r := delivered pieces (MemoryStruct.Make NULL 0) [] s1).
    assert (oauth_curl_get w net u q s
            = (Done NULL,
               State (delete (next s) (heap (snd r))) (next (snd r))
                     (trace (snd r)))) as Hrun.
    { unfold oauth_curl_get.
      rewrite (readable_not_null _ _ _ Hq).
      rewrite (bind_done _ _ _ _ _
                 (url_query_run w u q url qs s Hwf Hu Hq Hzero Hwrap)).
      cbv zeta. unfold curl_easy_init. rewrite Hinit.
      unfold bind at 1. unfold malloc at 1. cbn [is_null next heap trace].
      fold s1.
      assert (cstring_of (heap s1) (At (Ptr (next s) 0))
              = Some (url ++ str "?" ++ qs)) as Ht1.
      { eapply cstring_at_block.
        - unfold s1. find_block.
        - rewrite !not_elem_of_app. repeat split; try assumption.
          cbn. rewrite not_elem_of_cons. split;
            [discriminate | apply not_elem_of_nil]. }
      rewrite (bind_done _ _ _ _ _ (setopt_URL_run no_options _ _ s1 Ht1)).
      rewrite (bind_done _ _ _ _ _
                 (setopt_USERAGENT_run _ (Lit (OAUTH_USER_AGENT w)) _ s1
                    eq_refl)).
      cbn [no_options CURLOPT_URL CURLOPT_POSTFIELDS CURLOPT_USERAGENT
             CURLOPT_POST CURLOPT_POSTFIELDSIZE CURLOPT_HTTPHEADER
             CURLOPT_READDATA].
      rewrite (bind_done _ _ _ _ _
                 (perform_run w net (S (next s))
                    (fresh_bytes w (S (next s)) 0 1)
                    (Options (Some (url ++ str "?" ++ qs)) (At NULL)
                       (Some (before_nul (OAUTH_USER_AGENT w))) false None
                       NULL NULL)
                    None None pieces code s1
                    ltac:(apply lookup_insert_eq) eq_refl eq_refl
                    Htransfer Hbound)).
      cbn [fst snd]. rewrite Hcode. cbn [negb]. fold r.
      erewrite (free_then _ (next s))
        by (unfold r; destruct pieces;
            cbn [delivered snd MemoryStruct.data chunk_block];
            unfold s1; find_block).
      reflexivity. }
    rewrite Hrun. cbn [fst snd heap]. split; [reflexivity|]. split.
    + unfold b, r. destruct pieces;
        cbn [delivered snd MemoryStruct.data chunk_block heap]; unfold s1;
        cbn [heap next]; rewrite lookup_delete_ne by lia; find_block.
    + apply lookup_delete_eq.
  - subst q. cbn [effective_url] in *.
    set (s1 := State (<[next s := fresh_bytes w (next s) 0 1]> (heap s))
                     (S (next s)) (trace s)).
    set (r := delivered pieces (MemoryStruct.Make NULL 0) [] s1).
    assert (oauth_curl_get w net u (At NULL) s = (Done NULL, snd r)) as Hrun.
    { unfold oauth_curl_get. cbn [cstr_is_null].
      unfold ret at 1. unfold bind at 1. cbv beta iota zeta.
      unfold curl_easy_init. rewrite Hinit.
      unfold bind at 1. unfold malloc at 1. cbn [is_null].
      fold s1.
      assert (cstring_of (heap s1) u = Some url) as Hu1.
      { rewrite (cstring_of_agree (next s) (heap s)); [exact Hu| |exact Bu].
        unfold s1. solve_agree. }
      rewrite (bind_done _ _ _ _ _ (setopt_URL_run no_options _ _ s1 Hu1)).
      rewrite (bind_done _ _ _ _ _
                 (setopt_USERAGENT_run _ (Lit (OAUTH_USER_AGENT w)) _ s1
                    eq_refl)).
      cbn [no_options CURLOPT_URL CURLOPT_POSTFIELDS CURLOPT_USERAGENT
             CURLOPT_POST CURLOPT_POSTFIELDSIZE CURLOPT_HTTPHEADER
             CURLOPT_READDATA].
      rewrite (bind_done _ _ _ _ _
                 (perform_run w net (next s) (fresh_bytes w (next s) 0 1)
                    (Options (Some url) (At NULL)
                       (Some (before_nul (OAUTH_USER_AGENT w))) false None
                       NULL NULL)
                    None None pieces code s1
                    ltac:(apply lookup_insert_eq) eq_refl eq_refl
                    Htransfer Hbound)).
      cbn [fst snd]. rewrite Hcode. reflexivity. }
    rewrite Hrun. cbn [fst snd]. split; [reflexivity|]. split.
    + unfold b, r. destruct pieces;
        cbn [delivered snd MemoryStruct.data chunk_block heap]; unfold s1;
        cbn [heap next]; find_block.
    + exact I.
Qed.

Lemma curl_get_failure_keeps_handle_witness :
  fst (oauth_curl_get (Sample.glibc Sample.unset Sample.shell Sample.zeroed)
         (SampleNet.replies [str "<html>"] SampleNet.couldnt_connect)
         (Lit (str "http://h/r")) (Lit (str "a=1")) Sample.empty)
  = Done NULL
  /\ heap (snd (oauth_curl_get
                  (Sample.glibc Sample.unset Sample.shell Sample.zeroed)
                  (SampleNet.replies [str "<html>"] SampleNet.couldnt_connect)
                  (Lit (str "http://h/r")) (Lit (str "a=1")) Sample.empty))
     !! S (next Sample.empty)
     = Some (fresh_bytes
               (Sample.glibc Sample.unset Sample.shell Sample.zeroed)
               (S (next Sample.empty)) 0 1)
  /\ heap (snd (oauth_curl_get
                  (Sample.glibc Sample.unset Sample.shell Sample.zeroed)
                  (SampleNet.replies [str "<html>"]
                     SampleNet.couldnt_connect)
                  (Lit (str "http://h/r")) (Lit (str "a=1")) Sample.empty))
     !! next Sample.empty = None.
Proof.
  apply (curl_get_failure_keeps_handle
           (Sample.glibc Sample.unset Sample.shell Sample.zeroed)
           (SampleNet.replies [str "<html>"] SampleNet.couldnt_connect)
           (Lit (str "http://h/r")) (Lit (str "a=1"))
           (str "http://h/r") (Some (str "a=1")) [str "<html>"]
           SampleNet.couldnt_connect Sample.empty).
  - intros b _. apply lookup_empty.
  - reflexivity.
  - reflexivity.
  - split; [reflexivity|]. split; [reflexivity|]. vm_compute. reflexivity.
  - reflexivity.
  - vm_compute. reflexivity.
  - discriminate.
Defined.
